(** * RITC2025: order book, currency ledger, position ledger, gateway and
      arbitrage signals, embedded from the Python sources

    The development follows the layout of the repository:

    - [Py]                 the fragment of Python the sources rely on
                           (exceptions, numbers, [str.upper]/[str.lower]);
    - [OrderBook]          [RITC/base/OrderBook.py];
    - [CashAccount], [BankAccount]
                           the currency part of [RITC/base/Portfolio.py];
    - [Asset], [Portfolio] the position part of [RITC/base/Portfolio.py];
    - [ApiTrading]         [base/ApiTrading.py] ([place_order]);
    - [ArbitrageStrategy]  [ALGO/ArbitrageStrategy.py];
    - [ExtendOrderBook], [History]
                           stress pricing and the histories of
                           [RITC/base/OrderBook.py];
    - [TenderBook]         [RITC/base/NewsBook.py];
    - [Subaccounts], [Exposure]
                           cash subaccounts and exposure of
                           [RITC/base/Portfolio.py];
    - [ApiOperations]      the rest of [base/ApiTrading.py];
    - [ETFSignal]          [generate_etf_signal].

    Numbers.  The sources compute with Python [int] and [float].  Both are
    embedded as exact rationals [Q]; [int(x)] is truncation toward zero.
    Rounding error of binary floating point is therefore outside the model,
    and position limits are finite rationals (the [float('inf')] default of
    the constructors stands for a bound that is never reached).  Equality of
    numbers is [Qeq] ([==]).

    Exceptions.  A Python call either returns or raises; functions that can
    raise return [result A]. *)

From Stdlib Require Import QArith Qabs Lqa Lia ZArith String Ascii List Sorted.
From stdpp Require Import base gmap strings.

Local Open Scope Q_scope.
Local Open Scope string_scope.

(* ===================================================================== *)
(** ** Python fragment *)
(* ===================================================================== *)

Module Py.

Inductive exn : Set :=
| KeyError | ValueError | TypeError | ZeroDivisionError | AttributeError.

Inductive result (A : Type) : Type :=
| Ok (a : A)
| Raise (e : exn).
Global Arguments Ok {A} a.
Global Arguments Raise {A} e.

Global Instance result_ret : MRet result := fun _ a => Ok a.
Global Instance result_bind : MBind result := fun _ _ f m =>
  match m with
  | Ok a => f a
  | Raise e => Raise e
  end.

(** [a / b] on Python numbers. *)
Definition div (a b : Q) : result Q :=
  if Qeq_dec b 0 then Raise ZeroDivisionError else Ok (a / b).

(** [a > b]. *)
Definition gt (a b : Q) : bool := if Qlt_le_dec b a then true else false.

(** [min(a, b)]. *)
Definition min (a b : Q) : Q := if Qlt_le_dec b a then b else a.

(** [int(x)]: truncation toward zero. *)
Definition int (x : Q) : Z := Z.quot (Qnum x) (Zpos (Qden x)).

(** [x[k]] on a dict. *)
Definition getitem `{Countable K} {V} (d : gmap K V) (k : K) : result V :=
  match d !! k with
  | Some v => Ok v
  | None => Raise KeyError
  end.

(** [str.upper] and [str.lower], on ASCII text. *)
Definition upper_ascii (c : ascii) : ascii :=
  let n := nat_of_ascii c in
  if ((97 <=? n) && (n <=? 122))%nat then ascii_of_nat (n - 32) else c.

Definition lower_ascii (c : ascii) : ascii :=
  let n := nat_of_ascii c in
  if ((65 <=? n) && (n <=? 90))%nat then ascii_of_nat (n + 32) else c.

Fixpoint upper (s : string) : string :=
  match s with
  | EmptyString => EmptyString
  | String c r => String (upper_ascii c) (upper r)
  end.

Fixpoint lower (s : string) : string :=
  match s with
  | EmptyString => EmptyString
  | String c r => String (lower_ascii c) (lower r)
  end.

(** [s in [a, b]] for a two-element list literal. *)
Definition among (s a b : string) : bool := String.eqb s a || String.eqb s b.

End Py.
Import Py.

(* ===================================================================== *)
(** ** RITC/base/OrderBook.py *)
(* ===================================================================== *)

Module OrderBook.

(** [Order] after [__post_init__]: [volume] is the remaining volume. *)
Record Order : Type := mkOrder {
  price : Q;
  volume : Q;
  filled_volume : Q;
  order_type : string;
  timestamp : option Z;
  id : option Z;
  price_type : string;
  vwap : option Q;
  initial_volume : Q
}.

(** [Order(price, volume, filled_volume, order_type, timestamp, id,
    price_type, vwap)] with its [__post_init__]. *)
Definition new_order (price volume filled_volume : Q) (order_type : string)
    (timestamp id : option Z) (price_type : string) (vwap : option Q)
  : result Order :=
  let order_type := lower order_type in
  let price_type := lower price_type in
  if negb (among order_type "bid" "ask") then Raise ValueError
  else if negb (among price_type "limit" "market") then Raise ValueError
  else Ok (mkOrder price (volume - filled_volume) filled_volume order_type
             timestamp id price_type vwap volume).

(** The book.  [bid_head] and [ask_head] are the chains of orders reached
    from the head pointers through [next]; the empty chain is [None]. *)
Record Book : Type := mkBook {
  bid_head : list Order;
  ask_head : list Order;
  transaction_fee : Q;
  rebate_fee : Q;
  currency : string
}.

(** [get_total_bid_volume] / [get_total_ask_volume]: the loop over a chain. *)
Fixpoint total_volume (current : list Order) : Q :=
  match current with
  | [] => 0
  | o :: next => volume o + total_volume next
  end.

Definition get_total_bid_volume (self : Book) : Q :=
  total_volume (bid_head self).
Definition get_total_ask_volume (self : Book) : Q :=
  total_volume (ask_head self).

(** The [while unfilled_quantity > 0 and current] loop of
    [calculate_vwap_market_price]; returns
    [(total_cost, unfilled_quantity)]. *)
Fixpoint fill_loop (current : list Order) (total_cost unfilled_quantity : Q)
  : Q * Q :=
  match current with
  | [] => (total_cost, unfilled_quantity)
  | o :: next =>
      if Qlt_le_dec 0 unfilled_quantity then
        if Qlt_le_dec (volume o) unfilled_quantity then
          fill_loop next (total_cost + price o * volume o)
                    (unfilled_quantity - volume o)
        else
          fill_loop next (total_cost + price o * unfilled_quantity) 0
      else (total_cost, unfilled_quantity)
  end.

Definition calculate_vwap_market_price (self : Book) (quantity : Q)
    (action : string) (consider_cost : bool) : result (option Q) :=
  let action := lower action in
  if negb (among action "buy" "sell") then Raise ValueError
  else
    let current := if String.eqb action "buy" then ask_head self
                   else bid_head self in
    let '(total_cost, unfilled_quantity) := fill_loop current 0 quantity in
    if Qlt_le_dec 0 unfilled_quantity then Ok None
    else
      avg ← div total_cost quantity;
      if consider_cost then
        if String.eqb action "buy"
        then Ok (Some (avg + transaction_fee self))
        else Ok (Some (avg - transaction_fee self))
      else Ok (Some avg).

(** Result of [limit_order_assistant]:
    [{"order_type": ..., "price": ...}]. *)
Record Advice : Type := mkAdvice {
  advice_order_type : string;
  advice_price : option Q
}.

(** The cumulative-volume loop of [limit_order_assistant]. *)
Fixpoint limit_loop (current : list Order) (cumulative_volume : Q)
    (limit_price : option Q) (trade_volume : Q) : option Q :=
  match current with
  | [] => limit_price
  | o :: next =>
      if Qlt_le_dec cumulative_volume trade_volume then
        limit_loop next (cumulative_volume + volume o) (Some (price o))
                   trade_volume
      else limit_price
  end.

(** [self.ask_head.price]: attribute access on a possibly-[None] head. *)
Definition head_price (head : list Order) : result Q :=
  match head with
  | [] => Raise AttributeError
  | o :: _ => Ok (price o)
  end.

Definition limit_order_assistant (self : Book) (trade_volume : Q)
    (side : string) (slippage_tolerance : Q) : result Advice :=
  if negb (among side "buy" "sell") then Raise ValueError
  else
    market_price ← head_price (if String.eqb side "buy" then ask_head self
                               else bid_head self);
    average_price ← calculate_vwap_market_price self trade_volume side false;
    (* [abs(average_price - market_price) if average_price else inf]:
       [None] and [0] are both falsy; [inf <= tolerance] is false *)
    let within :=
      match average_price with
      | Some a =>
          if Qeq_dec a 0 then false
          else if Qlt_le_dec slippage_tolerance (Qabs (a - market_price))
               then false else true
      | None => false
      end in
    if within then Ok (mkAdvice "market" None)
    else
      let current := if String.eqb side "buy" then ask_head self
                     else bid_head self in
      Ok (mkAdvice "limit" (limit_loop current 0 None trade_volume)).

(** [price * trade_volume] and [price + fee] where [price] may be [None]. *)
Definition number (x : option Q) : result Q :=
  match x with
  | Some p => Ok p
  | None => Raise TypeError
  end.

Definition calculate_total_profit (self : Book) (trade_volume : Q)
    (order_type action : string) (price : option Q) : result Q :=
  if negb (among order_type "market" "limit") then Raise ValueError
  else if String.eqb order_type "market" then
    if String.eqb action "buy" then
      price ← calculate_vwap_market_price self trade_volume "buy" true;
      p ← number price;
      Ok (p * trade_volume)
    else
      price ← calculate_vwap_market_price self trade_volume "sell" true;
      p ← number price;
      Ok (p * trade_volume)
  else
    if String.eqb action "buy" then
      p ← number price;
      Ok ((p + transaction_fee self - rebate_fee self) * trade_volume)
    else
      p ← number price;
      Ok ((p - transaction_fee self + rebate_fee self) * trade_volume).

(** The levels the fill loop visits: the prefix of the chain it walks
    before [unfilled_quantity] reaches zero. *)
Fixpoint consumed (current : list Order) (unfilled_quantity : Q)
  : list Order :=
  match current with
  | [] => []
  | o :: next =>
      if Qlt_le_dec 0 unfilled_quantity then
        o :: (if Qlt_le_dec (volume o) unfilled_quantity
              then consumed next (unfilled_quantity - volume o)
              else [])
      else []
  end.

(** A resting level [(price, volume)] with nothing filled yet. *)
Definition level (side : string) (p v : Q) : Order :=
  mkOrder p v 0 side None None "limit" None v.

End OrderBook.

(* ===================================================================== *)
(** ** RITC/base/Portfolio.py: cash and currencies *)
(* ===================================================================== *)

Module CashAccount.

Record t : Type := mk {
  cash : Q;
  currency : string;
  net_limit : Q;
  gross_limit : Q
}.

Definition check_limits (self : t) (amount : Q) : bool :=
  if gt (Qabs (cash self + amount)) (net_limit self) then true
  else if gt (Qabs (cash self) + Qabs amount) (gross_limit self) then true
  else false.

End CashAccount.

Module BankAccount.

(** The innermost dict [{"bid": bid_rate, "ask": ask_rate}]. *)
Record Rate : Type := mkRate { bid : Q; ask : Q }.

Record t : Type := mk {
  main_currency : string;
  exchange_rates : gmap string (gmap string Rate)
}.

Definition set_foreign_exchange_rate (self : t)
    (base_currency quote_currency : string) (bid_rate ask_rate : Q) : t :=
  mk (main_currency self)
     (<[upper base_currency :=
          {[upper quote_currency := mkRate bid_rate ask_rate]}]>
        (exchange_rates self)).

(** [self.exchange_rates[a][b]]. *)
Definition stored (self : t) (a b : string) : result Rate :=
  d ← getitem (exchange_rates self) a;
  getitem d b.

Definition get_exchange_rate (self : t) (base_currency quote_currency : string)
    (action : string) : result Q :=
  let action := lower action in
  let base_currency := upper base_currency in
  let quote_currency := upper quote_currency in
  if String.eqb base_currency quote_currency then Ok 1
  else if negb (among action "buy" "sell") then Raise ValueError
  else
    match stored self base_currency quote_currency with
    | Ok r => Ok (if String.eqb action "sell" then bid r else ask r)
    | Raise KeyError =>
        match stored self quote_currency base_currency with
        | Ok r => div 1 (if String.eqb action "sell" then ask r else bid r)
        | Raise KeyError => Raise ValueError
        | Raise e => Raise e
        end
    | Raise e => Raise e
    end.

Definition currency_value_conversion (self : t)
    (from_currency to_currency : string) (initial_value : Q) : result Q :=
  rate ← (if Qlt_le_dec 0 initial_value
          then get_exchange_rate self from_currency to_currency "buy"
          else get_exchange_rate self from_currency to_currency "sell");
  div initial_value rate.

Definition currency_value_conversion_targetamount (self : t)
    (from_currency to_currency : string) (target_value : Q) : result Q :=
  rate ← get_exchange_rate self from_currency to_currency "buy";
  Ok (target_value * rate).

End BankAccount.

(* ===================================================================== *)
(** ** RITC/base/Portfolio.py: assets and position limits *)
(* ===================================================================== *)

Module Asset.

Record t : Type := mk {
  name : string;
  currency : string;
  volume : Q;
  maximum_trade_size : Q;
  minimum_trade_size : Q;
  is_tradeable : bool;
  is_shortable : bool;
  gross_limit : Q;
  net_limit : Q;
  limit_multiplier : Q
}.

Definition get_volume (self : t) : Q := volume self.

End Asset.

Module Portfolio.

Record t : Type := mk {
  assets : gmap string Asset.t;
  gross_limit : Q;
  net_limit : Q;
  gross_position : Q;
  net_position : Q;
  max_usage : Q
}.

(** The loop of [check_portfolio_limits] over [self.assets.items()];
    returns [(gross_position, net_position)]. *)
Definition positions_after (items : list (string * Asset.t))
    (asset_name : string) (volume : Q) : Q * Q :=
  fold_left
    (fun acc item =>
       if String.eqb (fst item) (upper asset_name) then
         (fst acc + Qabs (Asset.get_volume (snd item) + volume),
          snd acc + (Asset.get_volume (snd item) + volume))
       else
         (fst acc + Qabs (Asset.get_volume (snd item)),
          snd acc + Asset.get_volume (snd item)))
    items (0, 0).

Definition check_portfolio_limits (self : t) (asset_name : string)
    (volume : Q) : bool :=
  let '(gross_position, net_position) :=
    positions_after (map_to_list (assets self)) asset_name volume in
  if gt gross_position (gross_limit self * max_usage self) then true
  else if gt (Qabs net_position) (net_limit self * max_usage self) then true
  else false.

Definition check_limits (self : t) (asset_name : string) (volume : Q)
  : result bool :=
  a ← getitem (assets self) asset_name;
  if gt (Qabs (Asset.get_volume a) + volume)
        (Asset.gross_limit a * max_usage self) then Ok true
  else if gt (Qabs (Asset.get_volume a + volume))
             (Asset.net_limit a * max_usage self) then Ok true
  else if check_portfolio_limits self asset_name volume then Ok true
  else Ok false.

(** Returns [True] or falls off the end ([None]). *)
Fixpoint check_bulk_limits (self : t) (asset_quantity : list (string * Q))
  : result (option bool) :=
  match asset_quantity with
  | [] => Ok None
  | (name_, quantity) :: rest =>
      exceeds ← check_limits self name_ quantity;
      if (exceeds : bool) then Ok (Some true)
      else check_bulk_limits self rest
  end.

(** The loop of [check_bulk_portfolio_limits]. *)
Fixpoint bulk_positions (self : t) (asset_quantity : list (string * Q))
    (gross_position net_position : Q) : result (Q * Q) :=
  match asset_quantity with
  | [] => Ok (gross_position, net_position)
  | (name_, quantity) :: rest =>
      a ← getitem (assets self) name_;
      let v := Asset.get_volume a in
      if Qlt_le_dec (v * quantity) 0 then
        if gt (Qabs v) (Qabs quantity) then
          bulk_positions self rest (gross_position - Qabs quantity)
                         (net_position + quantity)
        else
          bulk_positions self rest
                         (gross_position - Qabs v + Qabs (quantity + v))
                         (net_position + quantity)
      else
        bulk_positions self rest (gross_position + Qabs quantity)
                       (net_position + quantity)
  end.

Definition check_bulk_portfolio_limits (self : t)
    (asset_quantity : list (string * Q)) : result bool :=
  '(gross_position, net_position) ←
     bulk_positions self asset_quantity (gross_position self)
                    (net_position self);
  if gt gross_position (gross_limit self * max_usage self) then Ok true
  else if gt (Qabs net_position) (net_limit self * max_usage self)
       then Ok true
       else Ok false.

(** [sum(asset_quantity.values())]. *)
Definition sum_values (asset_quantity : list (string * Q)) : Q :=
  fold_left (fun acc item => acc + snd item) asset_quantity 0.

(** The [total_gross_position] loop of [adjust_position]. *)
Fixpoint gross_delta (self : t) (asset_quantity : list (string * Q))
    (total_gross_position : Q) : result Q :=
  match asset_quantity with
  | [] => Ok total_gross_position
  | (name_, quantity) :: rest =>
      a ← getitem (assets self) name_;
      if gt (quantity * Asset.get_volume a) 0
      then gross_delta self rest (total_gross_position + Qabs quantity)
      else gross_delta self rest (total_gross_position - Qabs quantity)
  end.

Definition adjust_position (self : t) (asset_quantity : list (string * Q))
  : result Q :=
  let max_gross := gross_limit self * max_usage self in
  let max_net := net_limit self * max_usage self in
  let gross_position := gross_position self in
  let net_position := net_position self in
  if gt (Qabs net_position) max_net || gt gross_position max_gross
  then Ok 0
  else
    let total_net_position := sum_values asset_quantity in
    ratio ←
      (if gt (total_net_position * net_position) 0 then
         r ← div (max_net - Qabs net_position) (Qabs total_net_position);
         Ok (min r 1)
       else if gt (Qabs (net_position + total_net_position)) max_net then
         r ← div (Qabs max_net + Qabs net_position)
                 (Qabs total_net_position);
         Ok (min r 1)
       else Ok 1);
    total_gross_position ← gross_delta self asset_quantity 0;
    if gt total_gross_position (max_gross - gross_position) then
      r ← div (max_gross - gross_position) total_gross_position;
      Ok (min ratio r)
    else Ok ratio.

(** [not x] for [x] in [{True, None}]. *)
Definition falsy (x : option bool) : bool :=
  match x with
  | Some true => false
  | _ => true
  end.

Definition compress_position (self : t) (asset_quantity : list (string * Q))
  : result (list (string * Q)) :=
  exceeds ← check_bulk_limits self asset_quantity;
  if falsy exceeds then
    Ok (map (fun item => (fst item, snd item)) asset_quantity)
  else
    ratio ← adjust_position self asset_quantity;
    Ok (map (fun item => (fst item, inject_Z (int (ratio * snd item))))
            asset_quantity).

(** Exposure of the book of assets once a batch has been applied: every
    asset's volume moved by its delta, summed as in
    [check_portfolio_limits]. *)
Definition delta_for (asset_quantity : list (string * Q)) (name_ : string)
  : Q :=
  fold_right
    (fun item acc => if String.eqb (fst item) name_ then snd item + acc
                     else acc)
    0 asset_quantity.

Definition resulting_gross (self : t) (asset_quantity : list (string * Q))
  : Q :=
  fold_right
    (fun item acc =>
       Qabs (Asset.get_volume (snd item)
             + delta_for asset_quantity (fst item)) + acc)
    0 (map_to_list (assets self)).

End Portfolio.

(* ===================================================================== *)
(** ** base/ApiTrading.py *)
(* ===================================================================== *)

Module ApiTrading.

(** The query parameters of [POST /orders]. *)
Record Payload : Type := mkPayload {
  p_ticker : string;
  p_type : string;
  p_quantity : Q;
  p_action : string;
  p_dry_run : Z;
  p_price : option Q
}.

(** What the venue answers: the status code and the JSON fields read by
    [place_order]. *)
Record Response : Type := mkResponse {
  status_code : Z;
  r_price : Q;
  r_quantity : Q;
  r_quantity_filled : Q;
  r_action : string;
  r_tick : Z;
  r_order_id : Z;
  r_type : string;
  r_vwap : option Q
}.

(** [ApiTrading] extends [Portfolio]; [posted] logs the requests sent
    through [self.session]. *)
Record t : Type := mk {
  portfolio : Portfolio.t;
  history_orders : gmap Z OrderBook.Order;
  completed_orders : gset Z;
  active_orders : gset Z;
  order_timestamps : list Q;
  posted : list Payload
}.

(** The return value of [place_order]: the order, or [-1]. *)
Inductive placed : Type :=
| Placed (order_ : OrderBook.Order)
| Failed.

Definition place_order (session_post : Payload -> Response) (now : Q)
    (self : t) (ticker type : string) (quantity : Q) (action : string)
    (price : option Q) : result placed * t :=
  if Qeq_dec quantity 0 then (Ok Failed, self)
  else
    match getitem (Portfolio.assets (portfolio self)) (upper ticker) with
    | Raise e => (Raise e, self)
    | Ok a =>
        if negb (Asset.is_tradeable a) then (Ok Failed, self)
        else
          (* [None]: the early [return -1] of the shortable check *)
          let checked : option Q :=
            if negb (Asset.is_shortable a)
               && String.eqb (lower action) "sell" then
              if Qlt_le_dec (Asset.get_volume a) 0 then None
              else if Qlt_le_dec (Asset.get_volume a + quantity) 0
                   then Some (Asset.get_volume a)
                   else Some quantity
            else Some quantity in
          match checked with
          | None => (Ok Failed, self)
          | Some quantity =>
              let quantity :=
                if gt quantity (Asset.maximum_trade_size a)
                then Asset.maximum_trade_size a else quantity in
              let payload :=
                mkPayload (upper ticker) (upper type) quantity
                          (upper action) 0 price in
              let resp := session_post payload in
              let self :=
                mk (portfolio self) (history_orders self)
                   (completed_orders self) (active_orders self)
                   (order_timestamps self) (posted self ++ [payload])%list in
              if (status_code resp =? 200)%Z then
                match OrderBook.new_order (r_price resp) (r_quantity resp)
                        (r_quantity_filled resp)
                        (if String.eqb (lower (r_action resp)) "buy"
                         then "bid" else "ask")
                        (Some (r_tick resp)) (Some (r_order_id resp))
                        (r_type resp) (r_vwap resp) with
                | Raise e => (Raise e, self)
                | Ok order_ =>
                    let done :=
                      if Qeq_dec (OrderBook.volume order_) 0 then true
                      else false in
                    (Ok (Placed order_),
                     mk (portfolio self)
                        (<[r_order_id resp := order_]> (history_orders self))
                        (if done
                         then {[r_order_id resp]} ∪ completed_orders self
                         else completed_orders self)
                        (if done then active_orders self
                         else {[r_order_id resp]} ∪ active_orders self)
                        (order_timestamps self ++ [now])%list
                        (posted self))
                end
              else (Ok Failed, self)
          end
    end.

End ApiTrading.

(* ===================================================================== *)
(** ** ALGO/ArbitrageStrategy.py *)
(* ===================================================================== *)

Module ArbitrageStrategy.

(** One entry of the ["order"] list. *)
Record Leg : Type := mkLeg {
  ticker : string;
  order_type : string;
  price : option Q;
  quantity : Q;
  value : Q;
  value_cad : Q
}.

(** [{"profit": ..., "order": [...]}]. *)
Record ProfitInfo : Type := mkProfitInfo {
  profit : Q;
  order : list Leg
}.

(** The strategy object; [slippage_tolerance] is read with
    [getattr(self, "slippage_tolerance", 0)]. *)
Record t : Type := mk { slippage_tolerance : option Q }.

Definition getattr_slippage_tolerance (self : t) : Q :=
  match slippage_tolerance self with
  | Some x => x
  | None => 0
  end.

(** The [for stock in stock_data] loop of [calculate_converter_profit];
    returns [(stock_value, legs)]. *)
Fixpoint stock_loop (self : t) (stock_data : list (string * OrderBook.Book))
    (weights : gmap string Q) (quantity : Q) (action : string)
    (bank_account : BankAccount.t) (stock_value : Q) (legs : list Leg)
  : result (Q * list Leg) :=
  match stock_data with
  | [] => Ok (stock_value, legs)
  | (stock, book) :: rest =>
      match weights !! stock with
      | None => Raise ValueError
      | Some w =>
          result ← OrderBook.limit_order_assistant book quantity action
                     (getattr_slippage_tolerance self);
          number ← OrderBook.calculate_total_profit book (quantity * w)
                     (OrderBook.advice_order_type result) action
                     (OrderBook.advice_price result);
          number_cad ←
            (if String.eqb action "buy" then
               BankAccount.currency_value_conversion_targetamount
                 bank_account "CAD" (OrderBook.currency book) number
             else
               BankAccount.currency_value_conversion
                 bank_account (OrderBook.currency book) "CAD" number);
          stock_loop self rest weights quantity action bank_account
            (stock_value + number_cad)
            (legs ++ [mkLeg stock (OrderBook.advice_order_type result)
                        (OrderBook.advice_price result) (w * quantity)
                        number number_cad])%list
      end
  end.

Definition calculate_converter_profit (self : t)
    (stock_data : list (string * OrderBook.Book)) (weights : gmap string Q)
    (etf_data : OrderBook.Book) (quantity convert_fee : Q)
    (fee_currency action : string) (bank_account : BankAccount.t)
    (etf_price : option Q) : result ProfitInfo :=
  '(stock_value, legs) ←
     stock_loop self stock_data weights quantity action bank_account 0 [];
  let etf_action := if String.eqb action "sell" then "buy" else "sell" in
  '(result_etf, etf_value) ←
     match etf_price with
     | None =>
         result_etf ← OrderBook.limit_order_assistant etf_data quantity
                        etf_action (getattr_slippage_tolerance self);
         etf_value ← OrderBook.calculate_total_profit etf_data quantity
                       (OrderBook.advice_order_type result_etf) etf_action
                       (OrderBook.advice_price result_etf);
         Ok (result_etf, etf_value)
     | Some p => Ok (OrderBook.mkAdvice "limit" (Some p), p * quantity)
     end;
  etf_value_cad ←
    (if String.eqb etf_action "sell" then
       BankAccount.currency_value_conversion
         bank_account (OrderBook.currency etf_data) "CAD" etf_value
     else
       BankAccount.currency_value_conversion_targetamount
         bank_account "CAD" (OrderBook.currency etf_data) etf_value);
  let legs :=
    (legs ++ [mkLeg "ETF" (OrderBook.advice_order_type result_etf)
                (OrderBook.advice_price result_etf) quantity etf_value
                etf_value_cad])%list in
  convert_fee_cad ←
    BankAccount.currency_value_conversion_targetamount
      bank_account "CAD" fee_currency convert_fee;
  if String.eqb action "buy" then
    Ok (mkProfitInfo (etf_value_cad - stock_value
                      - quantity * convert_fee_cad) legs)
  else
    Ok (mkProfitInfo (stock_value - etf_value_cad
                      - quantity * convert_fee_cad) legs).

(** [s if profit > 0 and (profit / quantity + shift > threshold) else 0];
    the division is only evaluated when [profit > 0]. *)
Definition threshold_signal (s : Z) (profit quantity shift threshold : Q)
  : result Z :=
  if gt profit 0 then
    per_unit ← div profit quantity;
    if gt (per_unit + shift) threshold then Ok s else Ok 0%Z
  else Ok 0%Z.

Definition generate_convert_signal (self : t)
    (stock_data : list (string * OrderBook.Book)) (weights : gmap string Q)
    (etf_data : OrderBook.Book) (quantity convert_fee : Q)
    (fee_currency : string) (bank_account : BankAccount.t)
    (price_shift create_threshold redeem_threshold : Q)
  : result (Z * list Leg) :=
  create_ETF_profit ←
    calculate_converter_profit self stock_data weights etf_data quantity
      convert_fee fee_currency "buy" bank_account None;
  redeem_ETF_profit ←
    calculate_converter_profit self stock_data weights etf_data quantity
      convert_fee fee_currency "sell" bank_account None;
  signal ← threshold_signal 1 (profit create_ETF_profit) quantity
             price_shift create_threshold;
  signal2 ← threshold_signal (-1) (profit redeem_ETF_profit) quantity
              (- price_shift) redeem_threshold;
  if gt create_threshold redeem_threshold
  then Ok (signal, order create_ETF_profit)
  else Ok (signal2, order redeem_ETF_profit).

Definition tender_signal2 (tender_action : string)
    (tender_price tender_volume : Q) (order_book : OrderBook.Book)
    (buy_threshold sell_threshold : Q) : result (Z * Q) :=
  let tender_action := lower tender_action in
  let myaction := if String.eqb tender_action "sell" then "buy"
                  else "sell" in
  vwap ← OrderBook.calculate_vwap_market_price order_book tender_volume
           myaction true;
  (* [tender_price - vwap] with [vwap = None] raises *)
  vwap ← OrderBook.number vwap;
  if String.eqb tender_action "buy" then
    let profit := tender_price - vwap in
    if gt profit buy_threshold then Ok (1%Z, profit)
    else Ok (0%Z, 0)
  else
    let profit := vwap - tender_price in
    if gt profit sell_threshold then Ok (1%Z, profit)
    else Ok (0%Z, 0).

End ArbitrageStrategy.

(* ===================================================================== *)
(** ** RITC/base/OrderBook.py: stress pricing and the histories *)
(* ===================================================================== *)

Module ExtendOrderBook.
Import OrderBook.

(** The loop of [stress_testing_market_price]; returns
    [(total_cost, unfilled_quantity)]. *)
Fixpoint stress_loop (current : list Order)
    (quantity_stress_factor price_stress_factor : Q)
    (total_cost unfilled_quantity : Q) : Q * Q :=
  match current with
  | [] => (total_cost, unfilled_quantity)
  | o :: next =>
      if Qlt_le_dec 0 unfilled_quantity then
        if Qlt_le_dec (volume o * quantity_stress_factor) unfilled_quantity
        then
          stress_loop next quantity_stress_factor price_stress_factor
            (total_cost
             + price o * price_stress_factor * volume o * price_stress_factor)
            (unfilled_quantity - volume o * price_stress_factor)
        else
          stress_loop next quantity_stress_factor price_stress_factor
            (total_cost + price o * price_stress_factor * unfilled_quantity)
            0
      else (total_cost, unfilled_quantity)
  end.

Definition stress_testing_market_price (self : Book) (quantity : Q)
    (quantity_stress_factor price_stress_factor : Q) (action : string)
    (consider_cost : bool) : result (option Q) :=
  let action := lower action in
  if negb (among action "buy" "sell") then Raise ValueError
  else
    let current := if String.eqb action "buy" then ask_head self
                   else bid_head self in
    let price_stress_factor :=
      if String.eqb action "buy" then 1 + price_stress_factor
      else 1 - price_stress_factor in
    let '(total_cost, unfilled_quantity) :=
      stress_loop current quantity_stress_factor price_stress_factor
                  0 quantity in
    if Qlt_le_dec 0 unfilled_quantity then Ok None
    else
      avg ← div total_cost quantity;
      if consider_cost then
        if String.eqb action "buy"
        then Ok (Some (avg + transaction_fee self))
        else Ok (Some (avg - transaction_fee self))
      else Ok (Some avg).

End ExtendOrderBook.


(** A Python dict as an association list in insertion order with unique
    keys. *)
Module Dict.
Section Dict.
Context {K V : Type} `{EqDecision K}.


(** [d[k] = v]: replace in place, or append. *)
Fixpoint set (d : list (K * V)) (k : K) (v : V) : list (K * V) :=
  match d with
  | [] => [(k, v)]
  | (k', v') :: rest =>
      if decide (k' = k) then (k', v) :: rest else (k', v') :: set rest k v
  end.

End Dict.
End Dict.

(** The bookkeeping fields of [OrderBook], which no pricing function
    reads: the transaction and price histories. *)
Module History.

Record Transaction : Type := mkTransaction {
  period : Z;
  t_price : Q;
  quantity : Q;
  tick : Z
}.

Record Quote : Type := mkQuote {
  q_best_bid : Q;
  q_best_ask : Q;
  q_last : Q
}.

Record t : Type := mk {
  transaction_history : list (nat * Transaction);
  price_history : list (nat * Quote);
  last : Q;
  best_bid : Q;
  best_ask : Q
}.

(** [len(self.price_history) if self.price_history else 0]. *)
Definition next_key (self : t) : nat :=
  match price_history self with
  | [] => 0%nat
  | _ :: _ => length (price_history self)
  end.

(** The parameter [id] is not used by the method. *)
Definition record_transaction (self : t) (id : Z) (period : Z)
    (price quantity : Q) (tick : Z) : t :=
  mk (Dict.set (transaction_history self) (next_key self)
        (mkTransaction period price quantity tick))
     (price_history self) (last self) (best_bid self) (best_ask self).

(** [max(self.transaction_history.keys())]. *)
Definition get_last_transaction_id (self : t) : result nat :=
  match transaction_history self with
  | [] => Raise ValueError
  | (k, _) :: rest => Ok (fold_left Nat.max (map fst rest) k)
  end.

Definition update_price_history (self : t) (last_price best_bid best_ask : Q)
  : t :=
  mk (transaction_history self)
     (Dict.set (price_history self) (next_key self)
        (mkQuote best_bid best_ask last_price))
     last_price best_bid best_ask.

(** [get_price_history(type="array")]: the last prices in dict order. *)
Definition get_price_history (self : t) : list Q :=
  map (fun item => q_last (snd item)) (price_history self).

(** [get_n_last_prices(n)]: the slice [[-n:]] for [n >= 0]; [[-0:]] is the
    whole list. *)
Definition get_n_last_prices (self : t) (n : nat) : list Q :=
  let prices := get_price_history self in
  match n with
  | O => prices
  | S _ => skipn (length prices - n) prices
  end.

End History.

(* ===================================================================== *)
(** ** RITC/base/NewsBook.py: tenders *)
(* ===================================================================== *)

Module TenderBook.

Record Tender : Type := mkTender {
  id : string;
  ticker : string;
  volume : Z;
  price : Q;
  action : string;
  tick : Z;
  expire : Z;
  fixed : bool;
  valid : bool
}.

(** [Tender(id, ticker, volume, price, action, tick, expire, fixed)] with
    its [__post_init__]. *)
Definition new_tender (id ticker : string) (volume : Z) (price : Q)
    (action : string) (tick expire : Z) (fixed : bool) : Tender :=
  mkTender id ticker volume price action tick expire fixed
           (tick <? expire)%Z.

Record t : Type := mk {
  history_tenders : gmap string Tender;
  tenders : gmap string Tender
}.

Definition add_tender (self : t) (tender : Tender) : t :=
  mk (<[id tender := tender]> (history_tenders self))
     (<[id tender := tender]> (tenders self)).

Definition delete_tender (self : t) (tender_id : string) : t :=
  match tenders self !! tender_id with
  | Some _ => mk (history_tenders self) (delete tender_id (tenders self))
  | None => self
  end.

Definition clear_tenders (self : t) : t := mk (history_tenders self) ∅.

Definition clear_expired_tenders (self : t) (current_tick : Z) : t :=
  mk (history_tenders self)
     (filter (fun item => (current_tick <= expire (snd item))%Z)
             (tenders self)).

End TenderBook.

(* ===================================================================== *)
(** ** RITC/base/Portfolio.py and base/ApiTrading.py: cash subaccounts *)
(* ===================================================================== *)

(** [BankAccountOperationApi] with its [CashAccountOperationApi]
    subaccounts.  The rate table is the [BankAccount] above; the
    subaccounts are the dict [self.subaccounts]. *)
Module Subaccounts.

Record Cash : Type := mkCash {
  account : CashAccount.t;
  transactions : list (Q * Q);
  maximum_transaction_size : Q;
  is_tradeable : bool
}.

Definition get_cash (self : Cash) : Q := CashAccount.cash (account self).


Record t : Type := mk {
  bank : BankAccount.t;
  subaccounts : list (string * Cash)
}.



(** The loop of [BankAccount.get_value]. *)
Fixpoint value_loop (bank : BankAccount.t) (primary_currency : string)
    (items : list (string * Cash)) (total_value : Q) : result Q :=
  match items with
  | [] => Ok total_value
  | (account_name, account) :: rest =>
      if String.eqb (upper account_name) primary_currency then
        value_loop bank primary_currency rest (total_value + get_cash account)
      else if gt (get_cash account) 0 then
        v ← BankAccount.currency_value_conversion bank (upper account_name)
               primary_currency (get_cash account);
        value_loop bank primary_currency rest (total_value + v)
      else
        v ← BankAccount.currency_value_conversion bank primary_currency
               (upper account_name) (Qabs (get_cash account));
        value_loop bank primary_currency rest (total_value - v)
  end.

Definition get_value (self : t) (primary_currency : option string)
  : result Q :=
  let primary_currency :=
    match primary_currency with
    | None => BankAccount.main_currency (bank self)
    | Some c => upper c
    end in
  value_loop (bank self) primary_currency (subaccounts self) 0.

End Subaccounts.

(* ===================================================================== *)
(** ** RITC/base/Portfolio.py: exposure of the book of assets *)
(* ===================================================================== *)

Module Exposure.

(** [sum(...)] over [self.assets.values()]. *)
Definition get_gross_position (self : Portfolio.t) : Q :=
  fold_left
    (fun acc item =>
       acc + Qabs (Asset.get_volume (snd item)
                   * Asset.limit_multiplier (snd item)))
    (map_to_list (Portfolio.assets self)) 0.

Definition get_net_position (self : Portfolio.t) : Q :=
  fold_left
    (fun acc item =>
       acc + Asset.get_volume (snd item) * Asset.limit_multiplier (snd item))
    (map_to_list (Portfolio.assets self)) 0.

End Exposure.

(* ===================================================================== *)
(** ** base/ApiTrading.py: admission control, closing, reconciliation,
       tenders *)
(* ===================================================================== *)

Module ApiOperations.
Import ApiTrading.

(** The [while ... popleft()] loop of [can_place_order]. *)
Fixpoint prune (current_time : Q) (order_timestamps : list Q) : list Q :=
  match order_timestamps with
  | [] => []
  | t0 :: rest =>
      if gt (current_time - t0) 1 then prune current_time rest
      else order_timestamps
  end.

(** [can_place_order(ordernum)]; [current_time] is what [time()] returns
    and [MAX_ORDERS_PER_SECOND] the attribute of that name. *)
Definition can_place_order (current_time : Q) (MAX_ORDERS_PER_SECOND : Z)
    (self : t) (ordernum : Z) : bool * t :=
  let window := prune current_time (order_timestamps self) in
  ((Z.of_nat (length window) + ordernum <? MAX_ORDERS_PER_SECOND - 2)%Z,
   mk (portfolio self) (history_orders self) (completed_orders self)
      (active_orders self) window (posted self)).

(** [close_position(ticker, volume=None)]. *)
Definition close_position (session_post : Payload -> Response) (now : Q)
    (self : t) (ticker : string) (volume : option Q) : result placed * t :=
  match getitem (Portfolio.assets (portfolio self)) (upper ticker) with
  | Raise e => (Raise e, self)
  | Ok a =>
      let action := if gt (Asset.get_volume a) 0 then "sell" else "buy" in
      let volume :=
        match volume with
        | None => Qabs (Asset.get_volume a)
        | Some v => v
        end in
      place_order session_post now self ticker "MARKET" volume action None
  end.

(** [Order.update_filled_volume] and [Order.update_vwap]. *)
Definition update_filled_volume (o : OrderBook.Order) (volume : Q)
  : OrderBook.Order :=
  OrderBook.mkOrder (OrderBook.price o)
    (OrderBook.initial_volume o - volume) volume
    (OrderBook.order_type o) (OrderBook.timestamp o) (OrderBook.id o)
    (OrderBook.price_type o) (OrderBook.vwap o)
    (OrderBook.initial_volume o).

Definition update_vwap (o : OrderBook.Order) (vwap : option Q)
  : OrderBook.Order :=
  OrderBook.mkOrder (OrderBook.price o) (OrderBook.volume o)
    (OrderBook.filled_volume o) (OrderBook.order_type o)
    (OrderBook.timestamp o) (OrderBook.id o) (OrderBook.price_type o) vwap
    (OrderBook.initial_volume o).

(** What [check_order_status] answers for an order id. *)
Record Status : Type := mkStatus {
  s_quantity : Q;
  s_quantity_filled : Q;
  s_vwap : option Q
}.

(** The body of the loop of [update_order_status] for one order id;
    [check_order_status] answers [None] for a falsy response. *)
Definition reconcile_one (check_order_status : Z -> option Status)
    (self : t) (order_id : Z) : result t :=
  match check_order_status order_id with
  | None => Ok self
  | Some resp =>
      if Qle_bool (s_quantity resp) (s_quantity_filled resp) then
        o ← getitem (history_orders self) order_id;
        (* [set.remove] raises on a missing element *)
        if decide (order_id ∈ active_orders self) then
          Ok (mk (portfolio self)
                 (<[order_id :=
                      update_vwap
                        (update_filled_volume o (s_quantity_filled resp))
                        (s_vwap resp)]> (history_orders self))
                 ({[order_id]} ∪ completed_orders self)
                 (active_orders self ∖ {[order_id]})
                 (order_timestamps self) (posted self))
        else Raise KeyError
      else
        o ← getitem (history_orders self) order_id;
        if gt (s_quantity_filled resp) (OrderBook.filled_volume o) then
          Ok (mk (portfolio self)
                 (<[order_id :=
                      update_vwap
                        (update_filled_volume o (s_quantity_filled resp))
                        (s_vwap resp)]> (history_orders self))
                 (completed_orders self) (active_orders self)
                 (order_timestamps self) (posted self))
        else Ok self
  end.

(** The loop over the copy of [self.active_orders]. *)
Fixpoint reconcile_loop (check_order_status : Z -> option Status)
    (self : t) (copy_ : list Z) : result t :=
  match copy_ with
  | [] => Ok self
  | order_id :: rest =>
      self' ← reconcile_one check_order_status self order_id;
      reconcile_loop check_order_status self' rest
  end.

Definition update_order_status (check_order_status : Z -> option Status)
    (self : t) : result t :=
  reconcile_loop check_order_status self (elements (active_orders self)).

(** What the venue answers to [POST /tenders/<id>]. *)
Record TenderReply : Type := mkTenderReply {
  t_status_code : Z;
  t_success : bool
}.

(** [accept_tender(tender_id, price)]: the return value, the set
    [accepted_tenders] and the requests sent. *)
Definition accept_tender (tender_post : Z -> option Q -> TenderReply)
    (accepted_tenders : gset Z) (tender_id : Z) (price : option Q)
  : Z * gset Z * list (Z * option Q) :=
  let resp := tender_post tender_id price in
  if (t_status_code resp =? 200)%Z then
    if t_success resp
    then (1%Z, {[tender_id]} ∪ accepted_tenders, [(tender_id, price)])
    else ((-1)%Z, accepted_tenders, [(tender_id, price)])
  else ((-1)%Z, accepted_tenders, [(tender_id, price)]).

Definition accept_tender_check_limits
    (tender_post : Z -> option Q -> TenderReply) (self : t)
    (accepted_tenders : gset Z) (tender_id : Z) (asset_name : string)
    (volume : Q) (price : option Q)
  : result (Z * gset Z * list (Z * option Q)) :=
  exceeds ← Portfolio.check_limits (portfolio self) asset_name volume;
  if (exceeds : bool) then Ok ((-1)%Z, accepted_tenders, [])
  else Ok (accept_tender tender_post accepted_tenders tender_id price).

End ApiOperations.

(* ===================================================================== *)
(** ** ALGO/ArbitrageStrategy.py: the cross-ETF signal *)
(* ===================================================================== *)

Module ETFSignal.
Import OrderBook.

(** What [generate_etf_signal] returns: the bare [0] of the conflict
    branch, or a pair [(signal, return)]. *)
Inductive outcome : Type :=
| Conflict
| Signal (signal : Z) (ret : Q).

Definition generate_etf_signal (book_joyc book_joyu : Book)
    (bank_account : BankAccount.t) (quantity : Q)
    (profit_threshold_buyc profit_threshold_sellc : Q) : result outcome :=
  cost1 ← calculate_total_profit book_joyc quantity "market" "buy" None;
  profit1 ← calculate_total_profit book_joyu quantity "market" "sell" None;
  cost1_cad ← BankAccount.currency_value_conversion bank_account
                (currency book_joyc) "CAD" cost1;
  profit1_cad ← BankAccount.currency_value_conversion bank_account
                  (currency book_joyu) "CAD" profit1;
  let return1 := profit1_cad - cost1_cad in
  let signal1 := if gt return1 profit_threshold_buyc then 1%Z else 0%Z in
  cost2 ← calculate_total_profit book_joyu quantity "market" "buy" None;
  profit2 ← calculate_total_profit book_joyc quantity "market" "sell" None;
  cost2_cad ← BankAccount.currency_value_conversion bank_account
                (currency book_joyu) "CAD" cost2;
  profit2_cad ← BankAccount.currency_value_conversion bank_account
                  (currency book_joyc) "CAD" profit2;
  let return2 := profit2_cad - cost2_cad in
  let signal2 := if gt return2 profit_threshold_sellc then (-1)%Z
                 else 0%Z in
  if (signal2 =? -1)%Z && (signal1 =? 1)%Z then Ok Conflict
  else if negb (signal1 =? 0)%Z then Ok (Signal 1 return1)
  else if negb (signal2 =? 0)%Z then Ok (Signal (-1) return2)
  else Ok (Signal 0 0).

End ETFSignal.

(* ===================================================================== *)
(** ** Vocabulary of the statements and the scenarios they are run on *)
(* ===================================================================== *)

Section Vocabulary.
Import OrderBook.

(** Well-formed ladders: remaining volumes are not negative, asks ascend
    and bids descend by price (equal prices may repeat along a chain). *)
Definition nonneg_volumes (l : list Order) : Prop :=
  Forall (fun o => 0 <= volume o) l.

Definition ascending (a b : Order) : Prop := price a <= price b.
Definition descending (a b : Order) : Prop := price b <= price a.

Record ladder_ok (self : Book) : Prop := mk_ladder_ok {
  ask_volumes : nonneg_volumes (ask_head self);
  bid_volumes : nonneg_volumes (bid_head self);
  ask_sorted : StronglySorted ascending (ask_head self);
  bid_sorted : StronglySorted descending (bid_head self)
}.

(** The chain [calculate_vwap_market_price] walks for [action]. *)
Definition side_of (self : Book) (action : string) : list Order :=
  if String.eqb (lower action) "buy" then ask_head self else bid_head self.

(** The chain [calculate_total_profit] prices a market order on. *)
Definition market_side (self : Book) (action : string) : list Order :=
  if String.eqb action "buy" then ask_head self else bid_head self.

(** The side [tender_signal2] unwinds a tender on. *)
Definition unwind_action (tender_action : string) : string :=
  if String.eqb (lower tender_action) "sell" then "buy" else "sell".

(** Ask ladder [(10,100),(11,200)]. *)
Definition scenario_book : Book :=
  mkBook [] [level "ask" 10 100; level "ask" 11 200] 0 0 "cad".

(** A book whose fee-inclusive VWAP for 1000 shares is 9 on either side. *)
Definition tender_book : Book :=
  mkBook [level "bid" 9 1000] [level "ask" 9 1000] 0 0 "cad".

(** Crossed books, on which creating and redeeming are both profitable. *)
Definition basket_book : Book :=
  mkBook [level "bid" 25 10] [level "ask" 10 10] 0 0 "cad".
Definition etf_book : Book :=
  mkBook [level "bid" 30 10] [level "ask" 2 10] 0 0 "cad".
Definition plain_strategy : ArbitrageStrategy.t := ArbitrageStrategy.mk None.
Definition cad_account : BankAccount.t := BankAccount.mk "CAD" ∅.
Definition unit_weights : gmap string Q := {["SAD" := 1]}.

(** CAD->USD quoted at bid 4, ask 5; nothing stored for USD->CAD. *)
Definition quoted_account : BankAccount.t :=
  BankAccount.set_foreign_exchange_rate (BankAccount.mk "CAD" ∅)
    "cad" "usd" 4 5.

(** Two quote currencies stored under the base CAD. *)
Definition two_quotes : BankAccount.t :=
  BankAccount.mk "CAD"
    {["CAD" := {["USD" := BankAccount.mkRate 4 5;
                 "EUR" := BankAccount.mkRate 2 3]}]}.

(** One flat asset with gross limit 100 and net limit 1000. *)
Definition flat_asset : Asset.t :=
  {| Asset.name := "CRY"; Asset.currency := "CAD"; Asset.volume := 0;
     Asset.maximum_trade_size := 1000000; Asset.minimum_trade_size := 0;
     Asset.is_tradeable := true; Asset.is_shortable := true;
     Asset.gross_limit := 100; Asset.net_limit := 1000;
     Asset.limit_multiplier := 1 |}.
Definition flat_portfolio : Portfolio.t :=
  {| Portfolio.assets := {["CRY" := flat_asset]};
     Portfolio.gross_limit := 100000; Portfolio.net_limit := 100000;
     Portfolio.gross_position := 0; Portfolio.net_position := 0;
     Portfolio.max_usage := 1 |}.

(** One asset held long 10; portfolio caps 100 gross and 1000 net. *)
Definition long_asset : Asset.t :=
  {| Asset.name := "CRY"; Asset.currency := "CAD"; Asset.volume := 10;
     Asset.maximum_trade_size := 1000000; Asset.minimum_trade_size := 0;
     Asset.is_tradeable := true; Asset.is_shortable := true;
     Asset.gross_limit := 100000; Asset.net_limit := 100000;
     Asset.limit_multiplier := 1 |}.
Definition long_portfolio : Portfolio.t :=
  {| Portfolio.assets := {["CRY" := long_asset]};
     Portfolio.gross_limit := 100; Portfolio.net_limit := 1000;
     Portfolio.gross_position := 10; Portfolio.net_position := 10;
     Portfolio.max_usage := 1 |}.

(** Two flat assets; portfolio caps 500 gross and 1000 net. *)
Definition flat_unlimited (name : string) : Asset.t :=
  {| Asset.name := name; Asset.currency := "CAD"; Asset.volume := 0;
     Asset.maximum_trade_size := 1000000; Asset.minimum_trade_size := 0;
     Asset.is_tradeable := true; Asset.is_shortable := true;
     Asset.gross_limit := 100000; Asset.net_limit := 100000;
     Asset.limit_multiplier := 1 |}.
Definition pair_portfolio : Portfolio.t :=
  {| Portfolio.assets :=
       {["CRY" := flat_unlimited "CRY"; "SAD" := flat_unlimited "SAD"]};
     Portfolio.gross_limit := 500; Portfolio.net_limit := 1000;
     Portfolio.gross_position := 0; Portfolio.net_position := 0;
     Portfolio.max_usage := 1 |}.

(** A gateway holding a non-shortable asset long 100 and another one
    short 20; nothing submitted yet. *)
Definition long_only_asset : Asset.t :=
  {| Asset.name := "CRY"; Asset.currency := "CAD"; Asset.volume := 100;
     Asset.maximum_trade_size := 1000000; Asset.minimum_trade_size := 0;
     Asset.is_tradeable := true; Asset.is_shortable := false;
     Asset.gross_limit := 100000; Asset.net_limit := 100000;
     Asset.limit_multiplier := 1 |}.
Definition short_held_asset : Asset.t :=
  {| Asset.name := "SAD"; Asset.currency := "CAD"; Asset.volume := (-20);
     Asset.maximum_trade_size := 1000000; Asset.minimum_trade_size := 0;
     Asset.is_tradeable := true; Asset.is_shortable := false;
     Asset.gross_limit := 100000; Asset.net_limit := 100000;
     Asset.limit_multiplier := 1 |}.
Definition gateway : ApiTrading.t :=
  {| ApiTrading.portfolio :=
       {| Portfolio.assets :=
            {["CRY" := long_only_asset; "SAD" := short_held_asset]};
          Portfolio.gross_limit := 100000; Portfolio.net_limit := 100000;
          Portfolio.gross_position := 120; Portfolio.net_position := 80;
          Portfolio.max_usage := 1 |};
     ApiTrading.history_orders := ∅;
     ApiTrading.completed_orders := ∅;
     ApiTrading.active_orders := ∅;
     ApiTrading.order_timestamps := [];
     ApiTrading.posted := [] |}.

End Vocabulary.

Section Vocabulary2.

(** Two answers of a pricing function agree: the same exception, both
    [None], or equal prices. *)
Definition same_quote (a b : result (option Q)) : Prop :=
  match a, b with
  | Ok (Some x), Ok (Some y) => x == y
  | Ok None, Ok None => True
  | Raise e, Raise e' => e = e'
  | _, _ => False
  end.

End Vocabulary2.

Section Vocabulary3.

(** Exposure after a batch, delta by delta: gross moves by
    [|volume + delta| - |volume|], net by [delta]. *)
Fixpoint exact_positions (self : Portfolio.t)
    (asset_quantity : list (string * Q)) (gross net : Q) : result (Q * Q) :=
  match asset_quantity with
  | [] => Ok (gross, net)
  | (name_, quantity) :: rest =>
      a ← getitem (Portfolio.assets self) name_;
      exact_positions self rest
        (gross + (Qabs (Asset.get_volume a + quantity)
                  - Qabs (Asset.get_volume a)))
        (net + quantity)
  end.

Definition same_positions (a b : result (Q * Q)) : Prop :=
  match a, b with
  | Ok (g, n), Ok (g', n') => g == g' /\ n == n'
  | Raise e, Raise e' => e = e'
  | _, _ => False
  end.

(** Every name of the batch is an asset of the portfolio. *)
Definition known_assets (self : Portfolio.t)
    (asset_quantity : list (string * Q)) : Prop :=
  Forall (fun item => is_Some (Portfolio.assets self !! fst item))
         asset_quantity.

(** The current positions are within the caps. *)
Definition within_caps (self : Portfolio.t) : Prop :=
  Qabs (Portfolio.net_position self)
    <= Portfolio.net_limit self * Portfolio.max_usage self
  /\ Portfolio.gross_position self
     <= Portfolio.gross_limit self * Portfolio.max_usage self.

End Vocabulary3.

Section Vocabulary4.
Import Portfolio.

(** The ratio [adjust_position] derives from the net headroom, before the
    gross headroom is looked at. *)
Definition net_stage (self : Portfolio.t)
    (asset_quantity : list (string * Q)) : result Q :=
  let max_net := net_limit self * max_usage self in
  let net_position := net_position self in
  let total_net_position := sum_values asset_quantity in
  if gt (total_net_position * net_position) 0 then
    r ← div (max_net - Qabs net_position) (Qabs total_net_position);
    Ok (min r 1)
  else if gt (Qabs (net_position + total_net_position)) max_net then
    r ← div (Qabs max_net + Qabs net_position) (Qabs total_net_position);
    Ok (min r 1)
  else Ok 1.

End Vocabulary4.

Section Vocabulary5.
Import ApiTrading ApiOperations.

(** The venue reports the order as filled in full. *)
Definition finished (check_order_status : Z -> option Status) (order_id : Z)
  : bool :=
  match check_order_status order_id with
  | None => false
  | Some resp => Qle_bool (s_quantity resp) (s_quantity_filled resp)
  end.

(** The record of an order after the venue's answer for it is taken in. *)
Definition reconciled (check_order_status : Z -> option Status)
    (order_id : Z) (o : OrderBook.Order) : OrderBook.Order :=
  match check_order_status order_id with
  | None => o
  | Some resp =>
      if Qle_bool (s_quantity resp) (s_quantity_filled resp)
         || gt (s_quantity_filled resp) (OrderBook.filled_volume o)
      then update_vwap (update_filled_volume o (s_quantity_filled resp))
                       (s_vwap resp)
      else o
  end.

End Vocabulary5.

Section Scenarios.
Import ApiTrading ApiOperations.

(** A CAD subaccount of 100 and a USD subaccount of 50; no rate stored. *)
Definition cash_of (currency : string) (cash : Q) : Subaccounts.Cash :=
  Subaccounts.mkCash (CashAccount.mk cash currency 1000000 1000000) []
    1000000 true.
Definition home_ledger : Subaccounts.t :=
  Subaccounts.mk cad_account [("CAD", cash_of "CAD" 100)].
Definition mixed_ledger : Subaccounts.t :=
  Subaccounts.mk cad_account
    [("CAD", cash_of "CAD" 100); ("USD", cash_of "USD" 50)].

(** The flat asset of [flat_portfolio] in a portfolio whose recorded gross
    position, 200, is above its gross limit of 100. *)
Definition breached_portfolio : Portfolio.t :=
  {| Portfolio.assets := {["CRY" := flat_asset]};
     Portfolio.gross_limit := 100; Portfolio.net_limit := 1000;
     Portfolio.gross_position := 200; Portfolio.net_position := 0;
     Portfolio.max_usage := 1 |}.

(** A venue that accepts every request and reports it unfilled, as order
    7, and one that fills it at once. *)
Definition resting_venue (p : Payload) : Response :=
  mkResponse 200 10 (p_quantity p) 0 (p_action p) 1 7 (p_type p) None.
Definition filling_venue (p : Payload) : Response :=
  mkResponse 200 10 (p_quantity p) (p_quantity p) (p_action p) 1 7
    (p_type p) (Some 10).

(** The gateway after a limit buy of 100 rested as order 7; orders were
    sent at times 1, 5/2 and 3. *)
Definition resting_order : OrderBook.Order :=
  OrderBook.mkOrder 10 100 0 "bid" (Some 1%Z) (Some 7%Z) "limit" None 100.
Definition busy_gateway : ApiTrading.t :=
  {| ApiTrading.portfolio := ApiTrading.portfolio gateway;
     ApiTrading.history_orders := {[7%Z := resting_order]};
     ApiTrading.completed_orders := ∅;
     ApiTrading.active_orders := {[7%Z]};
     ApiTrading.order_timestamps := [1; 5 # 2; 3];
     ApiTrading.posted := [] |}.

(** A gateway over [flat_portfolio]. *)
Definition flat_gateway : ApiTrading.t :=
  {| ApiTrading.portfolio := flat_portfolio;
     ApiTrading.history_orders := ∅;
     ApiTrading.completed_orders := ∅;
     ApiTrading.active_orders := ∅;
     ApiTrading.order_timestamps := [];
     ApiTrading.posted := [] |}.

(** The venue's status answers: order 7 filled in full at 10. *)
Definition filled_status (order_id : Z) : option Status :=
  if (order_id =? 7)%Z then Some (mkStatus 100 100 (Some 10)) else None.

(** A venue that accepts every tender. *)
Definition accepting_venue (tender_id : Z) (price : option Q) : TenderReply :=
  mkTenderReply 200 true.

(** A book holding one tender that expires at tick 30. *)
Definition one_tender : TenderBook.Tender :=
  TenderBook.new_tender "T1" "RITC" 1000 25 "buy" 10 30 true.
Definition one_tender_book : TenderBook.t :=
  TenderBook.add_tender (TenderBook.mk ∅ ∅) one_tender.

(** A price history of two updates. *)
Definition two_updates : History.t :=
  History.update_price_history
    (History.update_price_history (History.mk [] [] 0 0 0) 10 9 11)
    12 11 13.

End Scenarios.

Section Vocabulary6.
Import OrderBook.

(** An uncrossed book: no bid is above [mid], no ask below it; bids are
    above the fee, which is not negative. *)
Record uncrossed_at (self : Book) (mid : Q) : Prop := mk_uncrossed_at {
  uncrossed_asks : nonneg_volumes (ask_head self);
  uncrossed_bids : nonneg_volumes (bid_head self);
  asks_above : Forall (fun o => mid <= price o) (ask_head self);
  bids_below : Forall (fun o => price o <= mid) (bid_head self);
  bids_above_fee : Forall (fun o => transaction_fee self < price o)
                          (bid_head self);
  fee_nonneg : 0 <= transaction_fee self;
  mid_positive : 0 < mid
}.

(** Buying CAD with [currency] is quoted at a positive rate, if at all. *)
Definition positive_rate (bank_account : BankAccount.t) (currency : string)
  : Prop :=
  forall k,
    BankAccount.get_exchange_rate bank_account currency "CAD" "buy" = Ok k ->
    0 < k.

(** A USD book and a CAD book, neither crossed; USD->CAD is the inverse of
    the stored CAD->USD quote. *)
Definition joyu_book : Book :=
  mkBook [level "bid" 9 1000] [level "ask" 10 1000] (1 # 50) 0 "usd".
Definition joyc_book : Book :=
  mkBook [level "bid" 40 1000] [level "ask" 41 1000] (1 # 50) 0 "cad".

End Vocabulary6.


(* ===================================================================== *)
(** ** Python fragment: facts *)
(* ===================================================================== *)

Section PyFacts.

Lemma bind_Ok {A B : Type} (a : A) (f : A -> result B) :
  mbind f (Ok a) = f a.
Proof. reflexivity. Qed.

Lemma div_Ok a b r : div a b = Ok r -> ~ b == 0 /\ r = a / b.
Proof.
  unfold div. destruct (Qeq_dec b 0); [discriminate|].
  intros [= <-]. split; [assumption | reflexivity].
Qed.

Lemma gt_true a b : gt a b = true <-> b < a.
Proof.
  unfold gt. destruct (Qlt_le_dec b a); split; intros; try lra; congruence.
Qed.

Lemma gt_false a b : gt a b = false <-> a <= b.
Proof.
  unfold gt. destruct (Qlt_le_dec b a); split; intros; try lra; congruence.
Qed.

Lemma min_unit a : 0 <= a -> 0 <= min a 1 <= 1.
Proof. intros Ha. unfold min. destruct (Qlt_le_dec 1 a); lra. Qed.

Lemma min_both a b : 0 <= a <= 1 -> 0 <= b -> 0 <= min a b <= 1.
Proof. intros Ha Hb. unfold min. destruct (Qlt_le_dec b a); lra. Qed.

Lemma quotient_nonneg a b : 0 <= a -> ~ b == 0 -> 0 <= b -> 0 <= a / b.
Proof.
  intros Ha Hb0 Hb. apply Qle_shift_div_l; [|lra].
  destruct (Qlt_le_dec 0 b) as [Hlt|Hle]; [exact Hlt|].
  exfalso. apply Hb0. lra.
Qed.

(** [int] moves toward zero and keeps the sign. *)
Lemma int_toward_zero x :
  Qabs (inject_Z (int x)) <= Qabs x
  /\ (0 <= x -> 0 <= inject_Z (int x))
  /\ (x <= 0 -> inject_Z (int x) <= 0).
Proof.
  destruct x as [n d]. unfold int, Qabs, Qle, inject_Z. simpl.
  rewrite !Z.mul_1_r.
  assert (0 < Z.pos d)%Z as Hd by lia.
  assert (Z.pos d <> 0)%Z as Hd0 by lia.
  destruct (Z.le_ge_cases 0 n) as [Hn|Hn].
  - pose proof (Z.quot_pos n (Z.pos d) Hn Hd) as Hq.
    pose proof (Z.mul_quot_le n (Z.pos d) Hn Hd0) as Hm.
    rewrite !Z.abs_eq by lia. split; lia.
  - pose proof (Z.mul_quot_ge n (Z.pos d) Hn Hd0) as Hm.
    assert (n ÷ Z.pos d <= 0)%Z as Hq by nia.
    rewrite !Z.abs_neq by lia. split; lia.
Qed.

End PyFacts.

(* ===================================================================== *)
(** ** Order book: depth, VWAP bounds, market trade value *)
(* ===================================================================== *)

Section OrderBookFacts.
Import OrderBook.

Lemma total_volume_nonneg l : nonneg_volumes l -> 0 <= total_volume l.
Proof.
  induction 1 as [|o l Ho _ IH]; simpl; lra.
Qed.

(** Once nothing is left to fill the loop stops. *)
Lemma fill_loop_done l tc : fill_loop l tc 0 = (tc, 0).
Proof.
  destruct l as [|o l]; simpl; [reflexivity|].
  destruct (Qlt_le_dec 0 0) as [H|_]; [lra | reflexivity].
Qed.

(** Something is left unfilled exactly when the chain is too thin. *)
Lemma fill_loop_depth l :
  nonneg_volumes l ->
  forall tc u, 0 < u ->
    (0 < snd (fill_loop l tc u) <-> total_volume l < u).
Proof.
  induction 1 as [|o l Ho Hl IH]; intros tc u Hu; simpl.
  - tauto.
  - pose proof (total_volume_nonneg l Hl) as Hn.
    destruct (Qlt_le_dec 0 u) as [_|Hc]; [|lra].
    destruct (Qlt_le_dec (volume o) u) as [Hv|Hv].
    + rewrite IH by lra. split; intros; lra.
    + rewrite fill_loop_done. simpl. split; intros; lra.
Qed.

(** A complete fill costs between [lo] and [hi] per share when every
    visited level is priced between [lo] and [hi]. *)
Lemma fill_loop_cost_between lo hi l :
  nonneg_volumes l ->
  forall tc u, 0 <= u ->
    Forall (fun o => lo <= price o <= hi) (consumed l u) ->
    snd (fill_loop l tc u) <= 0 ->
    lo * u <= fst (fill_loop l tc u) - tc <= hi * u.
Proof.
  induction 1 as [|o l Ho Hl IH]; intros tc u Hu Hb Hs; simpl in *.
  - assert (u == 0) as -> by lra. lra.
  - destruct (Qlt_le_dec 0 u) as [Hpos|Hc].
    + inversion Hb as [|? ? [Hlo Hhi] Hb']; subst.
      destruct (Qlt_le_dec (volume o) u) as [Hv|Hv].
      * specialize (IH (tc + price o * volume o) (u - volume o)).
        destruct IH as [I1 I2]; [lra | assumption | assumption |].
        split; nra.
      * rewrite fill_loop_done. simpl. split; nra.
    + simpl. assert (u == 0) as -> by lra. lra.
Qed.

Lemma consumed_Forall (P : Order -> Prop) l :
  Forall P l -> forall u, Forall P (consumed l u).
Proof.
  induction 1 as [|o l Ho Hl IH]; intros u; simpl; [constructor|].
  destruct (Qlt_le_dec 0 u); [|constructor].
  constructor; [assumption|].
  destruct (Qlt_le_dec (volume o) u); [apply IH | constructor].
Qed.

Lemma consumed_sorted (R : Order -> Order -> Prop) l :
  StronglySorted R l -> forall u, StronglySorted R (consumed l u).
Proof.
  induction 1 as [|o l Hl IH Ho]; intros u; simpl; [constructor|].
  destruct (Qlt_le_dec 0 u); [|constructor].
  constructor.
  - destruct (Qlt_le_dec (volume o) u); [apply IH | constructor].
  - destruct (Qlt_le_dec (volume o) u);
      [apply consumed_Forall; assumption | constructor].
Qed.

(** In a chain sorted by a preorder every element lies between the first
    and the last one. *)
Lemma sorted_ends (R : Order -> Order -> Prop) l :
  (forall x, R x x) -> (forall x y z, R x y -> R y z -> R x z) ->
  StronglySorted R l ->
  forall a z, head l = Some a -> last l = Some z ->
    Forall (fun o => R a o /\ R o z) l.
Proof.
  intros Hrefl Htrans.
  induction 1 as [|o l Hl IH Ho]; intros a z Ha Hz; [discriminate|].
  simpl in Ha. injection Ha as <-.
  destruct l as [|o' l'].
  - simpl in Hz. injection Hz as <-. repeat constructor; apply Hrefl.
  - change (last (o' :: l') = Some z) in Hz.
    specialize (IH o' z eq_refl Hz).
    assert (R o z) as Hoz.
    { inversion Ho as [|? ? Hoo' _]; subst.
      inversion IH as [|? ? [_ Ho'z] _]; subst. eauto. }
    constructor; [split; [apply Hrefl | exact Hoz]|].
    rewrite Forall_forall in *. intros x Hx.
    split; [apply Ho, Hx | apply IH, Hx].
Qed.

Lemma consumed_nonempty l u :
  0 < u -> l <> [] ->
  exists a z, head (consumed l u) = Some a /\ last (consumed l u) = Some z.
Proof.
  intros Hu Hl. destruct l as [|o l]; [congruence|]. simpl.
  destruct (Qlt_le_dec 0 u); [|lra].
  exists o. simpl.
  destruct (last (o :: (if Qlt_le_dec (volume o) u
                        then consumed l (u - volume o) else []))) eqn:E.
  - eauto.
  - apply last_None in E. discriminate.
Qed.

(** The no-fee VWAP in terms of the fill loop. *)
Lemma vwap_no_fee_unfold self q action :
  among (lower action) "buy" "sell" = true -> 0 < q ->
  calculate_vwap_market_price self q action false =
    if Qlt_le_dec 0 (snd (fill_loop (side_of self action) 0 q)) then Ok None
    else Ok (Some (fst (fill_loop (side_of self action) 0 q) / q)).
Proof.
  intros Ha Hq. unfold calculate_vwap_market_price, side_of.
  rewrite Ha. simpl negb. cbv iota.
  destruct (fill_loop _ 0 q) as [tc u]. simpl.
  destruct (Qlt_le_dec 0 u); [reflexivity|].
  unfold div. destruct (Qeq_dec q 0); [lra | reflexivity].
Qed.

(** With or without fees, a thin chain yields [None]. *)
Lemma vwap_thin_book self q action cc :
  among (lower action) "buy" "sell" = true ->
  nonneg_volumes (side_of self action) ->
  total_volume (side_of self action) < q ->
  calculate_vwap_market_price self q action cc = Ok None.
Proof.
  intros Ha Hvol Hthin.
  pose proof (total_volume_nonneg _ Hvol) as Hn.
  assert (0 < q) as Hq by lra.
  pose proof (proj2 (fill_loop_depth _ Hvol 0 q Hq) Hthin) as Hleft.
  unfold calculate_vwap_market_price. rewrite Ha. simpl negb. cbv iota.
  unfold side_of in Hleft.
  destruct (fill_loop _ 0 q) as [tc u]. simpl in Hleft.
  destruct (Qlt_le_dec 0 u); [reflexivity | lra].
Qed.

(** C5.  On a well-formed ladder and for a quantity [q > 0], the no-fee
    VWAP ([consider_cost = False]) is [None] exactly when [q] exceeds the
    total resting volume of the side it walks; otherwise it returns a price
    that lies between the price of the first (best) level and the price of
    the last (worst) level the walk visits.  On the ask ladder
    [(10,100),(11,200)], buying 150 yields [(10*100 + 11*50)/150] and
    buying 301 yields [None]. *)
Theorem vwap_no_fee_depth_and_bounds :
  (forall (self : Book) (q : Q) (action : string),
      ladder_ok self -> 0 < q ->
      among (lower action) "buy" "sell" = true ->
      let side := side_of self action in
      (calculate_vwap_market_price self q action false = Ok None
       <-> total_volume side < q)
      /\ (~ total_volume side < q ->
          exists p best worst,
            calculate_vwap_market_price self q action false = Ok (Some p)
            /\ head (consumed side q) = Some best
            /\ last (consumed side q) = Some worst
            /\ if String.eqb (lower action) "buy"
               then price best <= p <= price worst
               else price worst <= p <= price best))
  /\ (exists p,
        calculate_vwap_market_price scenario_book 150 "buy" false
          = Ok (Some p)
        /\ p == (10 * 100 + 11 * 50) / 150)
  /\ calculate_vwap_market_price scenario_book 301 "buy" false = Ok None.
Proof.
  split; [|split; [eexists; split; [reflexivity | reflexivity] | reflexivity]].
  intros self q action [Hav Hbv Has Hbs] Hq Ha side.
  assert (nonneg_volumes side) as Hvol.
  { unfold side, side_of. destruct (String.eqb _ _); assumption. }
  rewrite vwap_no_fee_unfold by assumption. fold side.
  pose proof (fill_loop_depth side Hvol 0 q Hq) as Hdepth.
  split.
  - destruct (Qlt_le_dec 0 (snd (fill_loop side 0 q))) as [Hl|Hl].
    + split; [intros _; apply Hdepth, Hl | reflexivity].
    + split; [discriminate | intros Ht; apply Hdepth in Ht; lra].
  - intros Hfull.
    destruct (Qlt_le_dec 0 (snd (fill_loop side 0 q))) as [Hl|Hl];
      [apply Hdepth in Hl; contradiction|].
    assert (side <> []) as Hne.
    { intros E. rewrite E in Hl. simpl in Hl. lra. }
    destruct (consumed_nonempty side q Hq Hne) as (best & worst & Hb & Hw).
    exists (fst (fill_loop side 0 q) / q), best, worst.
    split; [reflexivity|]. split; [exact Hb|]. split; [exact Hw|].
    unfold side, side_of in *.
    destruct (String.eqb (lower action) "buy").
    + pose proof (sorted_ends ascending _
                    ltac:(intros x; unfold ascending; lra)
                    ltac:(unfold ascending; intros x y z; lra)
                    (consumed_sorted _ _ Has q) best worst Hb Hw) as Hends.
      pose proof (fill_loop_cost_between (price best) (price worst)
                    (ask_head self) Hvol 0 q ltac:(lra)) as Hcost.
      destruct Hcost as [C1 C2].
      { eapply Forall_impl; [exact Hends|]. unfold ascending. tauto. }
      { exact Hl. }
      split.
      * apply Qle_shift_div_l; [exact Hq | lra].
      * apply Qle_shift_div_r; [exact Hq | lra].
    + pose proof (sorted_ends descending _
                    ltac:(intros x; unfold descending; lra)
                    ltac:(unfold descending; intros x y z; lra)
                    (consumed_sorted _ _ Hbs q) best worst Hb Hw) as Hends.
      pose proof (fill_loop_cost_between (price worst) (price best)
                    (bid_head self) Hvol 0 q ltac:(lra)) as Hcost.
      destruct Hcost as [C1 C2].
      { eapply Forall_impl; [exact Hends|]. unfold descending. tauto. }
      { exact Hl. }
      split.
      * apply Qle_shift_div_l; [exact Hq | lra].
      * apply Qle_shift_div_r; [exact Hq | lra].
Qed.

Lemma vwap_no_fee_depth_and_bounds_witness :
  (calculate_vwap_market_price scenario_book 150 "buy" false = Ok None
   <-> total_volume (side_of scenario_book "buy") < 150)
  /\ (~ total_volume (side_of scenario_book "buy") < 150 ->
      exists p best worst,
        calculate_vwap_market_price scenario_book 150 "buy" false
          = Ok (Some p)
        /\ head (consumed (side_of scenario_book "buy") 150) = Some best
        /\ last (consumed (side_of scenario_book "buy") 150) = Some worst
        /\ price best <= p <= price worst).
Proof.
  apply (proj1 vwap_no_fee_depth_and_bounds scenario_book 150 "buy").
  - split; repeat constructor; discriminate.
  - reflexivity.
  - reflexivity.
Defined.

(** C10.  [calculate_total_profit] with [order_type = "market"] does not
    return on a thin book: when the side it prices on holds less than the
    requested volume, the inner VWAP is [None] and [None * trade_volume]
    raises [TypeError]. *)
Theorem market_total_profit_raises_on_thin_book :
  forall (self : Book) (trade_volume : Q) (action : string)
         (price : option Q),
    nonneg_volumes (market_side self action) ->
    total_volume (market_side self action) < trade_volume ->
    calculate_total_profit self trade_volume "market" action price
      = Raise TypeError.
Proof.
  intros self tv action price Hvol Hthin.
  unfold calculate_total_profit, market_side in *. simpl.
  destruct (String.eqb action "buy").
  - rewrite (vwap_thin_book self tv "buy" true eq_refl Hvol Hthin).
    reflexivity.
  - rewrite (vwap_thin_book self tv "sell" true eq_refl Hvol Hthin).
    reflexivity.
Qed.

Lemma market_total_profit_raises_on_thin_book_witness :
  calculate_total_profit scenario_book 301 "market" "buy" None
    = Raise TypeError.
Proof.
  apply (market_total_profit_raises_on_thin_book scenario_book 301 "buy" None).
  - repeat constructor; discriminate.
  - reflexivity.
Defined.

End OrderBookFacts.

(* ===================================================================== *)
(** ** Arbitrage signals *)
(* ===================================================================== *)

Section SignalFacts.
Import OrderBook ArbitrageStrategy.

(** [tender_signal2] accepts only when the per-share difference between the
    unwind VWAP and the tender price exceeds the threshold; the tender
    volume does not enter the comparison. *)
Lemma tender_signal2_needs_per_share_edge
    (tender_action : string) (tender_price tender_volume : Q)
    (order_book : Book) (buy_threshold sell_threshold v : Q) :
  calculate_vwap_market_price order_book tender_volume
    (unwind_action tender_action) true = Ok (Some v) ->
  Qabs (v - tender_price) <= buy_threshold ->
  Qabs (v - tender_price) <= sell_threshold ->
  tender_signal2 tender_action tender_price tender_volume order_book
    buy_threshold sell_threshold = Ok (0%Z, 0).
Proof.
  intros Hv Hb Hs. unfold tender_signal2. fold (unwind_action tender_action).
  rewrite Hv. simpl.
  apply Qabs_Qle_condition in Hb, Hs.
  unfold gt.
  destruct (String.eqb (lower tender_action) "buy").
  - destruct (Qlt_le_dec buy_threshold (tender_price - v));
      [lra | reflexivity].
  - destruct (Qlt_le_dec sell_threshold (v - tender_price));
      [lra | reflexivity].
Qed.

(** C7, as stated, fails.  On a book whose unwind VWAP for 1000 shares is
    9 on both sides, the sell-tender of 1000 at 9.5 with threshold 200 is
    answered [(0, 0)], not accepted. *)
Lemma tender_scenario_accepts_counterexample :
  (exists v, calculate_vwap_market_price tender_book 1000 "buy" true
               = Ok (Some v) /\ v == 9)
  /\ (exists v, calculate_vwap_market_price tender_book 1000 "sell" true
                  = Ok (Some v) /\ v == 9)
  /\ tender_signal2 "sell" 9.5 1000 tender_book 200 200 = Ok (0%Z, 0)
  /\ ~ (exists edge, tender_signal2 "sell" 9.5 1000 tender_book 200 200
                       = Ok (1%Z, edge)).
Proof.
  split; [eexists; split; [vm_compute; reflexivity | reflexivity]|].
  split; [eexists; split; [vm_compute; reflexivity | reflexivity]|].
  split; [vm_compute; reflexivity|].
  intros [edge H]. vm_compute in H. discriminate.
Qed.

(** C7, amended.  For a fixed-price tender of volume 1000 at price 9.5,
    whatever its action, on any book whose unwind VWAP for 1000 shares is
    9.0, and with thresholds 200, [tender_signal2] answers [(0, 0)]: the
    edge it compares with the threshold is the per-share difference of
    magnitude 0.5, not that difference times the volume. *)
Theorem tender_scenario_rejected :
  forall (tender_action : string) (order_book : Book) (v : Q),
    calculate_vwap_market_price order_book 1000
      (unwind_action tender_action) true = Ok (Some v) ->
    v == 9 ->
    tender_signal2 tender_action 9.5 1000 order_book 200 200
      = Ok (0%Z, 0).
Proof.
  intros tender_action order_book v Hv Hnine.
  assert (Qabs (v - 9.5) <= 200) as Hedge.
  { apply Qabs_Qle_condition. split; lra. }
  exact (tender_signal2_needs_per_share_edge tender_action 9.5 1000
           order_book 200 200 v Hv Hedge Hedge).
Qed.

Lemma tender_scenario_rejected_witness :
  tender_signal2 "sell" 9.5 1000 tender_book 200 200 = Ok (0%Z, 0).
Proof.
  apply (tender_scenario_rejected "sell" tender_book (9000 # 1000)).
  - vm_compute. reflexivity.
  - reflexivity.
Defined.

(** C8.  Whenever both profit computations and both threshold tests
    return, [generate_convert_signal] returns the create-direction signal
    and legs if [create_threshold > redeem_threshold], and the
    redeem-direction signal and legs otherwise; nothing but the comparison
    of the two thresholds selects the direction.  On crossed books where
    both thresholds fire and redeeming earns more than creating (23 against
    20), thresholds 5 > 3 still select the create direction. *)
Theorem convert_signal_direction_by_thresholds :
  (forall (self : ArbitrageStrategy.t)
          (stock_data : list (string * Book)) (weights : gmap string Q)
          (etf_data : Book) (quantity convert_fee : Q)
          (fee_currency : string) (bank_account : BankAccount.t)
          (price_shift create_threshold redeem_threshold : Q)
          (create redeem : ProfitInfo) (signal signal2 : Z),
      calculate_converter_profit self stock_data weights etf_data quantity
        convert_fee fee_currency "buy" bank_account None = Ok create ->
      calculate_converter_profit self stock_data weights etf_data quantity
        convert_fee fee_currency "sell" bank_account None = Ok redeem ->
      threshold_signal 1 (profit create) quantity price_shift
        create_threshold = Ok signal ->
      threshold_signal (-1) (profit redeem) quantity (- price_shift)
        redeem_threshold = Ok signal2 ->
      (redeem_threshold < create_threshold ->
       generate_convert_signal self stock_data weights etf_data quantity
         convert_fee fee_currency bank_account price_shift
         create_threshold redeem_threshold = Ok (signal, order create))
      /\ (create_threshold <= redeem_threshold ->
          generate_convert_signal self stock_data weights etf_data quantity
            convert_fee fee_currency bank_account price_shift
            create_threshold redeem_threshold
          = Ok (signal2, order redeem)))
  /\ (exists create redeem,
        calculate_converter_profit plain_strategy [("SAD", basket_book)]
          unit_weights etf_book 1 0 "CAD" "buy" cad_account None = Ok create
        /\ calculate_converter_profit plain_strategy [("SAD", basket_book)]
             unit_weights etf_book 1 0 "CAD" "sell" cad_account None
           = Ok redeem
        /\ profit create < profit redeem
        /\ threshold_signal 1 (profit create) 1 0 5 = Ok 1%Z
        /\ threshold_signal (-1) (profit redeem) 1 (- 0) 3 = Ok (-1)%Z
        /\ generate_convert_signal plain_strategy [("SAD", basket_book)]
             unit_weights etf_book 1 0 "CAD" cad_account 0 5 3
           = Ok (1%Z, order create)).
Proof.
  split.
  - intros self stock_data weights etf_data quantity convert_fee
           fee_currency bank_account price_shift ct rt create redeem
           signal signal2 Hc Hr Hs Hs2.
    unfold generate_convert_signal. rewrite Hc, Hr. simpl.
    rewrite Hs, Hs2. simpl. unfold gt.
    split; intros Hcmp; destruct (Qlt_le_dec rt ct); try reflexivity; lra.
  - eexists. eexists.
    split; [vm_compute; reflexivity|].
    split; [vm_compute; reflexivity|].
    repeat split; vm_compute; reflexivity.
Qed.

Lemma convert_signal_direction_by_thresholds_witness :
  generate_convert_signal plain_strategy [("SAD", basket_book)]
    unit_weights etf_book 1 0 "CAD" cad_account 0 3 5
  = Ok ((-1)%Z,
        [mkLeg "SAD" "market" None 1 25 25; mkLeg "ETF" "market" None 1 2 2]).
Proof.
  refine (proj2 (proj1 convert_signal_direction_by_thresholds
            plain_strategy [("SAD", basket_book)] unit_weights etf_book
            1 0 "CAD" cad_account 0 3 5
            (mkProfitInfo 20 [mkLeg "SAD" "market" None 1 10 10;
                              mkLeg "ETF" "market" None 1 30 30])
            (mkProfitInfo 23 [mkLeg "SAD" "market" None 1 25 25;
                              mkLeg "ETF" "market" None 1 2 2])
            1%Z (-1)%Z _ _ _ _) _);
    vm_compute; first [reflexivity | discriminate].
Defined.

End SignalFacts.

(* ===================================================================== *)
(** ** Currency ledger *)
(* ===================================================================== *)

Section CurrencyFacts.
Import BankAccount.

Lemma stored_only_KeyError self a b e :
  stored self a b = Raise e -> e = KeyError.
Proof.
  unfold stored, getitem.
  destruct (exchange_rates self !! a) as [d|]; simpl;
    [destruct (d !! b) | ]; congruence.
Qed.

(** A pair stored in the asked direction: bid for ['sell'], ask for
    ['buy']. *)
Lemma get_exchange_rate_direct self base quote action r :
  upper base <> upper quote ->
  among (lower action) "buy" "sell" = true ->
  stored self (upper base) (upper quote) = Ok r ->
  get_exchange_rate self base quote action
    = Ok (if String.eqb (lower action) "sell" then bid r else ask r).
Proof.
  intros Hne Ha Hst. unfold get_exchange_rate.
  apply String.eqb_neq in Hne. rewrite Hne, Ha, Hst. reflexivity.
Qed.

(** A pair stored only in the reverse direction: the inverse of the
    opposite side. *)
Lemma get_exchange_rate_inverse self base quote action r :
  upper base <> upper quote ->
  among (lower action) "buy" "sell" = true ->
  stored self (upper base) (upper quote) = Raise KeyError ->
  stored self (upper quote) (upper base) = Ok r ->
  get_exchange_rate self base quote action
    = div 1 (if String.eqb (lower action) "sell" then ask r else bid r).
Proof.
  intros Hne Ha Hst Hinv. unfold get_exchange_rate.
  apply String.eqb_neq in Hne. rewrite Hne, Ha, Hst, Hinv. reflexivity.
Qed.

(** C2, as stated, fails.  With CAD->USD stored at bid 4 and ask 5, the
    positive amount 20 is not converted with the ['sell'] rate 4: the
    result is neither [20 / 4] nor [20 * 4]. *)
Lemma conversion_side_by_sign_counterexample :
  exists rate v,
    get_exchange_rate quoted_account "CAD" "USD" "sell" = Ok rate
    /\ currency_value_conversion quoted_account "CAD" "USD" 20 = Ok v
    /\ ~ v == 20 / rate /\ ~ v == 20 * rate.
Proof.
  eexists. eexists.
  split; [vm_compute; reflexivity|].
  split; [vm_compute; reflexivity|].
  split; vm_compute; discriminate.
Qed.

(** C2, amended.  For every stored currency pair,
    [currency_value_conversion(from, to, amount)] divides a positive amount
    by the rate looked up with action ['buy'] (the ask side), and a
    negative amount by the rate looked up with action ['sell'] (the bid
    side). *)
Theorem conversion_side_by_sign :
  forall (self : BankAccount.t) (from_currency to_currency : string)
         (r : Rate) (amount : Q),
    upper from_currency <> upper to_currency ->
    stored self (upper from_currency) (upper to_currency) = Ok r ->
    (0 < amount ->
     get_exchange_rate self from_currency to_currency "buy" = Ok (ask r)
     /\ currency_value_conversion self from_currency to_currency amount
        = div amount (ask r))
    /\ (amount < 0 ->
        get_exchange_rate self from_currency to_currency "sell"
          = Ok (bid r)
        /\ currency_value_conversion self from_currency to_currency amount
           = div amount (bid r)).
Proof.
  intros self f t r amount Hne Hst.
  pose proof (get_exchange_rate_direct self f t "buy" r Hne eq_refl Hst)
    as Hbuy.
  pose proof (get_exchange_rate_direct self f t "sell" r Hne eq_refl Hst)
    as Hsell.
  simpl in Hbuy, Hsell.
  unfold currency_value_conversion.
  split; intros Hsign.
  - split; [exact Hbuy|].
    destruct (Qlt_le_dec 0 amount); [|lra]. rewrite Hbuy. reflexivity.
  - split; [exact Hsell|].
    destruct (Qlt_le_dec 0 amount); [lra|]. rewrite Hsell. reflexivity.
Qed.

Lemma conversion_side_by_sign_witness :
  currency_value_conversion quoted_account "CAD" "USD" 20 = div 20 5
  /\ currency_value_conversion quoted_account "CAD" "USD" (-20)
     = div (-20) 4.
Proof.
  pose proof (conversion_side_by_sign quoted_account "CAD" "USD"
                (mkRate 4 5) 20) as Hpos.
  pose proof (conversion_side_by_sign quoted_account "CAD" "USD"
                (mkRate 4 5) (-20)) as Hneg.
  split.
  - apply Hpos; [discriminate | reflexivity | reflexivity].
  - apply Hneg; [discriminate | reflexivity | reflexivity].
Defined.

(** C6.  When only the direction base->quote is stored, with
    [0 < bid < ask], converting [x > 0] from base to quote and back returns
    an amount strictly smaller than [x] in magnitude, never [x] itself. *)
Theorem fx_round_trip_loses :
  forall (self : BankAccount.t) (base quote : string) (r : Rate) (x : Q),
    upper base <> upper quote ->
    stored self (upper base) (upper quote) = Ok r ->
    stored self (upper quote) (upper base) = Raise KeyError ->
    0 < bid r -> bid r < ask r -> 0 < x ->
    exists y z,
      currency_value_conversion self base quote x = Ok y
      /\ currency_value_conversion self quote base y = Ok z
      /\ Qabs z < Qabs x /\ ~ z == x.
Proof.
  intros self base quote r x Hne Hst Hrev Hbid Hspread Hx.
  assert (upper quote <> upper base) as Hne' by congruence.
  assert (0 < x / ask r) as Hy.
  { apply Qlt_shift_div_l; lra. }
  assert (0 < 1 / bid r) as Hinv.
  { apply Qlt_shift_div_l; lra. }
  exists (x / ask r), (x / ask r / (1 / bid r)).
  split.
  { unfold currency_value_conversion.
    destruct (Qlt_le_dec 0 x); [|lra].
    rewrite (get_exchange_rate_direct self base quote "buy" r Hne eq_refl Hst).
    simpl. unfold div. destruct (Qeq_dec (ask r) 0); [lra | reflexivity]. }
  split.
  { unfold currency_value_conversion.
    destruct (Qlt_le_dec 0 (x / ask r)); [|lra].
    rewrite (get_exchange_rate_inverse self quote base "buy" r Hne' eq_refl
               Hrev Hst).
    simpl. unfold div. destruct (Qeq_dec (bid r) 0); [lra|]. simpl.
    destruct (Qeq_dec (1 / bid r) 0); [lra | reflexivity]. }
  assert (x / ask r / (1 / bid r) == x * (bid r / ask r)) as Hz.
  { field. split; lra. }
  assert (0 < bid r / ask r) as Hpos.
  { apply Qlt_shift_div_l; lra. }
  assert (bid r / ask r < 1) as Hlt.
  { apply Qlt_shift_div_r; lra. }
  assert (0 < x * (bid r / ask r) < x) as [Hz0 Hzx] by (split; nra).
  rewrite Hz.
  split.
  - rewrite !Qabs_pos by lra. exact Hzx.
  - lra.
Qed.

Lemma fx_round_trip_loses_witness :
  exists y z,
    currency_value_conversion quoted_account "CAD" "USD" 20 = Ok y
    /\ currency_value_conversion quoted_account "USD" "CAD" y = Ok z
    /\ Qabs z < Qabs 20 /\ ~ z == 20.
Proof.
  apply (fx_round_trip_loses quoted_account "CAD" "USD" (mkRate 4 5) 20);
    first [discriminate | reflexivity].
Defined.

(** C9.  [set_foreign_exchange_rate(base, quote, bid, ask)] replaces the
    whole entry of [base]: afterwards the entry holds the new quote only,
    and every other quote currency that was stored under [base] no longer
    has a direct rate. *)
Theorem set_rate_replaces_base_entry :
  forall (self : BankAccount.t) (base quote : string) (bid_rate ask_rate : Q)
         (k : string) (r : Rate),
    stored self (upper base) k = Ok r ->
    k <> upper quote ->
    let self' := set_foreign_exchange_rate self base quote bid_rate ask_rate in
    exchange_rates self' !! upper base
      = Some {[upper quote := mkRate bid_rate ask_rate]}
    /\ stored self' (upper base) k = Raise KeyError
    /\ stored self' (upper base) (upper quote)
       = Ok (mkRate bid_rate ask_rate).
Proof.
  intros self base quote b a k r _ Hk self'.
  unfold self', set_foreign_exchange_rate, stored, getitem. simpl.
  rewrite lookup_insert_eq. simpl.
  rewrite lookup_singleton_eq.
  split; [reflexivity|]. split; [|reflexivity].
  rewrite lookup_singleton_ne by congruence. reflexivity.
Qed.

Lemma set_rate_replaces_base_entry_witness :
  stored (set_foreign_exchange_rate two_quotes "cad" "usd" 6 7) "CAD" "EUR"
    = Raise KeyError.
Proof.
  apply (set_rate_replaces_base_entry two_quotes "cad" "usd" 6 7 "EUR"
           (mkRate 2 3)).
  - reflexivity.
  - discriminate.
Defined.

(** The rate CAD->EUR answers before the call and is unknown after it. *)
Example lookup_after_replace :
  get_exchange_rate two_quotes "cad" "eur" "sell" = Ok 2
  /\ get_exchange_rate (set_foreign_exchange_rate two_quotes "cad" "usd" 6 7)
       "cad" "eur" "sell" = Raise ValueError
  /\ get_exchange_rate (set_foreign_exchange_rate two_quotes "cad" "usd" 6 7)
       "cad" "usd" "sell" = Ok 6.
Proof. repeat split; vm_compute; reflexivity. Qed.

End CurrencyFacts.

(* ===================================================================== *)
(** ** Position ledger: limit checks and batch compression *)
(* ===================================================================== *)

Section LimitFacts.
Import Portfolio.

(** The three conditions [check_limits] tests for a known asset. *)
Lemma check_limits_conditions self asset_name volume a :
  assets self !! asset_name = Some a ->
  check_limits self asset_name volume
    = Ok (gt (Qabs (Asset.get_volume a) + volume)
             (Asset.gross_limit a * max_usage self)
          || gt (Qabs (Asset.get_volume a + volume))
                (Asset.net_limit a * max_usage self)
          || check_portfolio_limits self asset_name volume).
Proof.
  intros Ha. unfold check_limits, getitem. rewrite Ha. simpl.
  repeat match goal with
         | |- context [gt ?x ?y] => destruct (gt x y)
         end; try reflexivity.
  destruct (check_portfolio_limits self asset_name volume); reflexivity.
Qed.

(** For a non-negative delta the gross test reads [|volume| + |delta|]. *)
Lemma gross_condition_nonneg_delta v delta cap :
  0 <= delta ->
  gt (Qabs v + delta) cap = gt (Qabs v + Qabs delta) cap.
Proof.
  intros Hd. pose proof (Qabs_pos delta Hd) as Habs. unfold gt.
  destruct (Qlt_le_dec cap (Qabs v + delta)),
           (Qlt_le_dec cap (Qabs v + Qabs delta)); try reflexivity; lra.
Qed.

(** C3.  The per-instrument check misses a gross-limit violation on a
    negative delta.  A flat asset with gross limit 100 (usage 1) and delta
    -150 has [|volume| + |delta| = 150 > 100], yet [check_limits] answers
    [False]: it adds the signed delta, [abs(volume) + volume_delta].  The
    check of a cash account, [CashAccount.check_limits], adds
    [abs(amount)] and reports the same figures as a violation. *)
Theorem check_limits_negative_delta_passes_gross :
  assets flat_portfolio !! "CRY" = Some flat_asset
  /\ Asset.gross_limit flat_asset * max_usage flat_portfolio
     < Qabs (Asset.get_volume flat_asset) + Qabs (-150)
  /\ check_limits flat_portfolio "CRY" (-150) = Ok false
  /\ CashAccount.check_limits
       {| CashAccount.cash := 0; CashAccount.currency := "CAD";
          CashAccount.net_limit := 1000; CashAccount.gross_limit := 100 |}
       (-150) = true.
Proof. repeat split; vm_compute; reflexivity. Qed.

Lemma map_items_id (l : list (string * Q)) :
  map (fun item => (fst item, snd item)) l = l.
Proof. induction l as [|[n q] l IH]; simpl; congruence. Qed.

(** A batch that [check_bulk_limits] does not flag is returned as it is. *)
Lemma compress_position_unchanged self asset_quantity :
  check_bulk_limits self asset_quantity = Ok None ->
  compress_position self asset_quantity = Ok asset_quantity.
Proof.
  intros H. unfold compress_position. rewrite H. simpl.
  rewrite map_items_id. reflexivity.
Qed.

(** A flagged batch is scaled by one ratio and truncated. *)
Lemma compress_position_scaled self asset_quantity ratio :
  check_bulk_limits self asset_quantity = Ok (Some true) ->
  adjust_position self asset_quantity = Ok ratio ->
  compress_position self asset_quantity
    = Ok (map (fun item => (fst item, inject_Z (int (ratio * snd item))))
              asset_quantity).
Proof.
  intros H Hr. unfold compress_position. rewrite H. simpl.
  rewrite Hr. reflexivity.
Qed.

Lemma gross_step_range self asset_quantity ratio r :
  0 <= ratio <= 1 ->
  gross_position self <= gross_limit self * max_usage self ->
  (total_gross_position ← gross_delta self asset_quantity 0;
   if gt total_gross_position
         (gross_limit self * max_usage self - gross_position self)
   then r2 ← div (gross_limit self * max_usage self - gross_position self)
                 total_gross_position;
        Ok (min ratio r2)
   else Ok ratio) = Ok r ->
  0 <= r <= 1.
Proof.
  intros Hrange Hgross.
  destruct (gross_delta self asset_quantity 0) as [tg|e]; [|discriminate].
  rewrite bind_Ok.
  destruct (gt tg _) eqn:Hexceed.
  - apply gt_true in Hexceed.
    destruct (div _ tg) as [r2|e] eqn:Hd; [|discriminate].
    apply div_Ok in Hd as [Hnz ->]. rewrite bind_Ok. intros [= <-].
    apply min_both; [exact Hrange|].
    apply quotient_nonneg; lra.
  - intros [= <-]. exact Hrange.
Qed.

(** The ratio of [adjust_position] lies in [[0, 1]]. *)
Lemma adjust_position_ratio_range self asset_quantity r :
  adjust_position self asset_quantity = Ok r -> 0 <= r <= 1.
Proof.
  unfold adjust_position.
  destruct (gt (Qabs (net_position self)) _ || gt (gross_position self) _)
    eqn:Hguard.
  { intros [= <-]. lra. }
  apply orb_false_iff in Hguard as [Hnet Hgross].
  apply gt_false in Hnet, Hgross.
  set (total := sum_values asset_quantity).
  pose proof (Qabs_nonneg (net_position self)) as Hn0.
  pose proof (Qabs_nonneg total) as Ht0.
  pose proof (Qabs_nonneg (net_limit self * max_usage self)) as Hm0.
  destruct (gt (total * net_position self) 0).
  - destruct (div _ (Qabs total)) as [r0|e] eqn:Hd; [|discriminate].
    apply div_Ok in Hd as [Hnz ->]. rewrite bind_Ok.
    apply gross_step_range; [|exact Hgross].
    apply min_unit, quotient_nonneg; [lra | assumption | assumption].
  - destruct (gt (Qabs (net_position self + total)) _).
    + destruct (div _ (Qabs total)) as [r0|e] eqn:Hd; [|discriminate].
      apply div_Ok in Hd as [Hnz ->]. rewrite bind_Ok.
      apply gross_step_range; [|exact Hgross].
      apply min_unit, quotient_nonneg; [lra | assumption | assumption].
    + apply (gross_step_range self asset_quantity 1); [lra | exact Hgross].
Qed.

(** Compression never enlarges a delta and never changes its sign. *)
Lemma compress_position_shrinks self asset_quantity out :
  compress_position self asset_quantity = Ok out ->
  Forall2 (fun i o => fst o = fst i
                      /\ Qabs (snd o) <= Qabs (snd i)
                      /\ 0 <= snd i * snd o)
          asset_quantity out.
Proof.
  unfold compress_position.
  destruct (check_bulk_limits self asset_quantity) as [flag|e];
    [|discriminate].
  rewrite bind_Ok.
  destruct (falsy flag).
  - intros [= <-]. rewrite map_items_id.
    induction asset_quantity as [|[n q] l IH]; constructor; [|exact IH].
    cbn [fst snd]. split; [reflexivity|]. split; [lra | nra].
  - destruct (adjust_position self asset_quantity) as [ratio|e] eqn:Hr;
      [|discriminate].
    apply adjust_position_ratio_range in Hr.
    rewrite bind_Ok. intros [= <-].
    induction asset_quantity as [|[n q] l IH]; constructor; [|exact IH].
    cbn [fst snd]. split; [reflexivity|].
    destruct (int_toward_zero (ratio * q)) as (Habs & Hpos & Hneg).
    assert (Qabs (ratio * q) <= Qabs q) as Hscaled.
    { rewrite Qabs_Qmult, (Qabs_pos ratio) by lra.
      pose proof (Qabs_nonneg q). nra. }
    split; [lra|].
    destruct (Qlt_le_dec q 0) as [Hq|Hq].
    + assert (ratio * q <= 0) as Hrq by nra. specialize (Hneg Hrq). nra.
    + assert (0 <= ratio * q) as Hrq by nra. specialize (Hpos Hrq). nra.
Qed.

(** C1.  Compression leaves the gross cap exceeded when a delta flips a
    position.  With one asset held long 10, caps 100 gross and 1000 net at
    usage 1 (current gross 10 and net 10 are within the caps), the batch
    [{CRY: -500}] is flagged by [check_bulk_limits], [adjust_position]
    answers ratio 1 because the delta is counted as reducing exposure, and
    [compress_position] returns [{CRY: -500}]: the resulting gross exposure
    is 490 > 100, which [check_bulk_portfolio_limits] itself reports. *)
Theorem compress_position_flip_exceeds_gross :
  Qabs (net_position long_portfolio)
    <= net_limit long_portfolio * max_usage long_portfolio
  /\ gross_position long_portfolio
     <= gross_limit long_portfolio * max_usage long_portfolio
  /\ check_bulk_limits long_portfolio [("CRY", -500)] = Ok (Some true)
  /\ adjust_position long_portfolio [("CRY", -500)] = Ok 1
  /\ compress_position long_portfolio [("CRY", -500)]
     = Ok [("CRY", -500)]
  /\ gross_limit long_portfolio * max_usage long_portfolio
     < resulting_gross long_portfolio [("CRY", -500)]
  /\ check_bulk_portfolio_limits long_portfolio [("CRY", -500)]
     = Ok true.
Proof. repeat split; vm_compute; first [reflexivity | discriminate]. Qed.

(** A batch whose deltas pass one by one is returned unchanged although
    together they exceed the gross cap. *)
Example compress_position_joint_batch :
  check_bulk_limits pair_portfolio [("CRY", 300); ("SAD", 300)] = Ok None
  /\ compress_position pair_portfolio [("CRY", 300); ("SAD", 300)]
     = Ok [("CRY", 300); ("SAD", 300)]
  /\ gross_limit pair_portfolio * max_usage pair_portfolio
     < resulting_gross pair_portfolio [("CRY", 300); ("SAD", 300)]
  /\ check_bulk_portfolio_limits pair_portfolio
       [("CRY", 300); ("SAD", 300)] = Ok true.
Proof. repeat split; vm_compute; reflexivity. Qed.

End LimitFacts.

(* ===================================================================== *)
(** ** Gateway: order placement *)
(* ===================================================================== *)

Section GatewayFacts.
Import ApiTrading.

(** A sell of a non-shortable asset held short fails before any request
    is sent: the gateway is returned unchanged. *)
Lemma place_order_short_position_fails_fast
    (session_post : Payload -> Response) (now : Q) (self : ApiTrading.t)
    (ticker type : string) (quantity : Q) (action : string)
    (price : option Q) (a : Asset.t) :
  ~ quantity == 0 ->
  Portfolio.assets (portfolio self) !! upper ticker = Some a ->
  Asset.is_tradeable a = true ->
  Asset.is_shortable a = false ->
  lower action = "sell" ->
  Asset.get_volume a < 0 ->
  place_order session_post now self ticker type quantity action price
    = (Ok Failed, self).
Proof.
  intros Hq Ha Ht Hs Hact Hv. unfold place_order, getitem.
  destruct (Qeq_dec quantity 0); [contradiction|].
  rewrite Ha, Ht, Hs, Hact. simpl.
  destruct (Qlt_le_dec (Asset.get_volume a) 0); [reflexivity | lra].
Qed.

(** A sell of a non-shortable asset held long sends the requested
    quantity, clipped by the maximum trade size only. *)
Lemma place_order_long_sell_request
    (session_post : Payload -> Response) (now : Q) (self : ApiTrading.t)
    (ticker type : string) (quantity : Q) (action : string)
    (price : option Q) (a : Asset.t) :
  0 < quantity ->
  Portfolio.assets (portfolio self) !! upper ticker = Some a ->
  Asset.is_tradeable a = true ->
  Asset.is_shortable a = false ->
  lower action = "sell" ->
  0 <= Asset.get_volume a ->
  posted (snd (place_order session_post now self ticker type quantity
                 action price))
    = (posted self
       ++ [mkPayload (upper ticker) (upper type)
             (if gt quantity (Asset.maximum_trade_size a)
              then Asset.maximum_trade_size a else quantity)
             (upper action) 0 price])%list.
Proof.
  intros Hq Ha Ht Hs Hact Hv. unfold place_order, getitem.
  destruct (Qeq_dec quantity 0); [lra|].
  rewrite Ha, Ht, Hs, Hact. simpl.
  destruct (Qlt_le_dec (Asset.get_volume a) 0); [lra|].
  destruct (Qlt_le_dec (Asset.get_volume a + quantity) 0); [lra|].
  destruct (status_code _ =? 200)%Z; [|reflexivity].
  destruct (OrderBook.new_order _ _ _ _ _ _ _ _); reflexivity.
Qed.

(** C4.  A sell larger than the long position of a non-shortable asset is
    not clipped.  With 100 shares held, [place_order("CRY", "MARKET", 150,
    "sell")] posts a request for 150 shares whatever the venue answers:
    the guard tests [volume + quantity < 0], which a positive quantity
    never satisfies on a long position. *)
Theorem place_order_oversized_sell_not_clipped :
  forall (session_post : Payload -> Response) (now : Q),
    Asset.is_shortable long_only_asset = false
    /\ Asset.is_tradeable long_only_asset = true
    /\ Asset.get_volume long_only_asset == 100
    /\ posted (snd (place_order session_post now gateway "CRY" "MARKET"
                      150 "sell" None))
       = [mkPayload "CRY" "MARKET" 150 "SELL" 0 None].
Proof.
  intros session_post now.
  split; [reflexivity|]. split; [reflexivity|]. split; [reflexivity|].
  rewrite (place_order_long_sell_request session_post now gateway "CRY"
             "MARKET" 150 "sell" None long_only_asset);
    first [reflexivity | discriminate].
Qed.

(** On the same gateway, selling the asset held short fails fast. *)
Example place_order_short_held_fails_fast :
  forall (session_post : Payload -> Response) (now : Q),
    place_order session_post now gateway "SAD" "MARKET" 5 "sell" None
      = (Ok Failed, gateway).
Proof.
  intros session_post now.
  apply (place_order_short_position_fails_fast session_post now gateway
           "SAD" "MARKET" 5 "sell" None short_held_asset);
    first [reflexivity | discriminate].
Qed.

End GatewayFacts.

(* ===================================================================== *)
(** ** Order advice and slippage *)
(* ===================================================================== *)

Section AdviceFacts.
Import OrderBook.

(** With nothing left to fill the loop does not run. *)
Lemma fill_loop_stop l tc u : u <= 0 -> fill_loop l tc u = (tc, u).
Proof.
  intros Hu. destruct l as [|o l]; simpl; [reflexivity|].
  destruct (Qlt_le_dec 0 u); [lra | reflexivity].
Qed.

(** The visited levels depend on the quantity up to [==] only. *)
Lemma consumed_Qeq l : forall u u', u == u' -> consumed l u = consumed l u'.
Proof.
  induction l as [|o l IH]; intros u u' E; simpl; [reflexivity|].
  destruct (Qlt_le_dec 0 u), (Qlt_le_dec 0 u'); try lra; [|reflexivity].
  destruct (Qlt_le_dec (volume o) u), (Qlt_le_dec (volume o) u'); try lra;
    [|reflexivity].
  f_equal. apply IH. lra.
Qed.

(** Once the cumulative volume covers the trade the limit loop does not run. *)
Lemma limit_loop_stop l c lp q : q <= c -> limit_loop l c lp q = lp.
Proof.
  intros H. destruct l as [|o l]; simpl; [reflexivity|].
  destruct (Qlt_le_dec c q); [lra | reflexivity].
Qed.

(** The limit loop ends on the last level the fill loop visits. *)
Lemma limit_loop_consumed l :
  forall c lp q,
    limit_loop l c lp q
    = match last (consumed l (q - c)) with
      | Some o => Some (price o)
      | None => lp
      end.
Proof.
  induction l as [|o l IH]; intros c lp q; simpl; [reflexivity|].
  destruct (Qlt_le_dec c q) as [Hc|Hc], (Qlt_le_dec 0 (q - c)) as [Hp|Hp];
    try lra; [|reflexivity].
  destruct (Qlt_le_dec (volume o) (q - c)) as [Hv|Hv].
  - rewrite IH.
    rewrite (consumed_Qeq l (q - (c + volume o)) (q - c - volume o)) by ring.
    destruct (consumed l (q - c - volume o)) as [|o' l'] eqn:E;
      [reflexivity|].
    change (last (o :: o' :: l')) with (last (o' :: l')).
    destruct (last (o' :: l')) eqn:E'; [reflexivity|].
    apply last_None in E'. discriminate.
  - rewrite limit_loop_stop by lra. reflexivity.
Qed.

(** The two sides. *)
Lemma side_valid side :
  among side "buy" "sell" = true -> side = "buy" \/ side = "sell".
Proof.
  unfold among. intros H. apply orb_true_iff in H as [H|H];
    apply String.eqb_eq in H; auto.
Qed.

(** For a side in lower case both pricing functions walk the same chain. *)
Lemma side_of_market_side self side :
  among side "buy" "sell" = true -> side_of self side = market_side self side.
Proof. intros H. destruct (side_valid side H) as [-> | ->]; reflexivity. Qed.

(** What [limit_order_assistant] computes, case by case. *)
Lemma limit_order_assistant_cases self q side tol adv :
  limit_order_assistant self q side tol = Ok adv ->
  among side "buy" "sell" = true
  /\ exists best average_price,
      head (market_side self side) = Some best
      /\ calculate_vwap_market_price self q side false = Ok average_price
      /\ ((adv = mkAdvice "market" None
           /\ exists a, average_price = Some a /\ ~ a == 0
                        /\ Qabs (a - price best) <= tol)
          \/ adv = mkAdvice "limit"
                     (limit_loop (market_side self side) 0 None q)).
Proof.
  unfold limit_order_assistant, market_side.
  destruct (among side "buy" "sell") eqn:Ha; [|discriminate]. simpl negb.
  cbv iota.
  destruct (if String.eqb side "buy" then ask_head self else bid_head self)
    as [|best rest] eqn:Hside; [discriminate|].
  simpl head_price. rewrite bind_Ok.
  destruct (calculate_vwap_market_price self q side false) as [avg|e];
    [|discriminate].
  rewrite bind_Ok. intros H. split; [reflexivity|].
  exists best, avg. split; [reflexivity|]. split; [reflexivity|].
  destruct avg as [a|].
  - destruct (Qeq_dec a 0).
    + right. injection H as <-. reflexivity.
    + destruct (Qlt_le_dec tol (Qabs (a - price best))).
      * right. injection H as <-. reflexivity.
      * left. injection H as <-. split; [reflexivity|]. eauto.
  - right. injection H as <-. reflexivity.
Qed.

(** X1.  When [limit_order_assistant] advises a limit order, the advised
    price is the price of the last level the requested volume reaches on
    the side it trades against; for a positive volume a price is always
    given. *)
Theorem limit_advice_is_last_consumed_level :
  forall (self : Book) (trade_volume : Q) (side : string)
         (slippage_tolerance : Q) (adv : Advice),
    limit_order_assistant self trade_volume side slippage_tolerance = Ok adv ->
    advice_order_type adv = "limit" ->
    advice_price adv
    = option_map price (last (consumed (market_side self side) trade_volume))
    /\ (0 < trade_volume -> exists p, advice_price adv = Some p).
Proof.
  intros self q side tol adv H Hlimit.
  apply limit_order_assistant_cases in H
    as (Ha & best & avg & Hhead & Hv & [[-> _] | ->]); [discriminate|].
  simpl. rewrite limit_loop_consumed.
  rewrite (consumed_Qeq _ (q - 0) q) by ring.
  split.
  - destruct (last _); reflexivity.
  - intros Hq. destruct (market_side self side) as [|o l]; [discriminate|].
    simpl. destruct (Qlt_le_dec 0 q); [|lra].
    match goal with
    | |- context [last (o :: ?t)] =>
        destruct (last (o :: t)) eqn:E; [eauto | apply last_None in E; discriminate]
    end.
Qed.

Lemma limit_advice_is_last_consumed_level_witness :
  advice_price (mkAdvice "limit" (Some 11))
  = option_map price (last (consumed (market_side scenario_book "buy") 150))
  /\ (0 < 150 -> exists p, advice_price (mkAdvice "limit" (Some 11)) = Some p).
Proof.
  apply (limit_advice_is_last_consumed_level scenario_book 150 "buy" 0.01
           (mkAdvice "limit" (Some 11))).
  - vm_compute. reflexivity.
  - reflexivity.
Defined.

(** The fee moves the VWAP up for a buy and down for a sell. *)
Lemma vwap_with_cost self q side a :
  among side "buy" "sell" = true ->
  calculate_vwap_market_price self q side false = Ok (Some a) ->
  calculate_vwap_market_price self q side true
  = Ok (Some (if String.eqb side "buy" then a + transaction_fee self
              else a - transaction_fee self)).
Proof.
  intros Ha. destruct (side_valid side Ha) as [-> | ->];
    unfold calculate_vwap_market_price; simpl;
    destruct (fill_loop _ 0 q) as [tc u];
    (destruct (Qlt_le_dec 0 u); [discriminate|]);
    (destruct (div tc q) as [avg|e]; [|discriminate]);
    rewrite !bind_Ok; intros [= <-]; reflexivity.
Qed.

(** X2.  When [limit_order_assistant] advises a market order, the
    fee-free VWAP of the volume exists and lies within the slippage
    tolerance of the best price, no price is advised, and feeding the
    advice to [calculate_total_profit] returns the fee-inclusive VWAP times
    the volume. *)
Theorem market_advice_prices_the_trade :
  forall (self : Book) (trade_volume : Q) (side : string)
         (slippage_tolerance : Q) (adv : Advice),
    limit_order_assistant self trade_volume side slippage_tolerance = Ok adv ->
    advice_order_type adv = "market" ->
    exists a best,
      calculate_vwap_market_price self trade_volume side false = Ok (Some a)
      /\ head (market_side self side) = Some best
      /\ Qabs (a - price best) <= slippage_tolerance
      /\ advice_price adv = None
      /\ calculate_total_profit self trade_volume (advice_order_type adv)
           side (advice_price adv)
         = Ok ((if String.eqb side "buy" then a + transaction_fee self
                else a - transaction_fee self) * trade_volume).
Proof.
  intros self q side tol adv H Hmarket.
  apply limit_order_assistant_cases in H
    as (Ha & best & avg & Hhead & Hv & [[-> (a & -> & Hnz & Hslip)] | ->]);
    [|discriminate].
  exists a, best. split; [exact Hv|]. split; [exact Hhead|].
  split; [exact Hslip|]. split; [reflexivity|].
  pose proof (vwap_with_cost self q side a Ha Hv) as Hcost.
  destruct (side_valid side Ha) as [-> | ->];
    unfold calculate_total_profit; simpl; simpl in Hcost;
    rewrite Hcost; reflexivity.
Qed.

Lemma market_advice_prices_the_trade_witness :
  exists a best,
    calculate_vwap_market_price scenario_book 50 "buy" false = Ok (Some a)
    /\ head (market_side scenario_book "buy") = Some best
    /\ Qabs (a - price best) <= 0.01
    /\ advice_price (mkAdvice "market" None) = None
    /\ calculate_total_profit scenario_book 50
         (advice_order_type (mkAdvice "market" None)) "buy"
         (advice_price (mkAdvice "market" None))
       = Ok ((if String.eqb "buy" "buy"
              then a + transaction_fee scenario_book
              else a - transaction_fee scenario_book) * 50).
Proof.
  apply (market_advice_prices_the_trade scenario_book 50 "buy" 0.01
           (mkAdvice "market" None)).
  - vm_compute. reflexivity.
  - reflexivity.
Defined.
End AdviceFacts.

Section ThinAndZero.
Import OrderBook.

(** A quantity larger than the chain visits every level. *)
Lemma consumed_thin l :
  nonneg_volumes l ->
  forall u, total_volume l < u -> consumed l u = l.
Proof.
  induction 1 as [|o l Ho Hl IH]; intros u Hu; simpl in *; [reflexivity|].
  pose proof (total_volume_nonneg l Hl) as Hn.
  destruct (Qlt_le_dec 0 u); [|lra].
  destruct (Qlt_le_dec (volume o) u); [|lra].
  f_equal. apply IH. lra.
Qed.

(** X3.  On a non-empty side that holds less than the requested volume,
    [limit_order_assistant] advises a limit order at the price of the
    deepest level, whatever the tolerance, and [calculate_total_profit]
    prices that advice at the deepest price with fee and rebate applied,
    times the requested volume. *)
Theorem thin_book_advice_is_deepest_limit :
  forall (self : Book) (trade_volume : Q) (side : string)
         (slippage_tolerance : Q) (deepest : Order),
    among side "buy" "sell" = true ->
    nonneg_volumes (market_side self side) ->
    last (market_side self side) = Some deepest ->
    total_volume (market_side self side) < trade_volume ->
    limit_order_assistant self trade_volume side slippage_tolerance
      = Ok (mkAdvice "limit" (Some (price deepest)))
    /\ calculate_total_profit self trade_volume "limit" side
         (Some (price deepest))
       = Ok ((if String.eqb side "buy"
              then price deepest + transaction_fee self - rebate_fee self
              else price deepest - transaction_fee self + rebate_fee self)
             * trade_volume).
Proof.
  intros self q side tol deepest Ha Hvol Hlast Hthin.
  split.
  - assert (calculate_vwap_market_price self q side false = Ok None) as Hv.
    { apply vwap_thin_book.
      - destruct (side_valid side Ha) as [-> | ->]; reflexivity.
      - rewrite side_of_market_side by assumption. exact Hvol.
      - rewrite side_of_market_side by assumption. exact Hthin. }
    unfold limit_order_assistant. rewrite Ha. simpl negb. cbv iota.
    fold (market_side self side).
    destruct (market_side self side) as [|o l] eqn:Hside; [discriminate|].
    simpl head_price. rewrite bind_Ok, Hv, bind_Ok.
    rewrite limit_loop_consumed.
    rewrite (consumed_Qeq _ (q - 0) q) by ring.
    rewrite (consumed_thin _ Hvol q Hthin), Hlast. reflexivity.
  - destruct (side_valid side Ha) as [-> | ->]; reflexivity.
Qed.

Lemma thin_book_advice_is_deepest_limit_witness :
  limit_order_assistant scenario_book 301 "buy" 0.01
    = Ok (mkAdvice "limit" (Some (price (level "ask" 11 200))))
  /\ calculate_total_profit scenario_book 301 "limit" "buy"
       (Some (price (level "ask" 11 200)))
     = Ok ((if String.eqb "buy" "buy"
            then price (level "ask" 11 200) + transaction_fee scenario_book
                 - rebate_fee scenario_book
            else price (level "ask" 11 200) - transaction_fee scenario_book
                 + rebate_fee scenario_book)
           * 301).
Proof.
  apply (thin_book_advice_is_deepest_limit scenario_book 301 "buy" 0.01
           (level "ask" 11 200)).
  - reflexivity.
  - repeat constructor; discriminate.
  - reflexivity.
  - reflexivity.
Defined.

(** X4.  A quantity of zero is never priced: [calculate_vwap_market_price]
    raises [ZeroDivisionError], and so do [limit_order_assistant] (on a
    non-empty side) and the market branch of [calculate_total_profit]. *)
Theorem zero_quantity_never_prices :
  forall (self : Book) (action : string) (consider_cost : bool),
    among (lower action) "buy" "sell" = true ->
    calculate_vwap_market_price self 0 action consider_cost
      = Raise ZeroDivisionError
    /\ (market_side self (lower action) <> [] ->
        forall tol,
          limit_order_assistant self 0 (lower action) tol
            = Raise ZeroDivisionError)
    /\ forall price,
        calculate_total_profit self 0 "market" (lower action) price
          = Raise ZeroDivisionError.
Proof.
  intros self action cc Ha.
  assert (forall a c, among (lower a) "buy" "sell" = true ->
            calculate_vwap_market_price self 0 a c = Raise ZeroDivisionError)
    as Hzero.
  { intros a c Hv. unfold calculate_vwap_market_price. rewrite Hv.
    simpl negb. cbv iota. rewrite fill_loop_stop by lra. reflexivity. }
  split; [apply Hzero, Ha|].
  destruct (side_valid _ Ha) as [E | E]; rewrite E; split.
  - intros Hne tol. unfold limit_order_assistant, market_side in *. simpl in *.
    destruct (ask_head self); [congruence|]. simpl.
    rewrite (Hzero "buy" false eq_refl). reflexivity.
  - intros p. unfold calculate_total_profit. simpl.
    rewrite (Hzero "buy" true eq_refl). reflexivity.
  - intros Hne tol. unfold limit_order_assistant, market_side in *. simpl in *.
    destruct (bid_head self); [congruence|]. simpl.
    rewrite (Hzero "sell" false eq_refl). reflexivity.
  - intros p. unfold calculate_total_profit. simpl.
    rewrite (Hzero "sell" true eq_refl). reflexivity.
Qed.

Lemma zero_quantity_never_prices_witness :
  calculate_vwap_market_price scenario_book 0 "Buy" true
    = Raise ZeroDivisionError
  /\ (market_side scenario_book (lower "Buy") <> [] ->
      forall tol,
        limit_order_assistant scenario_book 0 (lower "Buy") tol
          = Raise ZeroDivisionError)
  /\ forall price,
      calculate_total_profit scenario_book 0 "market" (lower "Buy") price
        = Raise ZeroDivisionError.
Proof.
  apply (zero_quantity_never_prices scenario_book "Buy" true).
  reflexivity.
Defined.
End ThinAndZero.

Section Slippage.
Import OrderBook.

(** A complete fill costs at least [lo] per share when no price is below [lo]. *)
Lemma fill_loop_cost_ge lo l :
  nonneg_volumes l -> Forall (fun o => lo <= price o) l ->
  forall tc u, 0 <= u -> snd (fill_loop l tc u) <= 0 ->
    lo * u <= fst (fill_loop l tc u) - tc.
Proof.
  induction 1 as [|o l Ho Hl IH]; intros Hb tc u Hu Hs; simpl in *.
  - assert (u == 0) as -> by lra. lra.
  - inversion Hb as [|? ? Hlo Hb']; subst.
    destruct (Qlt_le_dec 0 u) as [Hpos|Hc].
    + destruct (Qlt_le_dec (volume o) u) as [Hv|Hv].
      * specialize (IH Hb' (tc + price o * volume o) (u - volume o)
                      ltac:(lra) Hs). nra.
      * rewrite fill_loop_done. simpl. nra.
    + simpl. assert (u == 0) as -> by lra. lra.
Qed.

(** A complete fill costs at most [hi] per share when no price is above [hi]. *)
Lemma fill_loop_cost_le hi l :
  nonneg_volumes l -> Forall (fun o => price o <= hi) l ->
  forall tc u, 0 <= u -> snd (fill_loop l tc u) <= 0 ->
    fst (fill_loop l tc u) - tc <= hi * u.
Proof.
  induction 1 as [|o l Ho Hl IH]; intros Hb tc u Hu Hs; simpl in *.
  - assert (u == 0) as -> by lra. lra.
  - inversion Hb as [|? ? Hlo Hb']; subst.
    destruct (Qlt_le_dec 0 u) as [Hpos|Hc].
    + destruct (Qlt_le_dec (volume o) u) as [Hv|Hv].
      * specialize (IH Hb' (tc + price o * volume o) (u - volume o)
                      ltac:(lra) Hs). nra.
      * rewrite fill_loop_done. simpl. nra.
    + simpl. assert (u == 0) as -> by lra. lra.
Qed.

(** The last element of a non-empty tail. *)
Lemma last_cons_In {A} (x : A) (l : list A) (w : A) :
  last l = Some w -> last (x :: l) = Some w /\ In w l.
Proof.
  intros H. destruct l as [|y l]; [discriminate|].
  split; [exact H|].
  apply list_elem_of_In, last_Some_elem_of, H.
Qed.

(** Visited levels are levels of the chain. *)
Lemma consumed_In l u w : In w (consumed l u) -> In w l.
Proof.
  revert u. induction l as [|o l IH]; intros u; simpl; [tauto|].
  destruct (Qlt_le_dec 0 u); [|simpl; tauto].
  intros [E | H]; [left; exact E|].
  destruct (Qlt_le_dec (volume o) u); [right; eapply IH, H | destruct H].
Qed.

(** Filling more from an ascending chain: the extra quantity costs at
    least the worst price paid so far, which bounds the cost so far. *)
Lemma fill_more_ascending l :
  StronglySorted ascending l -> nonneg_volumes l ->
  forall tc u1 u2, 0 < u1 -> u1 <= u2 -> snd (fill_loop l tc u2) <= 0 ->
    exists w,
      last (consumed l u1) = Some w
      /\ price w * (u2 - u1)
         <= fst (fill_loop l tc u2) - fst (fill_loop l tc u1)
      /\ fst (fill_loop l tc u1) - tc <= price w * u1
      /\ snd (fill_loop l tc u1) <= 0.
Proof.
  induction 1 as [|o l Hs IH Ho]; intros Hvol tc u1 u2 H1 H12 Hfull;
    simpl in *; [lra|].
  inversion Hvol as [|? ? Hv0 Hvol']; subst.
  destruct (Qlt_le_dec 0 u2); [|lra].
  destruct (Qlt_le_dec 0 u1); [|lra].
  destruct (Qlt_le_dec (volume o) u1) as [Hv1|Hv1].
  - destruct (Qlt_le_dec (volume o) u2); [|lra].
    destruct (IH Hvol' (tc + price o * volume o) (u1 - volume o)
                (u2 - volume o) ltac:(lra) ltac:(lra) Hfull)
      as (w & Hw & Hextra & Hsofar & Hdone).
    destruct (last_cons_In o _ w Hw) as [Hlast Hin].
    apply consumed_In in Hin.
    assert (price o <= price w) as Hle.
    { rewrite Forall_forall in Ho. apply (Ho w).
      apply list_elem_of_In, Hin. }
    exists w. split; [exact Hlast|]. split; [nra|]. split; [nra | exact Hdone].
  - exists o. split; [reflexivity|]. rewrite !fill_loop_done. cbn [fst snd].
    split; [|split; nra].
    destruct (Qlt_le_dec (volume o) u2) as [Hv2|Hv2].
    + assert (Forall (fun x => price o <= price x) l) as Hb.
      { eapply Forall_impl; [exact Ho|]. unfold ascending. tauto. }
      pose proof (fill_loop_cost_ge (price o) l Hvol' Hb
                    (tc + price o * volume o) (u2 - volume o)
                    ltac:(lra) Hfull). nra.
    + cbn [fst snd]. nra.
Qed.

(** The same for a descending chain: the extra quantity earns at most
    the price of the last level the smaller fill visited. *)
Lemma fill_more_descending l :
  StronglySorted descending l -> nonneg_volumes l ->
  forall tc u1 u2, 0 < u1 -> u1 <= u2 -> snd (fill_loop l tc u2) <= 0 ->
    exists w,
      last (consumed l u1) = Some w
      /\ fst (fill_loop l tc u2) - fst (fill_loop l tc u1)
         <= price w * (u2 - u1)
      /\ price w * u1 <= fst (fill_loop l tc u1) - tc
      /\ snd (fill_loop l tc u1) <= 0.
Proof.
  induction 1 as [|o l Hs IH Ho]; intros Hvol tc u1 u2 H1 H12 Hfull;
    simpl in *; [lra|].
  inversion Hvol as [|? ? Hv0 Hvol']; subst.
  destruct (Qlt_le_dec 0 u2); [|lra].
  destruct (Qlt_le_dec 0 u1); [|lra].
  destruct (Qlt_le_dec (volume o) u1) as [Hv1|Hv1].
  - destruct (Qlt_le_dec (volume o) u2); [|lra].
    destruct (IH Hvol' (tc + price o * volume o) (u1 - volume o)
                (u2 - volume o) ltac:(lra) ltac:(lra) Hfull)
      as (w & Hw & Hextra & Hsofar & Hdone).
    destruct (last_cons_In o _ w Hw) as [Hlast Hin].
    apply consumed_In in Hin.
    assert (price w <= price o) as Hle.
    { rewrite Forall_forall in Ho. apply (Ho w).
      apply list_elem_of_In, Hin. }
    exists w. split; [exact Hlast|]. split; [nra|]. split; [nra | exact Hdone].
  - exists o. split; [reflexivity|]. rewrite !fill_loop_done. cbn [fst snd].
    split; [|split; nra].
    destruct (Qlt_le_dec (volume o) u2) as [Hv2|Hv2].
    + assert (Forall (fun x => price x <= price o) l) as Hb.
      { eapply Forall_impl; [exact Ho|]. unfold descending. tauto. }
      pose proof (fill_loop_cost_le (price o) l Hvol' Hb
                    (tc + price o * volume o) (u2 - volume o)
                    ltac:(lra) Hfull). nra.
    + cbn [fst snd]. nra.
Qed.

(** X5.  On a well-formed ladder that can fill both sizes, a larger market
    order never gets a better fee-free VWAP than a smaller one: dearer for
    a buy, cheaper for a sell. *)
Theorem vwap_worsens_with_size :
  forall (self : Book) (q1 q2 : Q) (action : string),
    ladder_ok self ->
    among (lower action) "buy" "sell" = true ->
    0 < q1 -> q1 <= q2 ->
    ~ total_volume (side_of self action) < q2 ->
    exists p1 p2,
      calculate_vwap_market_price self q1 action false = Ok (Some p1)
      /\ calculate_vwap_market_price self q2 action false = Ok (Some p2)
      /\ if String.eqb (lower action) "buy" then p1 <= p2 else p2 <= p1.
Proof.
  intros self q1 q2 action [Hav Hbv Has Hbs] Ha H1 H12 Hdepth.
  assert (0 < q2) as H2 by lra.
  rewrite !vwap_no_fee_unfold by assumption.
  set (side := side_of self action) in *.
  assert (nonneg_volumes side) as Hvol.
  { unfold side, side_of. destruct (String.eqb _ _); assumption. }
  destruct (Qlt_le_dec 0 (snd (fill_loop side 0 q2))) as [Hl|Hfull].
  { apply (fill_loop_depth side Hvol 0 q2 H2) in Hl. contradiction. }
  assert (forall c1 c2 w,
             w * (q2 - q1) <= c2 - c1 -> c1 - 0 <= w * q1 ->
             c1 / q1 <= c2 / q2) as Hup.
  { intros c1 c2 w He Hs.
    apply Qle_shift_div_l; [exact H2|].
    assert (c1 / q1 * q2 == c1 * q2 / q1) as -> by (field; lra).
    apply Qle_shift_div_r; [exact H1|]. nra. }
  assert (forall c1 c2 w,
             c2 - c1 <= w * (q2 - q1) -> w * q1 <= c1 - 0 ->
             c2 / q2 <= c1 / q1) as Hdown.
  { intros c1 c2 w He Hs.
    apply Qle_shift_div_l; [exact H1|].
    assert (c2 / q2 * q1 == c2 * q1 / q2) as -> by (field; lra).
    apply Qle_shift_div_r; [exact H2|]. nra. }
  unfold side, side_of in *.
  destruct (String.eqb (lower action) "buy").
  - destruct (fill_more_ascending _ Has Hvol 0 q1 q2 H1 H12 Hfull)
      as (w & _ & Hextra & Hsofar & Hdone).
    destruct (Qlt_le_dec 0 (snd (fill_loop (ask_head self) 0 q1))); [lra|].
    eexists. eexists. split; [reflexivity|]. split; [reflexivity|].
    exact (Hup _ _ (price w) Hextra Hsofar).
  - destruct (fill_more_descending _ Hbs Hvol 0 q1 q2 H1 H12 Hfull)
      as (w & _ & Hextra & Hsofar & Hdone).
    destruct (Qlt_le_dec 0 (snd (fill_loop (bid_head self) 0 q1))); [lra|].
    eexists. eexists. split; [reflexivity|]. split; [reflexivity|].
    exact (Hdown _ _ (price w) Hextra Hsofar).
Qed.

Lemma vwap_worsens_with_size_witness :
  exists p1 p2,
    calculate_vwap_market_price scenario_book 50 "buy" false = Ok (Some p1)
    /\ calculate_vwap_market_price scenario_book 150 "buy" false
       = Ok (Some p2)
    /\ if String.eqb (lower "buy") "buy" then p1 <= p2 else p2 <= p1.
Proof.
  apply (vwap_worsens_with_size scenario_book 50 150 "buy").
  - split; repeat constructor; discriminate.
  - reflexivity.
  - reflexivity.
  - discriminate.
  - vm_compute. discriminate.
Defined.
End Slippage.

Section Stress.
Import OrderBook ExtendOrderBook.

(** With both factors 1 the stress loop is the fill loop. *)
Lemma stress_loop_neutral l :
  forall qsf psf tc tc' u u',
    qsf == 1 -> psf == 1 -> tc == tc' -> u == u' ->
    fst (stress_loop l qsf psf tc u) == fst (fill_loop l tc' u')
    /\ snd (stress_loop l qsf psf tc u) == snd (fill_loop l tc' u').
Proof.
  induction l as [|o l IH]; intros qsf psf tc tc' u u' Hq Hp Ht Hu; simpl.
  - split; assumption.
  - destruct (Qlt_le_dec 0 u), (Qlt_le_dec 0 u'); try lra;
      [|split; assumption].
    assert (volume o * qsf == volume o) as Hvq by (rewrite Hq; ring).
    destruct (Qlt_le_dec (volume o * qsf) u), (Qlt_le_dec (volume o) u');
      try lra.
    + apply IH; try assumption.
      * rewrite Hp, Ht. ring.
      * rewrite Hp, Hu. ring.
    + apply IH; try assumption; [|reflexivity].
      rewrite Hp, Ht, Hu. ring.
Qed.

(** X6.  With quantity stress factor 1 and price stress factor 0,
    [stress_testing_market_price] answers exactly as
    [calculate_vwap_market_price]: the same exception, the same [None], or
    an equal price. *)
Theorem stress_test_without_stress_is_vwap :
  forall (self : Book) (quantity : Q) (action : string)
         (consider_cost : bool),
    same_quote
      (stress_testing_market_price self quantity 1 0 action consider_cost)
      (calculate_vwap_market_price self quantity action consider_cost).
Proof.
  intros self q action cc.
  unfold stress_testing_market_price, calculate_vwap_market_price.
  destruct (among (lower action) "buy" "sell"); [|reflexivity].
  simpl negb. cbv iota.
  set (side := if String.eqb (lower action) "buy" then ask_head self
               else bid_head self).
  set (psf := if String.eqb (lower action) "buy" then 1 + 0 else 1 - 0).
  assert (psf == 1) as Hp.
  { unfold psf. destruct (String.eqb _ _); ring. }
  destruct (stress_loop_neutral side 1 psf 0 0 q q ltac:(reflexivity) Hp
              ltac:(reflexivity) ltac:(reflexivity)) as [Hc Hu].
  destruct (stress_loop side 1 psf 0 q) as [tc u].
  destruct (fill_loop side 0 q) as [tc' u']. simpl in Hc, Hu.
  destruct (Qlt_le_dec 0 u), (Qlt_le_dec 0 u'); try lra; [exact I|].
  unfold div. destruct (Qeq_dec q 0); [reflexivity|].
  rewrite !bind_Ok.
  destruct cc; [destruct (String.eqb _ _)|]; simpl; rewrite Hc; reflexivity.
Qed.
End Stress.

(* ===================================================================== *)
(** ** Exchange rates *)
(* ===================================================================== *)

Section RateFacts.
Import BankAccount.

(** X7.  [get_exchange_rate] returns 1 for a currency against itself
    whatever the action, raises [ValueError] for an action other than buy
    or sell, and raises nothing but [ValueError] or, when only the reverse
    pair is stored with a zero quote on the side used,
    [ZeroDivisionError]. *)
Theorem exchange_rate_failures :
  forall (self : BankAccount.t) (base quote action : string),
    (upper base = upper quote ->
     get_exchange_rate self base quote action = Ok 1)
    /\ (upper base <> upper quote ->
        among (lower action) "buy" "sell" = false ->
        get_exchange_rate self base quote action = Raise ValueError)
    /\ (forall e,
          get_exchange_rate self base quote action = Raise e ->
          e = ValueError
          \/ (e = ZeroDivisionError
              /\ stored self (upper base) (upper quote) = Raise KeyError
              /\ exists r, stored self (upper quote) (upper base) = Ok r
                           /\ (if String.eqb (lower action) "sell"
                               then ask r else bid r) == 0)).
Proof.
  intros self base quote action. unfold get_exchange_rate.
  split; [|split].
  - intros E. apply String.eqb_eq in E. rewrite E. reflexivity.
  - intros Hne Ha. apply String.eqb_neq in Hne. rewrite Hne, Ha. reflexivity.
  - intros e. destruct (String.eqb (upper base) (upper quote)); [discriminate|].
    destruct (among (lower action) "buy" "sell"); simpl negb; cbv iota;
      [|intros [= <-]; left; reflexivity].
    destruct (stored self (upper base) (upper quote)) as [r|e1] eqn:Hd;
      [discriminate|].
    apply stored_only_KeyError in Hd as Hk. subst e1.
    destruct (stored self (upper quote) (upper base)) as [r|e2] eqn:Hr.
    + unfold div. destruct (Qeq_dec _ 0) as [Hz|Hz]; [|discriminate].
      intros [= <-]. right. split; [reflexivity|]. split; [reflexivity|].
      exists r. split; [reflexivity | exact Hz].
    + apply stored_only_KeyError in Hr as Hk. subst e2.
      intros [= <-]. left. reflexivity.
Qed.

(** Setting a rate leaves the entries of other base currencies alone. *)
Lemma stored_set_other self base quote b a x y :
  x <> upper base ->
  stored (set_foreign_exchange_rate self base quote b a) x y
  = stored self x y.
Proof.
  intros Hx. unfold stored, set_foreign_exchange_rate, getitem. simpl.
  rewrite lookup_insert_ne by congruence. reflexivity.
Qed.

(** X8.  After [set_foreign_exchange_rate(base, quote, bid, ask)], selling
    the pair looks up [bid] and buying looks up [ask], under any spelling
    of the two codes that agrees up to case; pairs that do not involve
    [base] are looked up as before. *)
Theorem set_rate_then_lookup :
  forall (self : BankAccount.t) (base quote : string) (bid_rate ask_rate : Q),
    upper base <> upper quote ->
    let self' := set_foreign_exchange_rate self base quote bid_rate ask_rate in
    (forall base' quote',
        upper base' = upper base -> upper quote' = upper quote ->
        get_exchange_rate self' base' quote' "sell" = Ok bid_rate
        /\ get_exchange_rate self' base' quote' "buy" = Ok ask_rate)
    /\ (forall x y action,
          upper x <> upper base -> upper y <> upper base ->
          get_exchange_rate self' x y action
          = get_exchange_rate self x y action).
Proof.
  intros self base quote b a Hne self'. split.
  - intros base' quote' Eb Eq.
    assert (stored self' (upper base') (upper quote') = Ok (mkRate b a)) as Hst.
    { rewrite Eb, Eq. unfold self', stored, set_foreign_exchange_rate, getitem.
      simpl. rewrite lookup_insert_eq. simpl.
      rewrite lookup_singleton_eq. reflexivity. }
    assert (upper base' <> upper quote') as Hne' by congruence.
    rewrite (get_exchange_rate_direct self' base' quote' "sell" _ Hne'
               eq_refl Hst).
    rewrite (get_exchange_rate_direct self' base' quote' "buy" _ Hne'
               eq_refl Hst).
    split; reflexivity.
  - intros x y action Hx Hy. unfold get_exchange_rate, self'.
    rewrite !stored_set_other by assumption. reflexivity.
Qed.

Lemma set_rate_then_lookup_witness :
  let self' := set_foreign_exchange_rate cad_account "cad" "usd" 4 5 in
  (forall base' quote',
      upper base' = upper "cad" -> upper quote' = upper "usd" ->
      get_exchange_rate self' base' quote' "sell" = Ok 4
      /\ get_exchange_rate self' base' quote' "buy" = Ok 5)
  /\ (forall x y action,
        upper x <> upper "cad" -> upper y <> upper "cad" ->
        get_exchange_rate self' x y action
        = get_exchange_rate cad_account x y action).
Proof.
  apply (set_rate_then_lookup cad_account "cad" "usd" 4 5).
  discriminate.
Defined.

(** X9.  The amount [currency_value_conversion_targetamount] asks for is
    enough: converting it with [currency_value_conversion] yields the
    target, for a positive buy rate and a positive target. *)
Theorem target_amount_round_trip :
  forall (self : BankAccount.t) (from_currency to_currency : string)
         (rate target needed : Q),
    get_exchange_rate self from_currency to_currency "buy" = Ok rate ->
    0 < rate -> 0 < target ->
    currency_value_conversion_targetamount self from_currency to_currency
      target = Ok needed ->
    exists back,
      currency_value_conversion self from_currency to_currency needed
        = Ok back
      /\ back == target.
Proof.
  intros self f t rate target needed Hrate Hpos Ht.
  unfold currency_value_conversion_targetamount, currency_value_conversion.
  rewrite Hrate, bind_Ok. intros [= <-].
  assert (0 < target * rate) as Hn by nra.
  destruct (Qlt_le_dec 0 (target * rate)); [|lra].
  rewrite bind_Ok. unfold div.
  destruct (Qeq_dec rate 0); [lra|].
  eexists. split; [reflexivity|]. field. lra.
Qed.

Lemma target_amount_round_trip_witness :
  exists back,
    currency_value_conversion quoted_account "CAD" "USD" 100 = Ok back
    /\ back == 20.
Proof.
  apply (target_amount_round_trip quoted_account "CAD" "USD" 5 20 100).
  - reflexivity.
  - reflexivity.
  - reflexivity.
  - vm_compute. reflexivity.
Defined.
End RateFacts.

(* ===================================================================== *)
(** ** Dicts and strings *)
(* ===================================================================== *)

Section DictFacts.
Context {K V : Type} `{EqDecision K}.




(** The second of two assignments to a key wins. *)
Lemma dict_set_set (d : list (K * V)) k v1 v2 :
  Dict.set (Dict.set d k v1) k v2 = Dict.set d k v2.
Proof.
  induction d as [|[k' v'] d IH]; simpl.
  - destruct (decide (k = k)); [reflexivity | congruence].
  - destruct (decide (k' = k)) as [E|E]; simpl.
    + destruct (decide (k' = k)); [reflexivity | congruence].
    + destruct (decide (k' = k)); [congruence | f_equal; exact IH].
Qed.

(** Assigning to a new key appends. *)
Lemma dict_set_fresh (d : list (K * V)) k v :
  ~ In k (map fst d) -> Dict.set d k v = (d ++ [(k, v)])%list.
Proof.
  induction d as [|[k' v'] d IH]; simpl; [reflexivity|].
  intros Hn. destruct (decide (k' = k)); [tauto|].
  f_equal. apply IH. tauto.
Qed.
End DictFacts.

Section StringFacts.

(** [str.upper] is idempotent, character by character. *)
Lemma upper_ascii_idem c : upper_ascii (upper_ascii c) = upper_ascii c.
Proof. destruct c as [[] [] [] [] [] [] [] []]; reflexivity. Qed.

Lemma upper_idem s : upper (upper s) = upper s.
Proof.
  induction s as [|c s IH]; simpl; [reflexivity|].
  rewrite upper_ascii_idem, IH. reflexivity.
Qed.

End StringFacts.

(* ===================================================================== *)
(** ** Cash subaccounts *)
(* ===================================================================== *)

Section SubaccountFacts.
Import Subaccounts.

(** Without a rate in either direction a conversion raises [ValueError]. *)
Lemma conversion_no_rate bank a b v :
  upper a <> upper b ->
  BankAccount.stored bank (upper a) (upper b) = Raise KeyError ->
  BankAccount.stored bank (upper b) (upper a) = Raise KeyError ->
  BankAccount.currency_value_conversion bank a b v = Raise ValueError.
Proof.
  intros Hne H1 H2.
  assert (forall action, among (lower action) "buy" "sell" = true ->
            BankAccount.get_exchange_rate bank a b action = Raise ValueError)
    as Hrate.
  { intros action Ha. unfold BankAccount.get_exchange_rate.
    apply String.eqb_neq in Hne. rewrite Hne, Ha, H1, H2. reflexivity. }
  unfold BankAccount.currency_value_conversion.
  destruct (Qlt_le_dec 0 v); rewrite Hrate by reflexivity; reflexivity.
Qed.

(** Home-currency accounts are summed. *)
Lemma value_loop_home bank p items :
  Forall (fun item => upper (fst item) = p) items ->
  forall total,
    value_loop bank p items total
    = Ok (fold_left (fun acc item => acc + get_cash (snd item)) items total).
Proof.
  induction 1 as [|[n a] items Hn _ IH]; intros total; simpl; [reflexivity|].
  simpl in Hn. rewrite Hn, String.eqb_refl. apply IH.
Qed.

(** X10.  When every subaccount is in the valuation currency,
    [get_value] is the plain sum of the balances and needs no exchange
    rate. *)
Theorem get_value_home_currency :
  forall (self : Subaccounts.t) (primary_currency : option string),
    let p := match primary_currency with
             | None => BankAccount.main_currency (bank self)
             | Some c => upper c
             end in
    Forall (fun item => upper (fst item) = p) (subaccounts self) ->
    get_value self primary_currency
    = Ok (fold_left (fun acc item => acc + get_cash (snd item))
                    (subaccounts self) 0).
Proof.
  intros self primary p Hall. unfold get_value. fold p.
  apply value_loop_home, Hall.
Qed.

Lemma get_value_home_currency_witness :
  get_value home_ledger None
  = Ok (fold_left (fun acc item => acc + get_cash (snd item))
                  (subaccounts home_ledger) 0).
Proof.
  apply (get_value_home_currency home_ledger None).
  repeat constructor.
Defined.

(** One account without a rate makes the loop raise. *)
Lemma value_loop_no_rate bank p items name acct :
  In (name, acct) items ->
  upper name <> upper p ->
  BankAccount.stored bank (upper name) (upper p) = Raise KeyError ->
  BankAccount.stored bank (upper p) (upper name) = Raise KeyError ->
  forall total, exists e, value_loop bank p items total = Raise e.
Proof.
  intros Hin Hne H1 H2.
  assert (String.eqb (upper name) p = false) as Hforeign.
  { apply String.eqb_neq. intros E. apply Hne. rewrite <- E.
    symmetry. apply upper_idem. }
  induction items as [|[n a] items IH]; intros total; [destruct Hin|].
  simpl. destruct Hin as [E | Hin].
  - injection E as -> ->. rewrite Hforeign.
    destruct (gt (get_cash acct) 0).
    + rewrite conversion_no_rate;
        rewrite ?upper_idem; try assumption. eexists. reflexivity.
    + rewrite conversion_no_rate;
        rewrite ?upper_idem; try assumption; try congruence.
      eexists. reflexivity.
  - destruct (String.eqb (upper n) p); [apply IH, Hin|].
    destruct (gt (get_cash a) 0).
    + destruct (BankAccount.currency_value_conversion _ _ _ _) as [v|e];
        [rewrite bind_Ok; apply IH, Hin | eexists; reflexivity].
    + destruct (BankAccount.currency_value_conversion _ _ _ _) as [v|e];
        [rewrite bind_Ok; apply IH, Hin | eexists; reflexivity].
Qed.

(** X11.  [get_value] does not return when one subaccount is in a
    foreign currency for which no rate is stored in either direction: the
    account is not skipped, the call raises. *)
Theorem get_value_needs_every_rate :
  forall (self : Subaccounts.t) (primary_currency : option string)
         (name : string) (acct : Cash),
    let p := match primary_currency with
             | None => BankAccount.main_currency (bank self)
             | Some c => upper c
             end in
    In (name, acct) (subaccounts self) ->
    upper name <> upper p ->
    BankAccount.stored (bank self) (upper name) (upper p) = Raise KeyError ->
    BankAccount.stored (bank self) (upper p) (upper name) = Raise KeyError ->
    exists e, get_value self primary_currency = Raise e.
Proof.
  intros self primary name acct p Hin Hne H1 H2. unfold get_value. fold p.
  eapply value_loop_no_rate; eassumption.
Qed.

Lemma get_value_needs_every_rate_witness :
  exists e, get_value mixed_ledger None = Raise e.
Proof.
  apply (get_value_needs_every_rate mixed_ledger None "USD"
           (cash_of "USD" 50)).
  - right. left. reflexivity.
  - discriminate.
  - reflexivity.
  - reflexivity.
Defined.

End SubaccountFacts.

(* ===================================================================== *)
(** ** Exposure of a batch *)
(* ===================================================================== *)

Section ExposureFacts.
Import Portfolio.

(** The running net sum stays within the running gross sum. *)
Lemma exposure_fold (l : list (string * Asset.t)) :
  forall g n, Qabs n <= g ->
    Qabs (fold_left
            (fun acc item =>
               acc + Asset.get_volume (snd item)
                     * Asset.limit_multiplier (snd item)) l n)
    <= fold_left
         (fun acc item =>
            acc + Qabs (Asset.get_volume (snd item)
                        * Asset.limit_multiplier (snd item))) l g.
Proof.
  induction l as [|item l IH]; intros g n H; cbn [fold_left]; [exact H|].
  apply IH.
  pose proof (Qabs_triangle n
                (Asset.get_volume (snd item)
                 * Asset.limit_multiplier (snd item))). lra.
Qed.

(** X13.  The net position of a portfolio never exceeds its gross position
    in magnitude, and the gross position is never negative. *)
Theorem net_position_within_gross :
  forall self : Portfolio.t,
    Qabs (Exposure.get_net_position self) <= Exposure.get_gross_position self
    /\ 0 <= Exposure.get_gross_position self.
Proof.
  intros self.
  assert (Qabs (Exposure.get_net_position self)
          <= Exposure.get_gross_position self) as H.
  { apply exposure_fold. rewrite Qabs_pos; lra. }
  split; [exact H|].
  pose proof (Qabs_nonneg (Exposure.get_net_position self)). lra.
Qed.

(** A smaller delta of opposite sign reduces the exposure by its size. *)
Lemma abs_opposite_smaller v q :
  v * q < 0 -> Qabs q < Qabs v -> Qabs (v + q) == Qabs v - Qabs q.
Proof.
  intros Hs Hlt.
  destruct (Qlt_le_dec v 0) as [Hv|Hv].
  - assert (0 < q) by nra.
    rewrite (Qabs_neg v), (Qabs_pos q) in * by lra.
    rewrite Qabs_neg by lra. ring.
  - assert (q < 0) by nra.
    rewrite (Qabs_pos v), (Qabs_neg q) in * by lra.
    rewrite Qabs_pos by lra. ring.
Qed.

(** A delta of the same sign adds its size to the exposure. *)
Lemma abs_same_sign v q :
  0 <= v * q -> Qabs (v + q) == Qabs v + Qabs q.
Proof.
  intros Hs.
  destruct (Qlt_le_dec v 0) as [Hv|Hv], (Qlt_le_dec q 0) as [Hq|Hq].
  - rewrite (Qabs_neg v), (Qabs_neg q), Qabs_neg by lra. ring.
  - assert (q == 0) as E by nra.
    rewrite (Qabs_neg v), (Qabs_pos q), Qabs_neg by lra. lra.
  - assert (v == 0) as E by nra.
    rewrite (Qabs_pos v), (Qabs_neg q), Qabs_neg by lra. lra.
  - rewrite (Qabs_pos v), (Qabs_pos q), Qabs_pos by lra. ring.
Qed.

(** The exact positions depend on the starting values up to [==] only. *)
Lemma exact_positions_Qeq self l :
  forall g g' n n', g == g' -> n == n' ->
    same_positions (exact_positions self l g n) (exact_positions self l g' n').
Proof.
  induction l as [|[name q] l IH]; intros g g' n n' Hg Hn;
    cbn [exact_positions].
  - split; assumption.
  - destruct (getitem (assets self) name) as [a|e]; [|reflexivity].
    rewrite !bind_Ok. apply IH; [rewrite Hg | rewrite Hn]; reflexivity.
Qed.

(** [same_positions] is transitive. *)
Lemma same_positions_trans a b c :
  same_positions a b -> same_positions b c -> same_positions a c.
Proof.
  destruct a as [[g n]|e], b as [[g' n']|e'], c as [[g'' n'']|e''];
    simpl; try tauto; try congruence.
  intros [H1 H2] [H3 H4]. split; [rewrite H1 | rewrite H2]; assumption.
Qed.

(** X14.  The hypothetical positions [check_bulk_portfolio_limits] computes
    for a batch are the exact ones: each delta moves gross by
    [|volume + delta| - |volume|] and net by [delta], whichever of the
    three sign cases the code takes, and an unknown asset raises the same
    [KeyError]. *)
Theorem bulk_positions_exact :
  forall (self : Portfolio.t) (asset_quantity : list (string * Q))
         (gross net : Q),
    same_positions (bulk_positions self asset_quantity gross net)
                   (exact_positions self asset_quantity gross net).
Proof.
  intros self l. induction l as [|[name q] l IH]; intros g n;
    cbn [bulk_positions exact_positions].
  - split; reflexivity.
  - destruct (getitem (assets self) name) as [a|e]; [|reflexivity].
    rewrite !bind_Ok.
    destruct (Qlt_le_dec (Asset.get_volume a * q) 0) as [Hs|Hs].
    + destruct (gt (Qabs (Asset.get_volume a)) (Qabs q)) eqn:Hgt.
      * apply gt_true in Hgt.
        eapply same_positions_trans; [apply IH|].
        apply exact_positions_Qeq; [|reflexivity].
        pose proof (abs_opposite_smaller _ _ Hs Hgt).
        lra.
      * eapply same_positions_trans; [apply IH|].
        apply exact_positions_Qeq; [|reflexivity].
        assert (Qabs (q + Asset.get_volume a)
                == Qabs (Asset.get_volume a + q)) as E
            by (apply Qabs_wd; ring).
        lra.
    + eapply same_positions_trans; [apply IH|].
      apply exact_positions_Qeq; [|reflexivity].
      pose proof (abs_same_sign _ _ Hs). lra.
Qed.
End ExposureFacts.

Section AdjustFacts.
Import Portfolio.

(** [adjust_position] is the guard, then the net stage, then the gross
    stage. *)
Lemma adjust_position_stages self asset_quantity :
  adjust_position self asset_quantity
  = if gt (Qabs (net_position self)) (net_limit self * max_usage self)
       || gt (gross_position self) (gross_limit self * max_usage self)
    then Ok 0
    else
      ratio ← net_stage self asset_quantity;
      total_gross_position ← gross_delta self asset_quantity 0;
      if gt total_gross_position
            (gross_limit self * max_usage self - gross_position self)
      then r ← div (gross_limit self * max_usage self - gross_position self)
                   total_gross_position;
           Ok (min ratio r)
      else Ok ratio.
Proof. reflexivity. Qed.

(** The guard of [adjust_position] is the negation of [within_caps]. *)
Lemma caps_guard self :
  within_caps self <->
  gt (Qabs (net_position self)) (net_limit self * max_usage self)
  || gt (gross_position self) (gross_limit self * max_usage self) = false.
Proof.
  unfold within_caps. rewrite orb_false_iff, !gt_false. reflexivity.
Qed.

(** The two cases of an absolute value. *)
Lemma abs_cases x : (0 <= x /\ Qabs x == x) \/ (x < 0 /\ Qabs x == - x).
Proof.
  destruct (Qlt_le_dec x 0); [right | left]; split; try assumption.
  - apply Qabs_neg. lra.
  - apply Qabs_pos. assumption.
Qed.

(** The net stage returns a ratio in [[0, 1]] under which the scaled
    batch keeps the net exposure within the cap. *)
Lemma net_stage_safe self asset_quantity :
  Qabs (net_position self) <= net_limit self * max_usage self ->
  exists r1,
    net_stage self asset_quantity = Ok r1
    /\ 0 <= r1 <= 1
    /\ forall r, 0 <= r <= r1 ->
         Qabs (net_position self + r * sum_values asset_quantity)
         <= net_limit self * max_usage self.
Proof.
  intros Hnet. unfold net_stage.
  set (total := sum_values asset_quantity).
  set (net := net_position self) in *.
  set (cap := net_limit self * max_usage self) in *.
  pose proof (Qabs_nonneg net) as Hn0.
  pose proof (Qabs_nonneg total) as Ht0.
  assert (Qabs cap == cap) as Hcap by (apply Qabs_pos; lra).
  destruct (gt (total * net) 0) eqn:Hsame.
  - apply gt_true in Hsame.
    assert (~ Qabs total == 0) as Hnz.
    { intros E. destruct (abs_cases total) as [[? E1]|[? E1]]; nra. }
    unfold div. destruct (Qeq_dec (Qabs total) 0); [contradiction|].
    rewrite bind_Ok. eexists. split; [reflexivity|].
    assert (0 <= (cap - Qabs net) / Qabs total) as Hq
      by (apply quotient_nonneg; [lra | assumption | assumption]).
    split; [apply min_unit, Hq|].
    intros r [Hr0 Hr1].
    assert (r * Qabs total <= cap - Qabs net) as Hroom.
    { assert (min ((cap - Qabs net) / Qabs total) 1
              <= (cap - Qabs net) / Qabs total) as Hm.
      { unfold min. destruct (Qlt_le_dec 1 _); lra. }
      assert (r <= (cap - Qabs net) / Qabs total) as Hle by lra.
      assert ((cap - Qabs net) / Qabs total * Qabs total == cap - Qabs net)
        as E by (field; assumption).
      assert (0 < Qabs total) by lra. nra. }
    apply Qabs_Qle_condition.
    destruct (abs_cases total) as [[? E1]|[? E1]],
             (abs_cases net) as [[? E2]|[? E2]]; split; nra.
  - apply gt_false in Hsame.
    destruct (gt (Qabs (net + total)) cap) eqn:Hcross.
    + apply gt_true in Hcross.
      assert (~ Qabs total == 0) as Hnz.
      { intros E. assert (total == 0) as E0.
        { destruct (abs_cases total) as [[? E1]|[? E1]]; lra. }
        assert (Qabs (net + total) == Qabs net) as E'
          by (apply Qabs_wd; lra). lra. }
      unfold div. destruct (Qeq_dec (Qabs total) 0); [contradiction|].
      rewrite bind_Ok. eexists. split; [reflexivity|].
      assert (0 <= (Qabs cap + Qabs net) / Qabs total) as Hq
        by (apply quotient_nonneg; [lra | assumption | assumption]).
      split; [apply min_unit, Hq|].
      intros r [Hr0 Hr1].
      assert (r * Qabs total <= cap + Qabs net) as Hroom.
      { assert (min ((Qabs cap + Qabs net) / Qabs total) 1
                <= (Qabs cap + Qabs net) / Qabs total) as Hm.
        { unfold min. destruct (Qlt_le_dec 1 _); lra. }
        assert (r <= (Qabs cap + Qabs net) / Qabs total) as Hle by lra.
        assert ((Qabs cap + Qabs net) / Qabs total * Qabs total
                == Qabs cap + Qabs net) as E by (field; assumption).
        assert (0 < Qabs total) by lra. nra. }
      apply Qabs_Qle_condition.
      destruct (abs_cases total) as [[? E1]|[? E1]],
               (abs_cases net) as [[? E2]|[? E2]]; split; nra.
    + apply gt_false in Hcross.
      exists 1. split; [reflexivity|]. split; [lra|].
      intros r [Hr0 Hr1].
      apply Qabs_Qle_condition. apply Qabs_Qle_condition in Hcross.
      apply Qabs_Qle_condition in Hnet. split; nra.
Qed.

(** On known assets the gross loop returns. *)
Lemma gross_delta_known self asset_quantity :
  known_assets self asset_quantity ->
  forall tg, exists r, gross_delta self asset_quantity tg = Ok r.
Proof.
  induction 1 as [|[name q] l [a Ha] _ IH]; intros tg; simpl;
    [eexists; reflexivity|].
  simpl in Ha. unfold getitem. rewrite Ha. rewrite bind_Ok.
  destruct (gt _ 0); apply IH.
Qed.

(** An unknown asset makes the gross loop raise [KeyError]. *)
Lemma gross_delta_unknown self asset_quantity :
  Exists (fun item => assets self !! fst item = None) asset_quantity ->
  forall tg, gross_delta self asset_quantity tg = Raise KeyError.
Proof.
  induction 1 as [[name q] l Hx | [name q] l _ IH]; intros tg; simpl.
  - simpl in Hx. unfold getitem. rewrite Hx. reflexivity.
  - unfold getitem. destruct (assets self !! name); [|reflexivity].
    simpl. destruct (gt _ 0); apply IH.
Qed.

(** The gross stage never enlarges the ratio and keeps it non-negative. *)
Lemma gross_stage_le self asset_quantity ratio r :
  0 <= ratio ->
  gross_position self <= gross_limit self * max_usage self ->
  (total_gross_position ← gross_delta self asset_quantity 0;
   if gt total_gross_position
         (gross_limit self * max_usage self - gross_position self)
   then r2 ← div (gross_limit self * max_usage self - gross_position self)
                 total_gross_position;
        Ok (min ratio r2)
   else Ok ratio) = Ok r ->
  0 <= r <= ratio.
Proof.
  intros Hrange Hgross.
  destruct (gross_delta self asset_quantity 0) as [tg|e]; [|discriminate].
  rewrite bind_Ok.
  destruct (gt tg _) eqn:Hexceed.
  - apply gt_true in Hexceed.
    destruct (div _ tg) as [r2|e] eqn:Hd; [|discriminate].
    apply div_Ok in Hd as [Hnz ->]. rewrite bind_Ok. intros [= <-].
    assert (0 <= (gross_limit self * max_usage self - gross_position self)
                 / tg) by (apply quotient_nonneg; lra).
    unfold min. destruct (Qlt_le_dec _ ratio); lra.
  - intros [= <-]. lra.
Qed.

(** X15.  For a batch of known assets [adjust_position] always returns, and
    the ratio it returns lies between 0 and 1; no division by zero
    occurs. *)
Theorem adjust_position_returns :
  forall (self : Portfolio.t) (asset_quantity : list (string * Q)),
    known_assets self asset_quantity ->
    exists ratio,
      adjust_position self asset_quantity = Ok ratio /\ 0 <= ratio <= 1.
Proof.
  intros self aq Hknown.
  assert (exists ratio, adjust_position self aq = Ok ratio) as [ratio Hr].
  { rewrite adjust_position_stages.
    destruct (_ || _) eqn:Hguard; [eexists; reflexivity|].
    apply caps_guard in Hguard as [Hnet Hgross].
    destruct (net_stage_safe self aq Hnet) as (r1 & -> & Hr1 & _).
    rewrite bind_Ok.
    destruct (gross_delta_known self aq Hknown 0) as [tg ->].
    rewrite bind_Ok.
    destruct (gt tg _) eqn:Hexceed; [|eexists; reflexivity].
    apply gt_true in Hexceed. unfold div.
    destruct (Qeq_dec tg 0); [lra|]. eexists. reflexivity. }
  exists ratio. split; [exact Hr|].
  eapply adjust_position_ratio_range, Hr.
Qed.

Lemma adjust_position_returns_witness :
  exists ratio,
    adjust_position pair_portfolio [("CRY", 600); ("SAD", 600)] = Ok ratio
    /\ 0 <= ratio <= 1.
Proof.
  apply (adjust_position_returns pair_portfolio [("CRY", 600); ("SAD", 600)]).
  repeat constructor; eexists; reflexivity.
Defined.

(** X16.  Starting within the caps, scaling the batch by the ratio
    [adjust_position] returns keeps the net position within
    [net_limit * max_usage]. *)
Theorem adjust_position_keeps_net_cap :
  forall (self : Portfolio.t) (asset_quantity : list (string * Q))
         (ratio : Q),
    within_caps self ->
    adjust_position self asset_quantity = Ok ratio ->
    Qabs (net_position self + ratio * sum_values asset_quantity)
    <= net_limit self * max_usage self.
Proof.
  intros self aq ratio Hcaps. rewrite adjust_position_stages.
  pose proof Hcaps as [Hnet Hgross].
  apply caps_guard in Hcaps. rewrite Hcaps.
  destruct (net_stage_safe self aq Hnet) as (r1 & -> & Hr1 & Hsafe).
  rewrite bind_Ok. intros H.
  apply gross_stage_le in H; [|lra | exact Hgross].
  apply Hsafe. lra.
Qed.

Lemma adjust_position_keeps_net_cap_witness :
  Qabs (net_position pair_portfolio
        + (1000 # 1200) * sum_values [("CRY", 600); ("SAD", 600)])
  <= net_limit pair_portfolio * max_usage pair_portfolio.
Proof.
  apply (adjust_position_keeps_net_cap pair_portfolio
           [("CRY", 600); ("SAD", 600)] (1000 # 1200)).
  - split; vm_compute; discriminate.
  - vm_compute. reflexivity.
Defined.
End AdjustFacts.

Section CompressFacts.
Import Portfolio.

(** With an unknown name in the batch, [check_bulk_limits] reports a
    breach found earlier or raises [KeyError]. *)
Lemma check_bulk_limits_unknown self asset_quantity :
  Exists (fun item => assets self !! fst item = None) asset_quantity ->
  check_bulk_limits self asset_quantity = Ok (Some true)
  \/ check_bulk_limits self asset_quantity = Raise KeyError.
Proof.
  induction 1 as [[name q] l Hx | [name q] l _ IH]; simpl.
  - right. simpl in Hx. unfold check_limits, getitem. rewrite Hx.
    reflexivity.
  - destruct (assets self !! name) as [a|] eqn:Ha.
    + rewrite (check_limits_conditions self name q a Ha), bind_Ok.
      destruct (_ || _); [left; reflexivity | exact IH].
    + right. unfold check_limits, getitem. rewrite Ha. reflexivity.
Qed.

(** X17.  Within the caps, [compress_position] raises [KeyError] as soon as
    the batch names an asset the portfolio does not hold, wherever in the
    batch it stands. *)
Theorem compress_position_unknown_asset :
  forall (self : Portfolio.t) (asset_quantity : list (string * Q)),
    within_caps self ->
    Exists (fun item => assets self !! fst item = None) asset_quantity ->
    compress_position self asset_quantity = Raise KeyError.
Proof.
  intros self aq Hcaps Hunknown. unfold compress_position.
  destruct (check_bulk_limits_unknown self aq Hunknown) as [-> | ->];
    [|reflexivity].
  rewrite bind_Ok. cbn [falsy]. cbv iota.
  rewrite adjust_position_stages.
  pose proof Hcaps as [Hnet _]. apply caps_guard in Hcaps. rewrite Hcaps.
  destruct (net_stage_safe self aq Hnet) as (r1 & -> & _).
  rewrite bind_Ok, (gross_delta_unknown self aq Hunknown). reflexivity.
Qed.

Lemma compress_position_unknown_asset_witness :
  compress_position flat_portfolio [("XYZ", 5)] = Raise KeyError.
Proof.
  apply (compress_position_unknown_asset flat_portfolio [("XYZ", 5)]).
  - split; vm_compute; discriminate.
  - constructor. reflexivity.
Defined.

(** [int(0 * q)] is 0. *)
Lemma int_zero q : inject_Z (int (0 * q)) == 0.
Proof.
  unfold int. destruct q as [n d]. simpl.
  rewrite Z.quot_0_l by lia. reflexivity.
Qed.

(** X18.  When the positions are already beyond a cap and the batch breaks
    a per-asset limit, [compress_position] returns the batch with every
    quantity set to zero, names and order kept. *)
Theorem compress_position_over_cap_zeroes :
  forall (self : Portfolio.t) (asset_quantity : list (string * Q)),
    ~ within_caps self ->
    check_bulk_limits self asset_quantity = Ok (Some true) ->
    exists out,
      compress_position self asset_quantity = Ok out
      /\ map fst out = map fst asset_quantity
      /\ Forall (fun item => snd item == 0) out.
Proof.
  intros self aq Hover Hflag. unfold compress_position.
  rewrite Hflag, bind_Ok. cbn [falsy]. cbv iota.
  rewrite adjust_position_stages.
  destruct (_ || _) eqn:Hguard.
  - rewrite bind_Ok. eexists. split; [reflexivity|].
    split.
    + rewrite map_map. reflexivity.
    + apply Forall_map. apply Forall_forall. intros item _.
      cbn [snd]. apply int_zero.
  - apply caps_guard in Hguard. contradiction.
Qed.

Lemma compress_position_over_cap_zeroes_witness :
  exists out,
    compress_position breached_portfolio [("CRY", 500)] = Ok out
    /\ map fst out = map fst [("CRY", 500)]
    /\ Forall (fun item => snd item == 0) out.
Proof.
  apply (compress_position_over_cap_zeroes breached_portfolio
           [("CRY", 500)]).
  - intros [_ H]. vm_compute in H. apply H. reflexivity.
  - vm_compute. reflexivity.
Defined.
End CompressFacts.

(* ===================================================================== *)
(** ** The order gateway: requests and bookkeeping *)
(* ===================================================================== *)

Section PlaceOrderFacts.
Import ApiTrading.

(** The fields [Order.__post_init__] derives. *)
Lemma new_order_fields price volume filled order_type timestamp id
    price_type vwap o :
  OrderBook.new_order price volume filled order_type timestamp id price_type
    vwap = Ok o ->
  OrderBook.id o = id
  /\ OrderBook.volume o = volume - filled
  /\ OrderBook.filled_volume o = filled
  /\ OrderBook.initial_volume o = volume.
Proof.
  unfold OrderBook.new_order.
  destruct (negb (among _ "bid" "ask")); [discriminate|].
  destruct (negb (among _ "limit" "market")); [discriminate|].
  intros [= <-]. repeat split; reflexivity.
Qed.

(** The request [place_order] sends once its local checks pass. *)
Lemma place_order_cases
    (session_post : Payload -> Response) (now : Q) (self : ApiTrading.t)
    (ticker type : string) (quantity : Q) (action : string)
    (price : option Q) :
  (place_order session_post now self ticker type quantity action price
   = (Ok Failed, self)
   \/ place_order session_post now self ticker type quantity action price
      = (Raise KeyError, self))
  \/ exists a sent,
      Portfolio.assets (portfolio self) !! upper ticker = Some a
      /\ Asset.is_tradeable a = true
      /\ ~ quantity == 0
      /\ sent <= Asset.maximum_trade_size a
      /\ (sent == quantity \/ sent == Asset.maximum_trade_size a
          \/ sent == Asset.get_volume a)
      /\ let payload := mkPayload (upper ticker) (upper type) sent
                          (upper action) 0 price in
         let resp := session_post payload in
         let sent_state :=
           mk (portfolio self) (history_orders self) (completed_orders self)
              (active_orders self) (order_timestamps self)
              (posted self ++ [payload])%list in
         (status_code resp <> 200%Z
          /\ place_order session_post now self ticker type quantity action
               price = (Ok Failed, sent_state))
         \/ (status_code resp = 200%Z
             /\ exists e,
                 place_order session_post now self ticker type quantity
                   action price = (Raise e, sent_state))
         \/ (status_code resp = 200%Z
             /\ exists order_,
                 OrderBook.new_order (r_price resp) (r_quantity resp)
                   (r_quantity_filled resp)
                   (if String.eqb (lower (r_action resp)) "buy"
                    then "bid" else "ask")
                   (Some (r_tick resp)) (Some (r_order_id resp))
                   (r_type resp) (r_vwap resp) = Ok order_
                 /\ place_order session_post now self ticker type quantity
                      action price
                    = (Ok (Placed order_),
                       mk (portfolio self)
                          (<[r_order_id resp := order_]> (history_orders self))
                          (if Qeq_dec (OrderBook.volume order_) 0
                           then {[r_order_id resp]} ∪ completed_orders self
                           else completed_orders self)
                          (if Qeq_dec (OrderBook.volume order_) 0
                           then active_orders self
                           else {[r_order_id resp]} ∪ active_orders self)
                          (order_timestamps self ++ [now])%list
                          (posted self ++ [payload])%list)).
Proof.
  unfold place_order, getitem.
  destruct (Qeq_dec quantity 0) as [Hq|Hq]; [left; left; reflexivity|].
  destruct (Portfolio.assets (portfolio self) !! upper ticker) as [a|] eqn:Ha;
    [|left; right; reflexivity].
  destruct (Asset.is_tradeable a) eqn:Ht; [|left; left; reflexivity].
  simpl negb. cbv iota.
  set (checked :=
         if negb (Asset.is_shortable a) && String.eqb (lower action) "sell"
         then if Qlt_le_dec (Asset.get_volume a) 0 then None
              else if Qlt_le_dec (Asset.get_volume a + quantity) 0
                   then Some (Asset.get_volume a) else Some quantity
         else Some quantity).
  assert (checked = None
          \/ exists c, checked = Some c
                       /\ (c == quantity \/ c == Asset.get_volume a)) as Hc.
  { unfold checked. destruct (_ && _).
    - destruct (Qlt_le_dec (Asset.get_volume a) 0); [left; reflexivity|].
      destruct (Qlt_le_dec (Asset.get_volume a + quantity) 0); right;
        eexists; split; try reflexivity; [right | left]; reflexivity.
    - right. eexists. split; [reflexivity | left; reflexivity]. }
  destruct Hc as [-> | (c & -> & Hc)]; [left; left; reflexivity|].
  right. exists a.
  exists (if gt c (Asset.maximum_trade_size a)
          then Asset.maximum_trade_size a else c).
  split; [reflexivity|]. split; [exact Ht|]. split; [exact Hq|].
  split.
  { destruct (gt c _) eqn:Hg; [lra | apply gt_false in Hg; exact Hg]. }
  split.
  { destruct (gt c _); [right; left; reflexivity|].
    destruct Hc as [Hc|Hc]; [left | right; right]; exact Hc. }
  cbv zeta.
  match goal with
  | |- context [session_post ?p] => set (payload := p)
  end.
  destruct (status_code (session_post payload) =? 200)%Z eqn:Hs.
  - apply Z.eqb_eq in Hs. right.
    destruct (OrderBook.new_order _ _ _ _ _ _ _ _) as [order_|e] eqn:Hn.
    + right. split; [exact Hs|]. exists order_. split; [reflexivity|].
      destruct (Qeq_dec (OrderBook.volume order_) 0); reflexivity.
    + left. split; [exact Hs|]. exists e. reflexivity.
  - apply Z.eqb_neq in Hs. left. split; [exact Hs | reflexivity].
Qed.

(** X19.  [place_order] sends at most one request and never touches the
    portfolio; an order it returns is recorded under its id in
    [history_orders], time-stamped, and put into [completed_orders] if
    nothing remains to fill and into [active_orders] otherwise; when no
    order is returned the books of orders are unchanged. *)
Theorem place_order_bookkeeping :
  forall (session_post : Payload -> Response) (now : Q) (self : ApiTrading.t)
         (ticker type : string) (quantity : Q) (action : string)
         (price : option Q),
    let res :=
      place_order session_post now self ticker type quantity action price in
    let self' := snd res in
    portfolio self' = portfolio self
    /\ (posted self' = posted self
        \/ exists p, posted self' = (posted self ++ [p])%list)
    /\ (forall o,
          fst res = Ok (Placed o) ->
          exists id,
            OrderBook.id o = Some id
            /\ history_orders self' = <[id := o]> (history_orders self)
            /\ order_timestamps self' = (order_timestamps self ++ [now])%list
            /\ (OrderBook.volume o == 0 ->
                completed_orders self' = {[id]} ∪ completed_orders self
                /\ active_orders self' = active_orders self)
            /\ (~ OrderBook.volume o == 0 ->
                active_orders self' = {[id]} ∪ active_orders self
                /\ completed_orders self' = completed_orders self))
    /\ ((forall o, fst res <> Ok (Placed o)) ->
        history_orders self' = history_orders self
        /\ completed_orders self' = completed_orders self
        /\ active_orders self' = active_orders self
        /\ order_timestamps self' = order_timestamps self).
Proof.
  intros session_post now self ticker type quantity action price res self'.
  subst self' res.
  destruct (place_order_cases session_post now self ticker type quantity
              action price)
    as [[-> | ->] | (a & sent & Ha & Ht & Hq & Hmax & Hsent & Hcases)].
  - cbn [fst snd]. split; [reflexivity|]. split; [left; reflexivity|].
    split; [discriminate|]. intros _. repeat split; reflexivity.
  - cbn [fst snd]. split; [reflexivity|]. split; [left; reflexivity|].
    split; [discriminate|]. intros _. repeat split; reflexivity.
  - cbv zeta in Hcases.
    destruct Hcases as [[_ ->] | [[_ [e ->]] | [_ (o & Hn & ->)]]];
      cbn [fst snd portfolio posted history_orders completed_orders
           active_orders order_timestamps].
    + split; [reflexivity|]. split; [right; eauto|].
      split; [discriminate|]. intros _. repeat split; reflexivity.
    + split; [reflexivity|]. split; [right; eauto|].
      split; [discriminate|]. intros _. repeat split; reflexivity.
    + split; [reflexivity|]. split; [right; eauto|].
      split.
      * intros o' [= <-]. eexists.
        apply new_order_fields in Hn as (Hid & _).
        split; [exact Hid|]. split; [reflexivity|]. split; [reflexivity|].
        destruct (Qeq_dec (OrderBook.volume o) 0); split; intros Hv;
          try contradiction; split; reflexivity.
      * intros Hno. exfalso. apply (Hno o). reflexivity.
Qed.

(** X20.  Whatever request [place_order] sends is for a known, tradeable
    asset, carries the upper-cased ticker, type and action and the given
    price, is not a dry run, and asks for no more than the asset's
    [maximum_trade_size]. *)
Theorem place_order_request_within_max :
  forall (session_post : Payload -> Response) (now : Q) (self : ApiTrading.t)
         (ticker type : string) (quantity : Q) (action : string)
         (price : option Q) (p : Payload),
    posted (snd (place_order session_post now self ticker type quantity
                   action price))
      = (posted self ++ [p])%list ->
    exists a,
      Portfolio.assets (portfolio self) !! upper ticker = Some a
      /\ Asset.is_tradeable a = true
      /\ p_quantity p <= Asset.maximum_trade_size a
      /\ p_ticker p = upper ticker
      /\ p_type p = upper type
      /\ p_action p = upper action
      /\ p_dry_run p = 0%Z
      /\ p_price p = price.
Proof.
  intros session_post now self ticker type quantity action price p.
  destruct (place_order_cases session_post now self ticker type quantity
              action price)
    as [[-> | ->] | (a & sent & Ha & Ht & Hq & Hmax & Hsent & Hcases)].
  - cbn [snd]. intros E. apply (f_equal length) in E.
    rewrite length_app in E. simpl in E. lia.
  - cbn [snd]. intros E. apply (f_equal length) in E.
    rewrite length_app in E. simpl in E. lia.
  - cbv zeta in Hcases.
    assert (forall p0,
               (posted self ++ [p0])%list = (posted self ++ [p])%list ->
               p0 = p) as Hinj.
    { intros p0 E. apply app_inv_head in E. congruence. }
    intros E. exists a.
    destruct Hcases as [[_ H] | [[_ [e H]] | [_ (o & Hn & H)]]];
      rewrite H in E; cbn [snd posted] in E; apply Hinj in E; subst p;
      cbn; repeat split; assumption.
Qed.

Lemma place_order_request_within_max_witness :
  exists a,
    Portfolio.assets (portfolio gateway) !! upper "cry" = Some a
    /\ Asset.is_tradeable a = true
    /\ p_quantity (mkPayload "CRY" "LIMIT" 50 "BUY" 0 (Some 10))
       <= Asset.maximum_trade_size a
    /\ p_ticker (mkPayload "CRY" "LIMIT" 50 "BUY" 0 (Some 10)) = upper "cry"
    /\ p_type (mkPayload "CRY" "LIMIT" 50 "BUY" 0 (Some 10)) = upper "limit"
    /\ p_action (mkPayload "CRY" "LIMIT" 50 "BUY" 0 (Some 10)) = upper "buy"
    /\ p_dry_run (mkPayload "CRY" "LIMIT" 50 "BUY" 0 (Some 10)) = 0%Z
    /\ p_price (mkPayload "CRY" "LIMIT" 50 "BUY" 0 (Some 10)) = Some 10.
Proof.
  apply (place_order_request_within_max resting_venue 4 gateway "cry" "limit"
           50 "buy" (Some 10)).
  vm_compute. reflexivity.
Defined.
End PlaceOrderFacts.

Section AdmissionFacts.
Import ApiTrading ApiOperations.

(** The pruning loop drops a prefix of stale time stamps. *)
Lemma prune_suffix (current_time : Q) (order_timestamps : list Q) :
  exists dropped,
    order_timestamps = (dropped ++ prune current_time order_timestamps)%list
    /\ Forall (fun t0 => 1 < current_time - t0) dropped.
Proof.
  induction order_timestamps as [|t0 rest IH]; cbn [prune].
  - exists []. split; [reflexivity | constructor].
  - unfold gt. destruct (Qlt_le_dec 1 (current_time - t0)) as [Hs|Hf].
    + destruct IH as (dropped & E & Hd). exists (t0 :: dropped). split.
      * cbn. f_equal. exact E.
      * constructor; assumption.
    + exists []. split; [reflexivity | constructor].
Qed.

(** On ascending time stamps everything the pruning loop keeps is
    fresh. *)
Lemma prune_sorted_fresh (current_time : Q) (order_timestamps : list Q) :
  StronglySorted Qle order_timestamps ->
  Forall (fun t0 => current_time - t0 <= 1)
         (prune current_time order_timestamps).
Proof.
  induction 1 as [|t0 rest Hs IH Hall]; cbn [prune]; [constructor|].
  unfold gt. destruct (Qlt_le_dec 1 (current_time - t0)) as [Hst|Hf];
    [exact IH|].
  constructor; [exact Hf|].
  eapply Forall_impl; [exact Hall|]. cbn. intros t1 Hle. lra.
Qed.

(** X21.  With time stamps in ascending order, [can_place_order] drops
    exactly a prefix of stamps older than one second, keeps only stamps
    within one second, allows the orders iff the kept stamps plus the
    requested number stay below [MAX_ORDERS_PER_SECOND - 2], and changes
    nothing else. *)
Theorem can_place_order_window :
  forall (current_time : Q) (MAX_ORDERS_PER_SECOND : Z) (self : ApiTrading.t)
         (ordernum : Z),
    StronglySorted Qle (order_timestamps self) ->
    let res := can_place_order current_time MAX_ORDERS_PER_SECOND self
                 ordernum in
    (exists dropped,
        order_timestamps self
        = (dropped ++ order_timestamps (snd res))%list
        /\ Forall (fun t0 => 1 < current_time - t0) dropped)
    /\ Forall (fun t0 => current_time - t0 <= 1) (order_timestamps (snd res))
    /\ (fst res = true <->
        (Z.of_nat (length (order_timestamps (snd res))) + ordernum
         < MAX_ORDERS_PER_SECOND - 2)%Z)
    /\ portfolio (snd res) = portfolio self
    /\ history_orders (snd res) = history_orders self
    /\ completed_orders (snd res) = completed_orders self
    /\ active_orders (snd res) = active_orders self
    /\ posted (snd res) = posted self.
Proof.
  intros current_time MAX self ordernum Hsorted res. subst res.
  unfold can_place_order. cbn [fst snd order_timestamps portfolio
    history_orders completed_orders active_orders posted].
  split; [apply prune_suffix|].
  split; [apply prune_sorted_fresh; exact Hsorted|].
  split; [apply Z.ltb_lt|].
  repeat split; reflexivity.
Qed.

Lemma can_place_order_window_witness :
  let res := can_place_order (15 # 4) 10 busy_gateway 0 in
  (exists dropped,
      order_timestamps busy_gateway
      = (dropped ++ order_timestamps (snd res))%list
      /\ Forall (fun t0 => 1 < (15 # 4) - t0) dropped)
  /\ Forall (fun t0 => (15 # 4) - t0 <= 1) (order_timestamps (snd res))
  /\ (fst res = true <->
      (Z.of_nat (length (order_timestamps (snd res))) + 0 < 10 - 2)%Z)
  /\ portfolio (snd res) = portfolio busy_gateway
  /\ history_orders (snd res) = history_orders busy_gateway
  /\ completed_orders (snd res) = completed_orders busy_gateway
  /\ active_orders (snd res) = active_orders busy_gateway
  /\ posted (snd res) = posted busy_gateway.
Proof.
  apply (can_place_order_window (15 # 4) 10 busy_gateway 0).
  repeat constructor; discriminate.
Defined.

End AdmissionFacts.

Section ClosingFacts.
Import ApiTrading ApiOperations.

(** X22.  Closing a position of a known asset that is already flat sends no
    request and changes nothing: [close_position] returns [-1]. *)
Theorem close_position_flat_sends_nothing :
  forall (session_post : Payload -> Response) (now : Q) (self : ApiTrading.t)
         (ticker : string) (a : Asset.t),
    Portfolio.assets (portfolio self) !! upper ticker = Some a ->
    Asset.get_volume a == 0 ->
    close_position session_post now self ticker None = (Ok Failed, self).
Proof.
  intros session_post now self ticker a Ha Hv.
  unfold close_position, getitem. rewrite Ha.
  unfold place_order.
  destruct (Qeq_dec (Qabs (Asset.get_volume a)) 0) as [_|Hne];
    [reflexivity|].
  exfalso. apply Hne. rewrite Hv. reflexivity.
Qed.

Lemma close_position_flat_sends_nothing_witness :
  close_position resting_venue 4 flat_gateway "cry" None
  = (Ok Failed, flat_gateway).
Proof.
  apply (close_position_flat_sends_nothing resting_venue 4 flat_gateway "cry"
           flat_asset).
  - reflexivity.
  - reflexivity.
Defined.

(** X23.  Closing a non-flat position of a tradeable asset sends exactly one
    MARKET request on the opposite side (SELL when long, BUY when short)
    for the size of the position, capped at [maximum_trade_size], without
    a price; for a long position of a non-shortable asset too. *)
Theorem close_position_request :
  forall (session_post : Payload -> Response) (now : Q) (self : ApiTrading.t)
         (ticker : string) (a : Asset.t),
    Portfolio.assets (portfolio self) !! upper ticker = Some a ->
    Asset.is_tradeable a = true ->
    ~ Asset.get_volume a == 0 ->
    posted (snd (close_position session_post now self ticker None))
    = (posted self
       ++ [mkPayload (upper ticker) "MARKET"
             (Py.min (Qabs (Asset.get_volume a))
                     (Asset.maximum_trade_size a))
             (if gt (Asset.get_volume a) 0 then "SELL" else "BUY")
             0 None])%list.
Proof.
  intros session_post now self ticker a Ha Ht Hv.
  unfold close_position, getitem. rewrite Ha.
  unfold place_order, getitem. rewrite Ha, Ht. cbn [negb].
  destruct (Qeq_dec (Qabs (Asset.get_volume a)) 0) as [Hz|_].
  { exfalso. apply Hv.
    destruct (Qabs_Qle_condition (Asset.get_volume a) 0) as [H _].
    specialize (H ltac:(rewrite Hz; lra)). lra. }
  assert (Hsent :
    (if gt (Qabs (Asset.get_volume a)) (Asset.maximum_trade_size a)
     then Asset.maximum_trade_size a else Qabs (Asset.get_volume a))
    = Py.min (Qabs (Asset.get_volume a)) (Asset.maximum_trade_size a)).
  { unfold gt, Py.min.
    destruct (Qlt_le_dec (Asset.maximum_trade_size a)
                (Qabs (Asset.get_volume a))); reflexivity. }
  unfold gt at 1 2.
  destruct (Qlt_le_dec 0 (Asset.get_volume a)) as [Hpos|Hneg].
  - (* long: sell *)
    change (lower "sell") with "sell". change (upper "sell") with "SELL".
    change (upper "MARKET") with "MARKET".
    change (String.eqb "sell" "sell") with true.
    destruct (negb (Asset.is_shortable a)); cbn [andb].
    + destruct (Qlt_le_dec (Asset.get_volume a) 0) as [Hc|_]; [lra|].
      destruct (Qlt_le_dec
                  (Asset.get_volume a + Qabs (Asset.get_volume a)) 0)
        as [Hc|_].
      { exfalso. pose proof (Qabs_nonneg (Asset.get_volume a)). lra. }
      rewrite Hsent.
      repeat match goal with
             | |- context [if ?c then _ else _] => destruct c
             | |- context [match ?c with Ok _ => _ | Raise _ => _ end] =>
                 destruct c
             end; reflexivity.
    + rewrite Hsent.
      repeat match goal with
             | |- context [if ?c then _ else _] => destruct c
             | |- context [match ?c with Ok _ => _ | Raise _ => _ end] =>
                 destruct c
             end; reflexivity.
  - change (lower "buy") with "buy". change (upper "buy") with "BUY".
    change (upper "MARKET") with "MARKET".
    change (String.eqb "buy" "sell") with false.
    rewrite andb_false_r. rewrite Hsent.
    repeat match goal with
           | |- context [if ?c then _ else _] => destruct c
           | |- context [match ?c with Ok _ => _ | Raise _ => _ end] =>
               destruct c
           end; reflexivity.
Qed.

Lemma close_position_request_witness :
  posted (snd (close_position resting_venue 4 gateway "cry" None))
  = (posted gateway
     ++ [mkPayload (upper "cry") "MARKET"
           (Py.min (Qabs (Asset.get_volume long_only_asset))
                   (Asset.maximum_trade_size long_only_asset))
           (if gt (Asset.get_volume long_only_asset) 0
            then "SELL" else "BUY")
           0 None])%list.
Proof.
  apply (close_position_request resting_venue 4 gateway "cry"
           long_only_asset).
  - reflexivity.
  - reflexivity.
  - discriminate.
Defined.

End ClosingFacts.

Section ReconcileFacts.
Import ApiTrading ApiOperations.

(** One iteration of the loop for an active order that is on record. *)
Lemma reconcile_one_known (check_order_status : Z -> option Status)
    (self : ApiTrading.t) (order_id : Z) (o : OrderBook.Order) :
  order_id ∈ active_orders self ->
  history_orders self !! order_id = Some o ->
  reconcile_one check_order_status self order_id
  = Ok (mk (portfolio self)
           (<[order_id := reconciled check_order_status order_id o]>
              (history_orders self))
           (if finished check_order_status order_id
            then {[order_id]} ∪ completed_orders self
            else completed_orders self)
           (if finished check_order_status order_id
            then active_orders self ∖ {[order_id]}
            else active_orders self)
           (order_timestamps self) (posted self)).
Proof.
  intros Hin Ho. unfold reconcile_one, finished, reconciled, getitem.
  destruct (check_order_status order_id) as [resp|].
  - rewrite Ho.
    destruct (Qle_bool (s_quantity resp) (s_quantity_filled resp));
      cbn [orb mbind result_bind].
    + destruct (decide (order_id ∈ active_orders self)); [reflexivity|].
      contradiction.
    + destruct (gt (s_quantity_filled resp) (OrderBook.filled_volume o));
        [reflexivity|].
      rewrite insert_id by exact Ho. destruct self; reflexivity.
  - rewrite insert_id by exact Ho. destruct self; reflexivity.
Qed.

(** The loop over distinct active orders that are on record: it returns,
    and the sets and records change order by order. *)
Lemma reconcile_loop_known (check_order_status : Z -> option Status)
    (copy_ : list Z) :
  forall self : ApiTrading.t,
    NoDup copy_ ->
    (forall order_id, order_id ∈ copy_ -> order_id ∈ active_orders self) ->
    active_orders self ⊆ dom (history_orders self) ->
    exists self',
      reconcile_loop check_order_status self copy_ = Ok self'
      /\ (forall order_id,
             order_id ∈ active_orders self' <->
             order_id ∈ active_orders self
             /\ ~ (order_id ∈ copy_
                   /\ finished check_order_status order_id = true))
      /\ (forall order_id,
             order_id ∈ completed_orders self' <->
             order_id ∈ completed_orders self
             \/ (order_id ∈ copy_
                 /\ finished check_order_status order_id = true))
      /\ (forall order_id,
             history_orders self' !! order_id
             = if decide (order_id ∈ copy_)
               then reconciled check_order_status order_id
                      <$> history_orders self !! order_id
               else history_orders self !! order_id)
      /\ portfolio self' = portfolio self
      /\ order_timestamps self' = order_timestamps self
      /\ posted self' = posted self.
Proof.
  induction copy_ as [|x rest IH]; intros self Hnd Hact Hdom.
  - exists self. cbn [reconcile_loop]. split; [reflexivity|].
    split; [intros id; pose proof (not_elem_of_nil id); tauto|].
    split; [intros id; pose proof (not_elem_of_nil id); tauto|].
    split; [|repeat split; reflexivity].
    intros id. destruct (decide (id ∈ [])) as [Hi|_]; [|reflexivity].
    exfalso. exact (not_elem_of_nil id Hi).
  - apply NoDup_cons in Hnd as [Hx Hnd].
    assert (Hxa : x ∈ active_orders self)
      by (apply Hact; apply list_elem_of_here).
    assert (Hxd : x ∈ dom (history_orders self)) by (apply Hdom; exact Hxa).
    apply elem_of_dom in Hxd as [o Ho].
    cbn [reconcile_loop].
    rewrite (reconcile_one_known _ _ _ _ Hxa Ho). rewrite bind_Ok.
    set (s1 := mk _ _ _ _ _ _).
    destruct (IH s1 Hnd) as (self' & Hrun & Ha & Hc & Hh & Hp & Hts & Hpo).
    + intros id Hid. subst s1. cbn [active_orders].
      assert (id <> x) by (intros ->; contradiction).
      assert (id ∈ active_orders self)
        by (apply Hact; apply list_elem_of_further; exact Hid).
      destruct (finished check_order_status x); [|assumption].
      apply elem_of_difference. split; [assumption|].
      rewrite elem_of_singleton. assumption.
    + subst s1. cbn [active_orders history_orders].
      rewrite dom_insert.
      destruct (finished check_order_status x); intros id Hid.
      * apply elem_of_difference in Hid as [Hid _].
        apply elem_of_union. right. apply Hdom. exact Hid.
      * apply elem_of_union. right. apply Hdom. exact Hid.
    + exists self'. split; [exact Hrun|].
      subst s1. cbn [active_orders completed_orders history_orders portfolio
                     order_timestamps posted] in *.
      split; [|split; [|split; [|repeat split; assumption]]].
      * intros id. rewrite Ha.
        destruct (finished check_order_status x) eqn:Hf.
        -- rewrite elem_of_difference, elem_of_singleton, elem_of_cons.
           split.
           ++ intros [[Hi Hne] Hn]. split; [exact Hi|].
              intros [[->|Hr] Hfin]; [contradiction|]. apply Hn. auto.
           ++ intros [Hi Hn]. split; [split; [exact Hi|]|].
              ** intros ->. apply Hn. auto.
              ** intros [Hr Hfin]. apply Hn. auto.
        -- rewrite elem_of_cons. split.
           ++ intros [Hi Hn]. split; [exact Hi|].
              intros [[->|Hr] Hfin]; [congruence|]. apply Hn. auto.
           ++ intros [Hi Hn]. split; [exact Hi|].
              intros [Hr Hfin]. apply Hn. auto.
      * intros id. rewrite Hc.
        destruct (finished check_order_status x) eqn:Hf.
        -- rewrite elem_of_union, elem_of_singleton, elem_of_cons.
           split.
           ++ intros [[->|Hi]|[Hr Hfin]]; auto.
           ++ intros [Hi|[[->|Hr] Hfin]]; auto.
        -- rewrite elem_of_cons. split.
           ++ intros [Hi|[Hr Hfin]]; auto.
           ++ intros [Hi|[[->|Hr] Hfin]]; [auto|congruence|auto].
      * intros id. rewrite Hh.
        destruct (decide (id = x)) as [->|Hne].
        -- destruct (decide (x ∈ rest)); [contradiction|].
           rewrite lookup_insert_eq.
           destruct (decide (x ∈ x :: rest)) as [_|Hn];
             [|exfalso; apply Hn; apply list_elem_of_here].
           rewrite Ho. reflexivity.
        -- rewrite lookup_insert_ne by congruence.
           destruct (decide (id ∈ rest)) as [Hr|Hr],
                    (decide (id ∈ x :: rest)) as [Hc'|Hc'];
             try reflexivity; exfalso.
           ++ apply Hc'. apply list_elem_of_further. exact Hr.
           ++ apply elem_of_cons in Hc' as [?|?]; contradiction.
Qed.

(** X24.  When every active order is on record, [update_order_status]
    returns; afterwards the active orders are the former active orders the
    venue does not report as filled in full, the completed orders have
    gained exactly those it does, and portfolio, time stamps and requests
    are unchanged. *)
Theorem update_order_status_moves_finished :
  forall (check_order_status : Z -> option Status) (self : ApiTrading.t),
    active_orders self ⊆ dom (history_orders self) ->
    exists self',
      update_order_status check_order_status self = Ok self'
      /\ (forall order_id,
             order_id ∈ active_orders self' <->
             order_id ∈ active_orders self
             /\ finished check_order_status order_id = false)
      /\ (forall order_id,
             order_id ∈ completed_orders self' <->
             order_id ∈ completed_orders self
             \/ (order_id ∈ active_orders self
                 /\ finished check_order_status order_id = true))
      /\ portfolio self' = portfolio self
      /\ order_timestamps self' = order_timestamps self
      /\ posted self' = posted self.
Proof.
  intros check_order_status self Hdom. unfold update_order_status.
  destruct (reconcile_loop_known check_order_status
              (elements (active_orders self)) self)
    as (self' & Hrun & Ha & Hc & _ & Hrest).
  - apply NoDup_elements.
  - intros id. apply elem_of_elements.
  - exact Hdom.
  - exists self'. split; [exact Hrun|].
    split; [|split; [|exact Hrest]].
    + intros id. rewrite Ha, elem_of_elements. split.
      * intros [Hi Hn]. split; [exact Hi|].
        destruct (finished check_order_status id); [|reflexivity].
        exfalso. apply Hn. auto.
      * intros [Hi Hf]. split; [exact Hi|]. intros [_ Hfin]. congruence.
    + intros id. rewrite Hc, elem_of_elements. reflexivity.
Qed.

Lemma update_order_status_moves_finished_witness :
  exists self',
    update_order_status filled_status busy_gateway = Ok self'
    /\ (forall order_id,
           order_id ∈ active_orders self' <->
           order_id ∈ active_orders busy_gateway
           /\ finished filled_status order_id = false)
    /\ (forall order_id,
           order_id ∈ completed_orders self' <->
           order_id ∈ completed_orders busy_gateway
           \/ (order_id ∈ active_orders busy_gateway
               /\ finished filled_status order_id = true))
    /\ portfolio self' = portfolio busy_gateway
    /\ order_timestamps self' = order_timestamps busy_gateway
    /\ posted self' = posted busy_gateway.
Proof.
  apply (update_order_status_moves_finished filled_status busy_gateway).
  refine (bool_decide_unpack _ _). vm_compute. exact I.
Defined.

(** X25.  When every active order is on record, [update_order_status]
    rewrites the record of each active order once, from the venue's answer
    for it (filled volume, remaining volume, VWAP, when filled in full or
    filled further), and leaves the records of all other orders alone. *)
Theorem update_order_status_records_fills :
  forall (check_order_status : Z -> option Status) (self : ApiTrading.t),
    active_orders self ⊆ dom (history_orders self) ->
    exists self',
      update_order_status check_order_status self = Ok self'
      /\ forall order_id,
          history_orders self' !! order_id
          = if decide (order_id ∈ active_orders self)
            then reconciled check_order_status order_id
                   <$> history_orders self !! order_id
            else history_orders self !! order_id.
Proof.
  intros check_order_status self Hdom. unfold update_order_status.
  destruct (reconcile_loop_known check_order_status
              (elements (active_orders self)) self)
    as (self' & Hrun & _ & _ & Hh & _).
  - apply NoDup_elements.
  - intros id. apply elem_of_elements.
  - exact Hdom.
  - exists self'. split; [exact Hrun|].
    intros id. rewrite Hh.
    destruct (decide (id ∈ elements (active_orders self))) as [Hi|Hi],
             (decide (id ∈ active_orders self)) as [Hj|Hj];
      try reflexivity; rewrite elem_of_elements in Hi; contradiction.
Qed.

Lemma update_order_status_records_fills_witness :
  exists self',
    update_order_status filled_status busy_gateway = Ok self'
    /\ forall order_id,
        history_orders self' !! order_id
        = if decide (order_id ∈ active_orders busy_gateway)
          then reconciled filled_status order_id
                 <$> history_orders busy_gateway !! order_id
          else history_orders busy_gateway !! order_id.
Proof.
  apply (update_order_status_records_fills filled_status busy_gateway).
  refine (bool_decide_unpack _ _). vm_compute. exact I.
Defined.

End ReconcileFacts.

(* ===================================================================== *)
(** ** Tenders and histories *)
(* ===================================================================== *)

Section TenderFacts.
Import ApiTrading ApiOperations.

(** X26.  [accept_tender_check_limits] returns 1 only when the limit check
    passes and the venue answers 200 with success, and then the tender is
    added to [accepted_tenders] after one request; it returns -1 with
    [accepted_tenders] unchanged otherwise, without any request when the
    limit check fails. *)
Theorem accept_tender_check_limits_outcomes :
  forall (tender_post : Z -> option Q -> TenderReply) (self : ApiTrading.t)
         (accepted_tenders : gset Z) (tender_id : Z) (asset_name : string)
         (volume : Q) (price : option Q)
         (code : Z) (accepted' : gset Z) (requests : list (Z * option Q)),
    accept_tender_check_limits tender_post self accepted_tenders tender_id
      asset_name volume price = Ok (code, accepted', requests) ->
    (code = 1%Z
     /\ Portfolio.check_limits (portfolio self) asset_name volume = Ok false
     /\ t_status_code (tender_post tender_id price) = 200%Z
     /\ t_success (tender_post tender_id price) = true
     /\ accepted' = {[tender_id]} ∪ accepted_tenders
     /\ requests = [(tender_id, price)])
    \/ (code = (-1)%Z
        /\ accepted' = accepted_tenders
        /\ ((Portfolio.check_limits (portfolio self) asset_name volume
             = Ok true /\ requests = [])
            \/ (Portfolio.check_limits (portfolio self) asset_name volume
                = Ok false
                /\ requests = [(tender_id, price)]
                /\ (t_status_code (tender_post tender_id price) <> 200%Z
                    \/ t_success (tender_post tender_id price) = false)))).
Proof.
  intros tender_post self accepted_tenders tender_id asset_name volume price
         code accepted' requests.
  unfold accept_tender_check_limits, accept_tender.
  destruct (Portfolio.check_limits (portfolio self) asset_name volume)
    as [[|]|e]; cbn [mbind result_bind]; [| |discriminate].
  - intros [= <- <- <-]. right. repeat split. left. split; reflexivity.
  - destruct (Z.eqb_spec (t_status_code (tender_post tender_id price)) 200)
      as [Hs|Hs].
    + destruct (t_success (tender_post tender_id price)) eqn:Hok;
        intros [= <- <- <-]; [left; repeat split; assumption|].
      right. split; [reflexivity|]. split; [reflexivity|]. right.
      split; [reflexivity|]. split; [reflexivity|]. right. reflexivity.
    + intros [= <- <- <-]. right.
      split; [reflexivity|]. split; [reflexivity|]. right.
      split; [reflexivity|]. split; [reflexivity|]. left. exact Hs.
Qed.

Lemma accept_tender_check_limits_outcomes_witness :
  (1%Z = 1%Z
   /\ Portfolio.check_limits (portfolio gateway) "CRY" 50 = Ok false
   /\ t_status_code (accepting_venue 5 None) = 200%Z
   /\ t_success (accepting_venue 5 None) = true
   /\ ({[5%Z]} ∪ ∅ : gset Z) = {[5%Z]} ∪ ∅
   /\ [(5%Z, @None Q)] = [(5%Z, None)])
  \/ (1%Z = (-1)%Z
      /\ ({[5%Z]} ∪ ∅ : gset Z) = ∅
      /\ ((Portfolio.check_limits (portfolio gateway) "CRY" 50 = Ok true
           /\ [(5%Z, @None Q)] = [])
          \/ (Portfolio.check_limits (portfolio gateway) "CRY" 50 = Ok false
              /\ [(5%Z, @None Q)] = [(5%Z, None)]
              /\ (t_status_code (accepting_venue 5 None) <> 200%Z
                  \/ t_success (accepting_venue 5 None) = false)))).
Proof.
  apply (accept_tender_check_limits_outcomes accepting_venue gateway ∅ 5
           "CRY" 50 None 1 ({[5%Z]} ∪ ∅) [(5%Z, None)]).
  reflexivity.
Defined.

End TenderFacts.

Section TenderBookFacts.
Import TenderBook.

(** X27.  Every current tender stays on record: if [tenders] is contained
    in [history_tenders], it still is after [add_tender], [delete_tender],
    [clear_tenders] and [clear_expired_tenders]. *)
Theorem tender_book_current_within_history :
  forall (self : TenderBook.t) (tender : Tender) (tender_id : string)
         (current_tick : Z),
    tenders self ⊆ history_tenders self ->
    tenders (add_tender self tender) ⊆ history_tenders (add_tender self tender)
    /\ tenders (delete_tender self tender_id)
         ⊆ history_tenders (delete_tender self tender_id)
    /\ tenders (clear_tenders self) ⊆ history_tenders (clear_tenders self)
    /\ tenders (clear_expired_tenders self current_tick)
         ⊆ history_tenders (clear_expired_tenders self current_tick).
Proof.
  intros self tender tender_id current_tick Hsub.
  split; [|split; [|split]].
  - cbn [add_tender tenders history_tenders]. apply insert_mono. exact Hsub.
  - unfold delete_tender. destruct (tenders self !! tender_id); [|exact Hsub].
    cbn [tenders history_tenders].
    transitivity (tenders self); [apply delete_subseteq|exact Hsub].
  - cbn [clear_tenders tenders history_tenders]. apply map_empty_subseteq.
  - cbn [clear_expired_tenders tenders history_tenders].
    transitivity (tenders self); [apply map_filter_subseteq|exact Hsub].
Qed.

Lemma tender_book_current_within_history_witness :
  tenders (add_tender one_tender_book one_tender)
    ⊆ history_tenders (add_tender one_tender_book one_tender)
  /\ tenders (delete_tender one_tender_book "T1")
       ⊆ history_tenders (delete_tender one_tender_book "T1")
  /\ tenders (clear_tenders one_tender_book)
       ⊆ history_tenders (clear_tenders one_tender_book)
  /\ tenders (clear_expired_tenders one_tender_book 31)
       ⊆ history_tenders (clear_expired_tenders one_tender_book 31).
Proof.
  apply (tender_book_current_within_history one_tender_book one_tender "T1"
           31).
  reflexivity.
Defined.

End TenderBookFacts.

Section HistoryFacts.
Import History.

(** X28.  [record_transaction] keys a transaction by the length of the
    price history, so of two transactions recorded without a price update
    in between only the second is kept. *)
Theorem record_transaction_overwrites :
  forall (self : History.t) (id1 period1 : Z) (price1 quantity1 : Q)
         (tick1 : Z) (id2 period2 : Z) (price2 quantity2 : Q) (tick2 : Z),
    record_transaction
      (record_transaction self id1 period1 price1 quantity1 tick1)
      id2 period2 price2 quantity2 tick2
    = record_transaction self id2 period2 price2 quantity2 tick2.
Proof.
  intros. unfold record_transaction, next_key.
  cbn [transaction_history price_history last best_bid best_ask].
  rewrite dict_set_set. reflexivity.
Qed.

(** [n] is not among [0 .. n-1]. *)
Lemma seq_fresh (n : nat) : ~ In n (seq 0 n).
Proof. rewrite in_seq. lia. Qed.

(** The next key is the length of the price history. *)
Lemma next_key_length (self : History.t) :
  next_key self = length (price_history self).
Proof. unfold next_key. destruct (price_history self); reflexivity. Qed.

(** X29.  On a price history keyed 0, 1, ..., n-1, [update_price_history]
    appends under key n: the keys stay dense, the price series gains the
    new last price at its end, [get_n_last_prices(1)] returns it, and
    [last] holds it. *)
Theorem update_price_history_appends :
  forall (self : History.t) (last_price best_bid best_ask : Q),
    map fst (price_history self) = seq 0 (length (price_history self)) ->
    let self' := update_price_history self last_price best_bid best_ask in
    map fst (price_history self')
    = seq 0 (length (price_history self'))
    /\ length (price_history self') = S (length (price_history self))
    /\ get_price_history self'
       = (get_price_history self ++ [last_price])%list
    /\ get_n_last_prices self' 1 = [last_price]
    /\ History.last self' = last_price.
Proof.
  intros self last_price best_bid best_ask Hkeys self'. subst self'.
  unfold get_n_last_prices, get_price_history, update_price_history.
  cbn [price_history History.last].
  rewrite next_key_length.
  rewrite dict_set_fresh by (rewrite Hkeys; apply seq_fresh).
  rewrite !map_app, !length_app, !length_map. cbn [map length fst snd q_last].
  rewrite Hkeys, Nat.add_1_r, seq_S. cbn [Nat.add].
  split; [reflexivity|]. split; [reflexivity|]. split; [reflexivity|].
  split; [|reflexivity].
  replace (S (length (price_history self)) - 1)%nat
    with (length (map (fun item => q_last item.2) (price_history self)) + 0)%nat
    by (rewrite length_map; lia).
  rewrite skipn_app, skipn_all2 by (rewrite !length_map; lia).
  rewrite length_map.
  replace (length (price_history self) + 0 - length (price_history self))%nat
    with 0%nat by lia.
  reflexivity.
Qed.

Lemma update_price_history_appends_witness :
  let self' := update_price_history two_updates 14 13 15 in
  map fst (price_history self') = seq 0 (length (price_history self'))
  /\ length (price_history self') = S (length (price_history two_updates))
  /\ get_price_history self' = (get_price_history two_updates ++ [14])%list
  /\ get_n_last_prices self' 1 = [14]
  /\ History.last self' = 14.
Proof.
  apply (update_price_history_appends two_updates 14 13 15).
  reflexivity.
Defined.

End HistoryFacts.

(* ===================================================================== *)
(** ** The cross-ETF signal *)
(* ===================================================================== *)

Section ETFSignalFacts.
Import OrderBook BankAccount ETFSignal.

(** A complete fill of a positive quantity costs more than [lo] per
    share when every price is above [lo]. *)
Lemma fill_loop_cost_gt lo l :
  nonneg_volumes l -> Forall (fun o => lo < price o) l ->
  forall tc u, 0 < u -> snd (fill_loop l tc u) <= 0 ->
    lo * u < fst (fill_loop l tc u) - tc.
Proof.
  induction 1 as [|o l Ho Hl IH]; intros Hb tc u Hu Hs; simpl in *.
  - lra.
  - inversion Hb as [|? ? Hlo Hb']; subst.
    destruct (Qlt_le_dec 0 u) as [Hpos|Hc]; [|lra].
    destruct (Qlt_le_dec (volume o) u) as [Hv|Hv].
    + specialize (IH Hb' (tc + price o * volume o) (u - volume o)
                    ltac:(lra) Hs). nra.
    + rewrite fill_loop_done. simpl. nra.
Qed.

(** What a market total is made of. *)
Lemma market_total_unfold self q side c :
  among side "buy" "sell" = true -> 0 < q ->
  calculate_total_profit self q "market" side None = Ok c ->
  snd (fill_loop (market_side self side) 0 q) <= 0
  /\ c = (if String.eqb side "buy"
          then fst (fill_loop (market_side self side) 0 q) / q
               + transaction_fee self
          else fst (fill_loop (market_side self side) 0 q) / q
               - transaction_fee self) * q.
Proof.
  intros Ha Hq. destruct (side_valid side Ha) as [-> | ->];
    unfold calculate_total_profit, calculate_vwap_market_price, market_side;
    simpl; destruct (fill_loop _ 0 q) as [tc u]; simpl;
    (destruct (Qlt_le_dec 0 u); [discriminate|]);
    unfold div; (destruct (Qeq_dec q 0); [lra|]);
    rewrite !bind_Ok; simpl; intros [= <-]; (split; [assumption|reflexivity]).
Qed.

(** Buying at market on an uncrossed book costs at least the mid price
    per share. *)
Lemma market_buy_total_ge self mid q c :
  uncrossed_at self mid -> 0 < q ->
  calculate_total_profit self q "market" "buy" None = Ok c ->
  mid * q <= c.
Proof.
  intros [Hva _ Ha _ _ Hfee _] Hq Hc.
  apply market_total_unfold in Hc as [Hs ->]; [|reflexivity|exact Hq].
  cbn [String.eqb Ascii.eqb Bool.eqb] in *. unfold market_side in *.
  cbn [String.eqb Ascii.eqb Bool.eqb] in *.
  pose proof (fill_loop_cost_ge mid _ Hva Ha 0 q ltac:(lra) Hs) as Hge.
  set (tc := fst (fill_loop (ask_head self) 0 q)) in *.
  assert (tc / q * q == tc) as E by (field; lra).
  nra.
Qed.

(** Selling at market on an uncrossed book earns a positive amount, at
    most the mid price per share. *)
Lemma market_sell_total_range self mid q c :
  uncrossed_at self mid -> 0 < q ->
  calculate_total_profit self q "market" "sell" None = Ok c ->
  0 < c <= mid * q.
Proof.
  intros [_ Hvb _ Hb Hfloor Hfee _] Hq Hc.
  apply market_total_unfold in Hc as [Hs ->]; [|reflexivity|exact Hq].
  cbn [String.eqb Ascii.eqb Bool.eqb] in *. unfold market_side in *.
  cbn [String.eqb Ascii.eqb Bool.eqb] in *.
  pose proof (fill_loop_cost_le mid _ Hvb Hb 0 q ltac:(lra) Hs) as Hle.
  pose proof (fill_loop_cost_gt (transaction_fee self) _ Hvb Hfloor 0 q
                Hq Hs) as Hgt.
  set (tc := fst (fill_loop (bid_head self) 0 q)) in *.
  assert (tc / q * q == tc) as E by (field; lra).
  split; nra.
Qed.

(** A positive amount is converted at the buy rate. *)
Lemma conversion_of_positive bank_account currency x y :
  positive_rate bank_account currency -> 0 < x ->
  currency_value_conversion bank_account currency "CAD" x = Ok y ->
  exists k,
    get_exchange_rate bank_account currency "CAD" "buy" = Ok k
    /\ 0 < k /\ y = x / k.
Proof.
  intros Hrate Hx. unfold currency_value_conversion.
  destruct (Qlt_le_dec 0 x) as [_|Hc]; [|lra].
  destruct (get_exchange_rate bank_account currency "CAD" "buy")
    as [k|e] eqn:Hk; [|discriminate].
  rewrite bind_Ok. unfold div.
  destruct (Qeq_dec k 0); [discriminate|].
  intros [= <-]. exists k. split; [reflexivity|].
  split; [apply Hrate; exact Hk|reflexivity].
Qed.

(** X30.  On two uncrossed books with bids above the fee, positive
    exchange rates and thresholds that are not negative,
    [generate_etf_signal] never reports conflicting signals: buying one
    ETF and selling the other cannot clear the threshold in both
    directions. *)
Theorem etf_signal_no_conflict_when_uncrossed :
  forall (book_joyc book_joyu : Book) (bank_account : BankAccount.t)
         (quantity profit_threshold_buyc profit_threshold_sellc : Q)
         (mid_c mid_u : Q),
    uncrossed_at book_joyc mid_c ->
    uncrossed_at book_joyu mid_u ->
    positive_rate bank_account (currency book_joyc) ->
    positive_rate bank_account (currency book_joyu) ->
    0 < quantity ->
    0 <= profit_threshold_buyc ->
    0 <= profit_threshold_sellc ->
    generate_etf_signal book_joyc book_joyu bank_account quantity
      profit_threshold_buyc profit_threshold_sellc <> Ok Conflict.
Proof.
  intros book_joyc book_joyu bank_account quantity thb ths mid_c mid_u
         Hc Hu Hrc Hru Hq Hthb Hths.
  unfold generate_etf_signal.
  destruct (calculate_total_profit book_joyc quantity "market" "buy" None)
    as [cost1|e] eqn:Hcost1; [|discriminate].
  destruct (calculate_total_profit book_joyu quantity "market" "sell" None)
    as [profit1|e] eqn:Hprofit1; [|discriminate].
  rewrite !bind_Ok.
  pose proof (market_buy_total_ge _ _ _ _ Hc Hq Hcost1) as Bc.
  pose proof (market_sell_total_range _ _ _ _ Hu Hq Hprofit1) as Su.
  pose proof (mid_positive _ _ Hc) as Mc.
  pose proof (mid_positive _ _ Hu) as Mu.
  assert (0 < cost1) as Pc1 by nra.
  destruct (currency_value_conversion bank_account (currency book_joyc)
              "CAD" cost1) as [cost1_cad|e] eqn:Hcc1; [|discriminate].
  destruct (currency_value_conversion bank_account (currency book_joyu)
              "CAD" profit1) as [profit1_cad|e] eqn:Hpc1; [|discriminate].
  rewrite !bind_Ok.
  destruct (calculate_total_profit book_joyu quantity "market" "buy" None)
    as [cost2|e] eqn:Hcost2; [|discriminate].
  destruct (calculate_total_profit book_joyc quantity "market" "sell" None)
    as [profit2|e] eqn:Hprofit2; [|discriminate].
  rewrite !bind_Ok.
  pose proof (market_buy_total_ge _ _ _ _ Hu Hq Hcost2) as Bu.
  pose proof (market_sell_total_range _ _ _ _ Hc Hq Hprofit2) as Sc.
  assert (0 < cost2) as Pc2 by nra.
  destruct (currency_value_conversion bank_account (currency book_joyu)
              "CAD" cost2) as [cost2_cad|e] eqn:Hcc2; [|discriminate].
  destruct (currency_value_conversion bank_account (currency book_joyc)
              "CAD" profit2) as [profit2_cad|e] eqn:Hpc2; [|discriminate].
  rewrite !bind_Ok.
  apply conversion_of_positive in Hcc1 as (kc & Hkc & Pkc & ->);
    [|assumption|assumption].
  apply conversion_of_positive in Hpc1 as (ku & Hku & Pku & ->);
    [|assumption|lra].
  apply conversion_of_positive in Hcc2 as (ku' & Hku' & _ & ->);
    [|assumption|assumption].
  apply conversion_of_positive in Hpc2 as (kc' & Hkc' & _ & ->);
    [|assumption|lra].
  assert (ku' = ku) as -> by congruence.
  assert (kc' = kc) as -> by congruence.
  unfold gt.
  destruct (Qlt_le_dec thb (profit1 / ku - cost1 / kc)) as [H1|H1];
    destruct (Qlt_le_dec ths (profit2 / kc - cost2 / ku)) as [H2|H2];
    cbn; try discriminate.
  exfalso.
  assert (0 < / kc) as Ikc by (apply Qinv_lt_0_compat; exact Pkc).
  assert (0 < / ku) as Iku by (apply Qinv_lt_0_compat; exact Pku).
  unfold Qdiv in H1, H2.
  assert (profit1 <= cost2) by lra.
  assert (profit2 <= cost1) by lra.
  nra.
Qed.

Lemma etf_signal_no_conflict_when_uncrossed_witness :
  generate_etf_signal joyc_book joyu_book quoted_account 100 100 100
  <> Ok Conflict.
Proof.
  apply (etf_signal_no_conflict_when_uncrossed joyc_book joyu_book
           quoted_account 100 100 100 (81 # 2) (19 # 2)).
  - split; repeat constructor; first [discriminate | reflexivity].
  - split; repeat constructor; first [discriminate | reflexivity].
  - intros k H. vm_compute in H. injection H as <-. reflexivity.
  - intros k H. vm_compute in H. injection H as <-. reflexivity.
  - reflexivity.
  - discriminate.
  - discriminate.
Defined.

End ETFSignalFacts.
